(** * parts-scraper: the resumable enrichment pipeline and the make-extraction
    heuristics, embedded from [src/backend/main.py] and
    [src/rockauto_scraper.py].

    Conventions of the embedding.
    - Python [str] values are [string]s; the text functions below implement
      the ASCII behaviour of [str.upper], [str.lower], [str.title],
      [str.strip], [str.split] and of the [re] classes [\w], [\s], [\d].
      The make dictionary, the alias table, the stoplist and every token
      selected by an [[A-Z]] pattern are ASCII.
    - Python [int] values are [Z]; list positions and lengths are [nat].
    - A quantity is a Python [int] or a Python [float], whichever pandas
      made of the [Qty] column.  The leaderboard is written once for both
      (class [Quantity]); the session state machine below carries integer
      quantities.
    - The leaderboard is a Python [dict], whose iteration order is insertion
      order and is observable through [sorted]; it is an association list
      kept in insertion order.
    - The [sessions/] and [history/] directories are finite maps from
      session ids to the documents saved there; whether a write succeeds
      is given by the environment.
    - The handlers and the worker run on one asyncio event loop: a handler
      runs only while the worker is suspended in an [await].  The worker
      suspends twice per record, in its two progress callbacks; the lookup
      itself is a blocking call.  A Stop request is served at one of these
      two points; no other request arrives during a run.
    - [Backend.broadcast] is a broadcast during whose sends no other
      coroutine runs.  What the coroutines of the connections do to the
      registry while a broadcast awaits a send is written out in
      [Interleaving]; without such turns the two agree.
    - The browser is outside the model: the environment gives the outcome
      of the lookup of every part. *)

From Stdlib Require Import ZArith Ascii String List Bool Lia Permutation Sorted.
From Stdlib Require Floats.
From stdpp Require Import base strings list gmap.

Local Open Scope Z_scope.

(** ** Python text primitives (ASCII) *)

Module Text.

Definition code (c : ascii) : N := N_of_ascii c.

Definition in_range (lo hi : N) (c : ascii) : bool :=
  (N.leb lo (code c)) && (N.leb (code c) hi).

Definition is_lower (c : ascii) : bool := in_range 97 122 c.
Definition is_upper (c : ascii) : bool := in_range 65 90 c.
Definition is_digit (c : ascii) : bool := in_range 48 57 c.
Definition is_cased (c : ascii) : bool := is_lower c || is_upper c.

(** [str.isspace] on one ASCII character, which is also the [re] class
    [\s] and the default separator set of [strip] and [split]:
    TAB, LF, VT, FF, CR, FS, GS, RS, US and the space. *)
Definition is_space (c : ascii) : bool :=
  in_range 9 13 c || in_range 28 32 c.

(** The [re] class [\w]: letters, digits and the underscore. *)
Definition is_word (c : ascii) : bool :=
  is_lower c || is_upper c || is_digit c || N.eqb (code c) 95.

Definition upper_char (c : ascii) : ascii :=
  if is_lower c then ascii_of_N (code c - 32) else c.

Definition lower_char (c : ascii) : ascii :=
  if is_upper c then ascii_of_N (code c + 32) else c.

Fixpoint upper (s : string) : string :=
  match s with
  | EmptyString => EmptyString
  | String c s' => String (upper_char c) (upper s')
  end.

Fixpoint lower (s : string) : string :=
  match s with
  | EmptyString => EmptyString
  | String c s' => String (lower_char c) (lower s')
  end.

(** [str.title]: a cased character is upper-cased when the character
    before it is not cased, and lower-cased otherwise. *)
Fixpoint title_go (previous_is_cased : bool) (s : string) : string :=
  match s with
  | EmptyString => EmptyString
  | String c s' =>
      String (if previous_is_cased then lower_char c else upper_char c)
             (title_go (is_cased c) s')
  end.

Definition title (s : string) : string := title_go false s.

Fixpoint lstrip (s : string) : string :=
  match s with
  | EmptyString => EmptyString
  | String c s' => if is_space c then lstrip s' else s
  end.

Fixpoint rstrip (s : string) : string :=
  match s with
  | EmptyString => EmptyString
  | String c s' =>
      match rstrip s' with
      | EmptyString => if is_space c then EmptyString else String c EmptyString
      | r => String c r
      end
  end.

Definition strip (s : string) : string := rstrip (lstrip s).

(** [s.split(sep)] for a one-character separator. *)
Fixpoint split_on (sep : ascii) (s : string) : list string :=
  match s with
  | EmptyString => [EmptyString]
  | String c s' =>
      if Ascii.eqb c sep then EmptyString :: split_on sep s'
      else match split_on sep s' with
           | w :: ws => String c w :: ws
           | [] => [String c EmptyString]
           end
  end.

(** [s.split()]: maximal runs of non-space characters. *)
Fixpoint words_go (cur : string) (s : string) : list string :=
  match s with
  | EmptyString =>
      match cur with EmptyString => [] | _ => [String.rev cur] end
  | String c s' =>
      if is_space c
      then match cur with
           | EmptyString => words_go EmptyString s'
           | _ => String.rev cur :: words_go EmptyString s'
           end
      else words_go (String c cur) s'
  end.

Definition split (s : string) : list string := words_go EmptyString s.

(** [sep.join(l)] *)
Fixpoint join (sep : string) (l : list string) : string :=
  match l with
  | [] => EmptyString
  | [x] => x
  | x :: rest => x +:+ sep +:+ join sep rest
  end.

Fixpoint keep (p : ascii -> bool) (s : string) : string :=
  match s with
  | EmptyString => EmptyString
  | String c s' => if p c then String c (keep p s') else keep p s'
  end.

(** [needle in s] *)
Fixpoint contains (needle s : string) : bool :=
  String.prefix needle s ||
  match s with
  | EmptyString => false
  | String _ s' => contains needle s'
  end.

(** membership of a string in a Python set or list literal *)
Definition inb (x : string) (l : list string) : bool :=
  existsb (String.eqb x) l.

(** [set.add] on a set kept as a duplicate-free list *)
Definition set_add (x : string) (l : list string) : list string :=
  if inb x l then l else l ++ [x].

(** [sorted] on strings: code-point order, by insertion. *)
Fixpoint insert_sorted (x : string) (l : list string) : list string :=
  match l with
  | [] => [x]
  | y :: l' => if String.leb x y then x :: l else y :: insert_sorted x l'
  end.

Definition sorted (l : list string) : list string :=
  fold_right insert_sorted [] l.

(** [list(set(l))] followed by [.sort()] *)
Definition sorted_set (l : list string) : list string :=
  sorted (fold_left (fun acc x => set_add x acc) l []).

End Text.

(** ** The fragment of [re] the scraper uses *)

Module Regex.
Import Text.

Inductive regex : Type :=
| REps
| RChar (p : ascii -> bool)
| RSeq (r1 r2 : regex)
| RAlt (r1 r2 : regex)
| RStar (r : regex)
| RGroup (i : nat) (r : regex)
| RBoundary.

Definition captures : Type := list (nat * list ascii).

Definition is_word_at (c : option ascii) : bool :=
  match c with Some a => is_word a | None => false end.

(** Backtracking matcher in continuation-passing style: alternatives are
    tried left to right and [RStar] is greedy, as in [re].  [prev] is the
    character before the current position, for [\b]. *)
Fixpoint rmatch {R : Type} (r : regex) (prev : option ascii)
    (s : list ascii) (caps : captures)
    (k : option ascii -> list ascii -> captures -> option R) : option R :=
  match r with
  | REps => k prev s caps
  | RChar p =>
      match s with
      | c :: s' => if p c then k (Some c) s' caps else None
      | [] => None
      end
  | RSeq r1 r2 =>
      rmatch r1 prev s caps (fun prev' s' caps' => rmatch r2 prev' s' caps' k)
  | RAlt r1 r2 =>
      match rmatch r1 prev s caps k with
      | Some x => Some x
      | None => rmatch r2 prev s caps k
      end
  | RStar r' =>
      (fix star (n : nat) (prev0 : option ascii) (s0 : list ascii)
           (caps0 : captures) {struct n} : option R :=
         match n with
         | O => k prev0 s0 caps0
         | S n' =>
             match rmatch r' prev0 s0 caps0
                     (fun prev' s' caps' =>
                        if Nat.ltb (length s') (length s0)
                        then star n' prev' s' caps' else None) with
             | Some x => Some x
             | None => k prev0 s0 caps0
             end
         end) (S (length s)) prev s caps
  | RGroup i r' =>
      rmatch r' prev s caps
        (fun prev' s' caps' =>
           k prev' s' ((i, firstn (length s - length s') s) :: caps'))
  | RBoundary =>
      if xorb (is_word_at prev) (is_word_at (head s))
      then k prev s caps else None
  end.

Definition RPlus (r : regex) : regex := RSeq r (RStar r).
Definition ROpt (r : regex) : regex := RAlt r REps.
Definition RLit (s : string) : regex :=
  fold_right (fun c r => RSeq (RChar (Ascii.eqb c)) r) REps
             (list_ascii_of_string s).

Definition group (caps : captures) (i : nat) : string :=
  match find (fun p => Nat.eqb (fst p) i) caps with
  | Some (_, g) => string_of_list_ascii g
  | None => EmptyString
  end.

(** One match attempt at the current position: the captures, the text
    after the match and the last character before that text. *)
Definition match_here (r : regex) (prev : option ascii) (s : list ascii)
  : option (captures * option ascii * list ascii) :=
  rmatch r prev s [] (fun prev' s' caps' => Some (caps', prev', s')).

(** [re.search]: the leftmost match. *)
Fixpoint search_from (r : regex) (prev : option ascii) (s : list ascii)
  : option captures :=
  match match_here r prev s with
  | Some (caps, _, _) => Some caps
  | None =>
      match s with
      | [] => None
      | c :: s' => search_from r (Some c) s'
      end
  end.

Definition search (r : regex) (s : string) : option captures :=
  search_from r None (list_ascii_of_string s).

(** [re.findall]: the non-overlapping matches, left to right.  A match
    that consumes nothing restarts one character further. *)
Fixpoint findall_from (fuel : nat) (r : regex) (prev : option ascii)
    (s : list ascii) : list captures :=
  match fuel with
  | O => []
  | S fuel' =>
      match match_here r prev s with
      | Some (caps, prev', s') =>
          if Nat.ltb (length s') (length s)
          then caps :: findall_from fuel' r prev' s'
          else match s with
               | [] => [caps]
               | c :: s1 => caps :: findall_from fuel' r (Some c) s1
               end
      | None =>
          match s with
          | [] => []
          | c :: s1 => findall_from fuel' r (Some c) s1
          end
      end
  end.

Definition findall (r : regex) (s : string) : list captures :=
  let l := list_ascii_of_string s in
  findall_from (S (length l)) r None l.

End Regex.


(** ** The make-extraction engine ([rockauto_scraper.AutoPartsDetector]) *)

Module Extraction.
Import Text Regex.

Definition known_makes : list string :=
  [ "FORD"; "CHEVROLET"; "CHEVY"; "DODGE"; "TOYOTA"; "HONDA"; "NISSAN";
    "BMW"; "MERCEDES"; "AUDI"; "VOLKSWAGEN"; "SUBARU"; "MAZDA";
    "HYUNDAI"; "KIA"; "JEEP"; "CHRYSLER"; "BUICK"; "CADILLAC";
    "ACURA"; "INFINITI"; "LEXUS"; "LINCOLN"; "VOLVO"; "SAAB";
    "MITSUBISHI"; "ISUZU"; "SUZUKI"; "PONTIAC"; "OLDSMOBILE";
    "SATURN"; "MERCURY"; "PLYMOUTH"; "EAGLE"; "GEO" ].

Definition _is_known_make (make : string) : bool :=
  inb (upper make) known_makes.

Definition _normalize_make (make : string) : string :=
  let make_upper := upper make in
  if String.eqb make_upper "CHEVY" then "Chevrolet" else title make.

Definition invalid_terms : list string :=
  [ "part"; "parts"; "auto"; "car"; "vehicle"; "search"; "catalog"; "home" ].

Definition _is_valid_make (make : string) : bool :=
  negb (inb (lower make) invalid_terms) && Nat.ltb 1 (String.length make).

Definition RCat (rs : list regex) : regex := fold_right RSeq REps rs.

Definition char_in (cs : string) (c : ascii) : bool :=
  existsb (Ascii.eqb c) (list_ascii_of_string cs).

(** [\b(19|20)\d{2}[-\s]+([A-Z][A-Z]+)] *)
Definition year_make_re : regex :=
  RCat [ RBoundary;
         RGroup 1 (RAlt (RLit "19") (RLit "20"));
         RChar is_digit; RChar is_digit;
         RPlus (RChar (fun c => char_in "-" c || is_space c));
         RGroup 2 (RSeq (RChar is_upper) (RPlus (RChar is_upper))) ].

(** [(?:fits?|compatible|for)[:.\s]*([A-Z\s,]+)] *)
Definition fits_re : regex :=
  RCat [ RAlt (RSeq (RLit "fit") (ROpt (RLit "s")))
              (RAlt (RLit "compatible") (RLit "for"));
         RStar (RChar (fun c => char_in ":." c || is_space c));
         RGroup 1
           (RPlus (RChar (fun c => is_upper c || is_space c || char_in "," c))) ].

(** [\b([A-Z]{3,})\b] *)
Definition make_token_re : regex :=
  RCat [ RBoundary;
         RGroup 1 (RCat [ RChar is_upper; RChar is_upper; RChar is_upper;
                          RStar (RChar is_upper) ]);
         RBoundary ].

(** [if self._is_known_make(m): makes.add(self._normalize_make(m))] *)
Definition add_if_known (makes : list string) (m : string) : list string :=
  if _is_known_make m then set_add (_normalize_make m) makes else makes.

(** Method 1: year-make patterns like "2008 HONDA". *)
Definition year_make_matches (text_upper : string) : list string :=
  map (fun caps => group caps 2) (findall year_make_re text_upper).

(** Method 2: standalone make names; [re.sub(r'[^\w]', '', word)]. *)
Definition standalone_words (text_upper : string) : list string :=
  map (keep is_word) (split text_upper).

(** Method 3: patterns like "Fits: FORD HONDA". *)
Definition fits_match (text_upper : string) : option captures :=
  search fits_re text_upper.

Definition potential_makes (text_upper : string) : list string :=
  match fits_match text_upper with
  | Some caps => map (fun c => group c 1) (findall make_token_re (group caps 1))
  | None => []
  end.

(** The body of the loop over the cells of a row: [cell] is
    [cell.get_text()]. *)
Definition extract_cell (makes : list string) (cell : string) : list string :=
  let text := strip cell in
  match text with
  | EmptyString => makes
  | _ =>
      let text_upper := upper text in
      let makes1 := fold_left add_if_known (year_make_matches text_upper) makes in
      let makes2 := fold_left add_if_known (standalone_words text_upper) makes1 in
      fold_left add_if_known (potential_makes text_upper) makes2
  end.

(** The buyers-guide panel as BeautifulSoup presents it: the panel's
    [get_text()] and, for every [tr], the [get_text()] of its [td]s. *)
Record Popup : Type := {
  popup_get_text : string;
  popup_rows : list (list string)
}.

(** [popup] is [soup.find('div', id='buyersguidepopup-outer_b')]. *)
Definition _extract_makes_from_popup (popup : option Popup) : list string :=
  match popup with
  | None => []
  | Some p =>
      let popup_text := strip (popup_get_text p) in
      if contains "no applications found" (lower popup_text) then []
      else
        let rows := popup_rows p in
        let makes0 :=
          match rows with
          | [] => fold_left add_if_known
                    (map (keep is_word) (split (upper popup_text))) []
          | _ => []
          end in
        fold_left
          (fun makes cells => fold_left extract_cell (firstn 5 cells) makes)
          (firstn 10 rows) makes0
  end.

(** The clause as the specification words it: the text that follows the
    first occurrence of a keyword is scanned for upper-case tokens of
    three letters or more, and those of the dictionary are candidates. *)
Definition fits_keywords : list string := [ "FITS"; "COMPATIBLE"; "FOR" ].

Fixpoint string_drop (n : nat) (s : string) : string :=
  match n, s with
  | S n', String _ s' => string_drop n' s'
  | _, _ => s
  end.

Fixpoint after_first_keyword (text_upper : string) : option string :=
  match find (fun kw => String.prefix kw text_upper) fits_keywords with
  | Some kw => Some (string_drop (String.length kw) text_upper)
  | None =>
      match text_upper with
      | EmptyString => None
      | String _ s' => after_first_keyword s'
      end
  end.

Definition fits_clause_spec (cell : string) : list string :=
  match after_first_keyword (upper (strip cell)) with
  | Some rest =>
      List.filter _is_known_make
        (map (fun c => group c 1) (findall make_token_re rest))
  | None => []
  end.

End Extraction.

(** ** The leaderboard ([ProcessingState.make_leaderboard]) *)

Module Leaderboard.
Import Text.

(** A quantity is what pandas has read from the [Qty] column and
    [categorize_parts] copies into the part unconverted
    ([row.get('Qty', 0)]): a Python [int] when every cell of the column is
    an integer, a Python [float] when a cell is decimal or empty, an empty
    cell being NaN.  [update_leaderboard] and [get_top_makes] use three
    things of a quantity: the literal [0], [+=] and the [<] of [sorted]. *)
Class Quantity (W : Type) : Type := {
  q_zero : W;
  q_add : W -> W -> W;
  q_lt : W -> W -> bool
}.

(** Python [int]: arithmetic and order are exact. *)
Global Instance int_quantity : Quantity Z :=
  {| q_zero := 0; q_add := Z.add; q_lt := Z.ltb |}.

(** Python [float]: IEEE 754 binary64, sums rounded to nearest-even, NaN
    unordered.  The [0] a new entry starts from is an [int]; [0 + x]
    converts it to [0.0] before the sum. *)
Global Instance float_quantity : Quantity PrimFloat.float :=
  {| q_zero := PrimFloat.zero; q_add := PrimFloat.add; q_lt := PrimFloat.ltb |}.

(** [{'count': int, 'weighted_count': int}] in the words of the source;
    the weighted count is a sum of quantities. *)
Record Entry (W : Type) : Type := { count : Z; weighted_count : W }.
Arguments Build_Entry {W} count weighted_count.
Arguments count {W} e.
Arguments weighted_count {W} e.

(** [{make: entry}], in insertion order, keys pairwise distinct. *)
Definition leaderboard (W : Type) : Type := list (string * Entry W).

Definition NOT_FOUND : string := "NOT_FOUND".

Fixpoint lookup_make {W : Type} (make : string) (lb : leaderboard W)
  : option (Entry W) :=
  match lb with
  | [] => None
  | (m, e) :: lb' => if String.eqb m make then Some e else lookup_make make lb'
  end.

(** The body of the loop of [update_leaderboard]: create the entry at the
    end of the dictionary when the make is new, then add to both counts. *)
Fixpoint bump {W : Type} `{Quantity W} (make : string) (quantity : W)
    (lb : leaderboard W) : leaderboard W :=
  match lb with
  | [] => [(make, {| count := 0 + 1; weighted_count := q_add q_zero quantity |})]
  | (m, e) :: lb' =>
      if String.eqb m make
      then (m, {| count := count e + 1;
                  weighted_count := q_add (weighted_count e) quantity |}) :: lb'
      else (m, e) :: bump make quantity lb'
  end.

Definition nonempty (s : string) : bool :=
  match s with EmptyString => false | _ => true end.

(** [[make.strip() for make in makes_list.split(',') if make.strip()]] *)
Definition split_makes (makes_list : string) : list string :=
  List.filter nonempty (map strip (split_on "," makes_list)).

Definition update_leaderboard {W : Type} `{Quantity W} (lb : leaderboard W)
    (makes_list : string) (quantity : W) : leaderboard W :=
  if nonempty makes_list && negb (String.eqb makes_list NOT_FOUND)
  then fold_left (fun acc make => bump make quantity acc) (split_makes makes_list) lb
  else lb.

(** *** [sorted]

    [sorted(items, key=..., reverse=True)] is CPython's [list.sort] on a
    copy.  With [reverse] the list is reversed, sorted in ascending order
    and reversed again.  The ascending sort of a list of fewer than 64
    items finds the run the list starts with ([count_run]), reverses it
    when it is strictly descending, and puts the remaining items into it
    one by one by binary search ([binarysort]); the items are compared
    with [<] on their keys and with nothing else.  A list of 64 items or
    more is cut into several such runs that are merged afterwards; the
    merge is left out here, and [list_sort] treats a long list like a
    short one.  When [<] orders the keys, any stable sort returns the same
    list, so the difference can show only on 64 items or more with a key
    that [<] does not order (a NaN). *)

(** The two loops of [count_run]: how many items continue the run. *)
Fixpoint run_tail {A : Type} (continues : A -> A -> bool) (prev : A)
    (l : list A) : nat :=
  match l with
  | [] => O
  | x :: l' => if continues prev x then S (run_tail continues x l') else O
  end.

(** [count_run]: the length of the run at the head of the list, and
    whether it is a descending one (strictly: [lo[i] < lo[i-1]]
    throughout); an ascending run goes on while [lo[i] < lo[i-1]] is
    false. *)
Definition count_run {A : Type} (less : A -> A -> bool) (l : list A)
  : nat * bool :=
  match l with
  | [] => (O, false)
  | x :: tl =>
      match tl with
      | [] => (1%nat, false)
      | y :: _ =>
          if less y x
          then (S (run_tail (fun prev cur => less cur prev) x tl), true)
          else (S (run_tail (fun prev cur => negb (less cur prev)) x tl), false)
      end
  end.

(** The search of [binarysort] for the place of [pivot] in [run]:
    [p = l + ((r - l) >> 1); if pivot < run[p]: r = p else: l = p + 1]
    while [l < r].  The interval shrinks at every step, so [steps] steps
    are enough when [r - l <= steps]. *)
Fixpoint bisect {A : Type} (less : A -> A -> bool) (pivot : A) (run : list A)
    (l r : nat) (steps : nat) : nat :=
  match steps with
  | O => l
  | S steps' =>
      if Nat.ltb l r
      then
        let p := (l + Nat.div2 (r - l))%nat in
        match nth_error run p with
        | Some x =>
            if less pivot x
            then bisect less pivot run l p steps'
            else bisect less pivot run (S p) r steps'
        | None => l
        end
      else l
  end.

Definition insert_at {A : Type} (i : nat) (x : A) (l : list A) : list A :=
  firstn i l ++ x :: skipn i l.

(** [binarysort]: the items of [rest], from left to right, each put into
    the run at the place the search gives. *)
Definition binarysort {A : Type} (less : A -> A -> bool) (run rest : list A)
  : list A :=
  fold_left
    (fun run pivot =>
       insert_at (bisect less pivot run O (length run) (length run)) pivot run)
    rest run.

(** [list.sort(reverse=...)] with [less x y] for [key(x) < key(y)]. *)
Definition list_sort {A : Type} (less : A -> A -> bool) (reverse : bool)
    (l : list A) : list A :=
  let l := if reverse then rev l else l in
  let (n, descending) := count_run less l in
  let run := if descending then rev (firstn n l) else firstn n l in
  let l := binarysort less run (skipn n l) in
  if reverse then rev l else l.

(** The sort key [lambda x: x[1]['weighted_count']]. *)
Definition weight {W : Type} (x : string * Entry W) : W := weighted_count (snd x).

(** [key(x) < key(y)] *)
Definition below {W : Type} `{Quantity W} (x y : string * Entry W) : bool :=
  q_lt (weight x) (weight y).

(** [sorted(self.make_leaderboard.items(), key=..., reverse=True)] *)
Definition sorted_makes {W : Type} `{Quantity W} (lb : leaderboard W)
  : leaderboard W :=
  list_sort below true lb.

(** [l[:limit]] for any Python integer [limit]. *)
Definition slice_to {A : Type} (limit : Z) (l : list A) : list A :=
  if Z.leb 0 limit then firstn (Z.to_nat limit) l
  else firstn (length l - Z.to_nat (- limit)) l.

Definition get_top_makes {W : Type} `{Quantity W} (lb : leaderboard W)
    (limit : Z) : leaderboard W :=
  slice_to limit (sorted_makes lb).

(** The make's occurrence count and weighted count, zero when absent. *)
Definition count_of {W : Type} (lb : leaderboard W) (make : string) : Z :=
  match lookup_make make lb with Some e => count e | None => 0 end.

Definition weighted_of {W : Type} `{Quantity W} (lb : leaderboard W)
    (make : string) : W :=
  match lookup_make make lb with Some e => weighted_count e | None => q_zero end.

(** How many times a make is listed among the tokens. *)
Definition occurrences (make : string) (tokens : list string) : Z :=
  Z.of_nat (length (List.filter (String.eqb make) tokens)).

(** [quantity] added [n] times in turn: [w += quantity] at every token
    of the make. *)
Definition added {W : Type} `{Quantity W} (n : nat) (quantity w : W) : W :=
  Nat.iter n (fun w => q_add w quantity) w.

(** *** What the ranking is stated with *)

(** "ranks at least as high": the weighted count is not smaller. *)
Definition outranks {W : Type} `{Quantity W} (a b : string * Entry W) : Prop :=
  below a b = false.

(** The weighted count of the entry is [w], as [==] has it: neither is
    smaller than the other. *)
Definition has_weight {W : Type} `{Quantity W} (w : W) (x : string * Entry W)
  : bool :=
  negb (q_lt (weight x) w) && negb (q_lt w (weight x)).

(** [<] orders the quantities that satisfy [P]: it is irreflexive and
    transitive on them, and of any three of them the middle one is above
    the first or below the last whenever the first is below the last. *)
Record orders {W : Type} `{Quantity W} (P : W -> Prop) : Prop := {
  lt_irrefl : forall a, P a -> q_lt a a = false;
  lt_trans : forall a b c, P a -> P b -> P c ->
    q_lt a b = true -> q_lt b c = true -> q_lt a c = true;
  lt_between : forall a b c, P a -> P b -> P c ->
    q_lt a c = true -> q_lt a b = true \/ q_lt b c = true
}.

(** The list a stable sort in descending key order returns: every item
    is put, from the right, in front of the first item it is not below. *)
Fixpoint insert_desc {A : Type} (less : A -> A -> bool) (x : A) (l : list A)
  : list A :=
  match l with
  | [] => [x]
  | y :: l' => if less x y then y :: insert_desc less x l' else x :: l
  end.

Definition stable_desc {A : Type} (less : A -> A -> bool) (l : list A) : list A :=
  fold_right (insert_desc less) [] l.

(** The same in ascending order, from the left: every item is put behind
    the items it is not below. *)
Fixpoint insert_asc {A : Type} (less : A -> A -> bool) (x : A) (l : list A)
  : list A :=
  match l with
  | [] => [x]
  | y :: l' => if less x y then x :: l else y :: insert_asc less x l'
  end.

Definition stable_asc {A : Type} (less : A -> A -> bool) (l : list A) : list A :=
  fold_left (fun run x => insert_asc less x run) l [].

(** The place of [x] in an ascending run: the number of items at the
    head of the run that [x] is not below. *)
Fixpoint place {A : Type} (less : A -> A -> bool) (x : A) (l : list A) : nat :=
  match l with
  | [] => O
  | y :: l' => if less x y then O else S (place less x l')
  end.

(** Every item stands to the next as [continues] says. *)
Fixpoint chain {A : Type} (continues : A -> A -> bool) (l : list A) : Prop :=
  match l with
  | [] => True
  | x :: l' =>
      match l' with
      | [] => True
      | y :: _ => continues x y = true /\ chain continues l'
      end
  end.

(** No item is below an item before it. *)
Definition ascending {A : Type} (less : A -> A -> bool) (l : list A) : Prop :=
  StronglySorted (fun a b => less b a = false) l.

(** A float that is a number. *)
Definition not_nan (x : PrimFloat.float) : Prop := PrimFloat.is_nan x = false.

(** The order of [SFcompare] on the floats that are numbers, as an order
    of triples of integers: the class (negative infinity, negative, zero,
    positive, positive infinity), then exponent and mantissa, both
    negated for a negative float. *)
Definition float_key (f : SpecFloat.spec_float) : Z * Z * Z :=
  match f with
  | SpecFloat.S754_zero _ => (0, 0, 0)
  | SpecFloat.S754_infinity s => (if s then -2 else 2, 0, 0)
  | SpecFloat.S754_nan => (0, 0, 0)
  | SpecFloat.S754_finite s m e =>
      if s then (-1, - e, - Z.pos m) else (1, e, Z.pos m)
  end.

Definition key_lt (a b : Z * Z * Z) : Prop :=
  fst (fst a) < fst (fst b)
  \/ (fst (fst a) = fst (fst b)
      /\ (snd (fst a) < snd (fst b)
          \/ (snd (fst a) = snd (fst b) /\ snd a < snd b))).

End Leaderboard.

(** ** The session state machine and the worker ([backend/main.py]) *)

Module Backend.
Import Text Leaderboard.

(** *** Data *)

(** A row of the catalog as [categorize_parts] builds it.  The two prices
    are carried through unchanged and kept as the text of the CSV field. *)
Record Part : Type := {
  index : Z;
  item_num : string;
  part_number : string;
  description : string;
  qty : Z;
  unit_retail : string;
  ext_retail : string
}.

(** [part_result]: a copy of the part with the three keys the worker adds. *)
Record Result : Type := {
  part : Part;
  makes : string;
  source : string;
  category : string
}.

Record PartsData : Type := {
  automotive : list Part;
  tools : list Part;
  unknown : list Part
}.

(** [detector.driver]: no browser, a live session, or a session on which
    [quit()] was called without clearing the attribute. *)
Inductive Driver : Type := NoDriver | Live | Quit.

Definition conn : Type := nat.

(** The in-memory summary of a history entry. *)
Record HistorySummary : Type := {
  h_id : string;
  h_total_processed : nat;
  h_successful_lookups : nat;
  h_start_index : Z;
  h_end_index : Z;
  h_total_parts_in_file : Z;
  h_top_makes : leaderboard Z
}.

(** The process-wide [state] object. *)
Record ProcessingState : Type := {
  is_processing : bool;
  current_session_id : option string;
  detector : option Driver;
  parts_data : option PartsData;
  total_parts : Z;
  processed_count : Z;
  results : list Result;
  start_index : Z;
  end_index : Z;
  error_message : option string;
  connected_clients : gset conn;
  should_stop : bool;
  make_leaderboard : leaderboard Z;
  history : list HistorySummary;
  session_file : option string
}.

(** [ProcessingState.__init__] *)
Definition initial_state : ProcessingState := {|
  is_processing := false;
  current_session_id := None;
  detector := None;
  parts_data := None;
  total_parts := 0;
  processed_count := 0;
  results := [];
  start_index := 0;
  end_index := 0;
  error_message := None;
  connected_clients := ∅;
  should_stop := false;
  make_leaderboard := [];
  history := [];
  session_file := None
|}.

Definition set_is_processing (b : bool) (s : ProcessingState) :=
  {| is_processing := b; current_session_id := current_session_id s;
     detector := detector s; parts_data := parts_data s;
     total_parts := total_parts s; processed_count := processed_count s;
     results := results s; start_index := start_index s;
     end_index := end_index s; error_message := error_message s;
     connected_clients := connected_clients s; should_stop := should_stop s;
     make_leaderboard := make_leaderboard s; history := history s;
     session_file := session_file s |}.

Definition set_current_session_id (x : option string) (s : ProcessingState) :=
  {| is_processing := is_processing s; current_session_id := x;
     detector := detector s; parts_data := parts_data s;
     total_parts := total_parts s; processed_count := processed_count s;
     results := results s; start_index := start_index s;
     end_index := end_index s; error_message := error_message s;
     connected_clients := connected_clients s; should_stop := should_stop s;
     make_leaderboard := make_leaderboard s; history := history s;
     session_file := session_file s |}.

Definition set_detector (x : option Driver) (s : ProcessingState) :=
  {| is_processing := is_processing s; current_session_id := current_session_id s;
     detector := x; parts_data := parts_data s;
     total_parts := total_parts s; processed_count := processed_count s;
     results := results s; start_index := start_index s;
     end_index := end_index s; error_message := error_message s;
     connected_clients := connected_clients s; should_stop := should_stop s;
     make_leaderboard := make_leaderboard s; history := history s;
     session_file := session_file s |}.

Definition set_parts_data (x : option PartsData) (s : ProcessingState) :=
  {| is_processing := is_processing s; current_session_id := current_session_id s;
     detector := detector s; parts_data := x;
     total_parts := total_parts s; processed_count := processed_count s;
     results := results s; start_index := start_index s;
     end_index := end_index s; error_message := error_message s;
     connected_clients := connected_clients s; should_stop := should_stop s;
     make_leaderboard := make_leaderboard s; history := history s;
     session_file := session_file s |}.

Definition set_total_parts (x : Z) (s : ProcessingState) :=
  {| is_processing := is_processing s; current_session_id := current_session_id s;
     detector := detector s; parts_data := parts_data s;
     total_parts := x; processed_count := processed_count s;
     results := results s; start_index := start_index s;
     end_index := end_index s; error_message := error_message s;
     connected_clients := connected_clients s; should_stop := should_stop s;
     make_leaderboard := make_leaderboard s; history := history s;
     session_file := session_file s |}.

Definition set_processed_count (x : Z) (s : ProcessingState) :=
  {| is_processing := is_processing s; current_session_id := current_session_id s;
     detector := detector s; parts_data := parts_data s;
     total_parts := total_parts s; processed_count := x;
     results := results s; start_index := start_index s;
     end_index := end_index s; error_message := error_message s;
     connected_clients := connected_clients s; should_stop := should_stop s;
     make_leaderboard := make_leaderboard s; history := history s;
     session_file := session_file s |}.

Definition set_results (x : list Result) (s : ProcessingState) :=
  {| is_processing := is_processing s; current_session_id := current_session_id s;
     detector := detector s; parts_data := parts_data s;
     total_parts := total_parts s; processed_count := processed_count s;
     results := x; start_index := start_index s;
     end_index := end_index s; error_message := error_message s;
     connected_clients := connected_clients s; should_stop := should_stop s;
     make_leaderboard := make_leaderboard s; history := history s;
     session_file := session_file s |}.

Definition set_start_index (x : Z) (s : ProcessingState) :=
  {| is_processing := is_processing s; current_session_id := current_session_id s;
     detector := detector s; parts_data := parts_data s;
     total_parts := total_parts s; processed_count := processed_count s;
     results := results s; start_index := x;
     end_index := end_index s; error_message := error_message s;
     connected_clients := connected_clients s; should_stop := should_stop s;
     make_leaderboard := make_leaderboard s; history := history s;
     session_file := session_file s |}.

Definition set_end_index (x : Z) (s : ProcessingState) :=
  {| is_processing := is_processing s; current_session_id := current_session_id s;
     detector := detector s; parts_data := parts_data s;
     total_parts := total_parts s; processed_count := processed_count s;
     results := results s; start_index := start_index s;
     end_index := x; error_message := error_message s;
     connected_clients := connected_clients s; should_stop := should_stop s;
     make_leaderboard := make_leaderboard s; history := history s;
     session_file := session_file s |}.

Definition set_error_message (x : option string) (s : ProcessingState) :=
  {| is_processing := is_processing s; current_session_id := current_session_id s;
     detector := detector s; parts_data := parts_data s;
     total_parts := total_parts s; processed_count := processed_count s;
     results := results s; start_index := start_index s;
     end_index := end_index s; error_message := x;
     connected_clients := connected_clients s; should_stop := should_stop s;
     make_leaderboard := make_leaderboard s; history := history s;
     session_file := session_file s |}.

Definition set_connected_clients (x : gset conn) (s : ProcessingState) :=
  {| is_processing := is_processing s; current_session_id := current_session_id s;
     detector := detector s; parts_data := parts_data s;
     total_parts := total_parts s; processed_count := processed_count s;
     results := results s; start_index := start_index s;
     end_index := end_index s; error_message := error_message s;
     connected_clients := x; should_stop := should_stop s;
     make_leaderboard := make_leaderboard s; history := history s;
     session_file := session_file s |}.

Definition set_should_stop (x : bool) (s : ProcessingState) :=
  {| is_processing := is_processing s; current_session_id := current_session_id s;
     detector := detector s; parts_data := parts_data s;
     total_parts := total_parts s; processed_count := processed_count s;
     results := results s; start_index := start_index s;
     end_index := end_index s; error_message := error_message s;
     connected_clients := connected_clients s; should_stop := x;
     make_leaderboard := make_leaderboard s; history := history s;
     session_file := session_file s |}.

Definition set_make_leaderboard (x : leaderboard Z) (s : ProcessingState) :=
  {| is_processing := is_processing s; current_session_id := current_session_id s;
     detector := detector s; parts_data := parts_data s;
     total_parts := total_parts s; processed_count := processed_count s;
     results := results s; start_index := start_index s;
     end_index := end_index s; error_message := error_message s;
     connected_clients := connected_clients s; should_stop := should_stop s;
     make_leaderboard := x; history := history s;
     session_file := session_file s |}.

Definition set_history (x : list HistorySummary) (s : ProcessingState) :=
  {| is_processing := is_processing s; current_session_id := current_session_id s;
     detector := detector s; parts_data := parts_data s;
     total_parts := total_parts s; processed_count := processed_count s;
     results := results s; start_index := start_index s;
     end_index := end_index s; error_message := error_message s;
     connected_clients := connected_clients s; should_stop := should_stop s;
     make_leaderboard := make_leaderboard s; history := x;
     session_file := session_file s |}.

Definition set_session_file (x : option string) (s : ProcessingState) :=
  {| is_processing := is_processing s; current_session_id := current_session_id s;
     detector := detector s; parts_data := parts_data s;
     total_parts := total_parts s; processed_count := processed_count s;
     results := results s; start_index := start_index s;
     end_index := end_index s; error_message := error_message s;
     connected_clients := connected_clients s; should_stop := should_stop s;
     make_leaderboard := make_leaderboard s; history := history s;
     session_file := x |}.

(** [ProcessingState.reset] *)
Definition reset (s : ProcessingState) : ProcessingState :=
  {| is_processing := false; current_session_id := None;
     detector := None; parts_data := None;
     total_parts := 0; processed_count := 0;
     results := []; start_index := 0;
     end_index := 0; error_message := None;
     connected_clients := connected_clients s; should_stop := false;
     make_leaderboard := []; history := history s;
     session_file := session_file s |}.

(** [ProcessingState.reset_processing_only] *)
Definition reset_processing_only (s : ProcessingState) : ProcessingState :=
  {| is_processing := false; current_session_id := None;
     detector := detector s; parts_data := parts_data s;
     total_parts := total_parts s; processed_count := 0;
     results := []; start_index := 0;
     end_index := 0; error_message := None;
     connected_clients := connected_clients s; should_stop := false;
     make_leaderboard := []; history := history s;
     session_file := None |}.

(** The messages handed to [manager.broadcast].  The percentages of the
    [progress] and [completed] messages are floating-point quotients of
    the counts recorded here and are left out. *)
Inductive Event : Type :=
| Progress (current_index : Z) (ev_total_parts : Z) (ev_processed_count : Z)
           (successful_lookups : nat) (board : leaderboard Z)
           (ev_part_number ev_description : string)
| ResultEv (ev_index : Z) (r : Result) (board : leaderboard Z)
| Stopped (partial_results : nat)
| Completed (total_results : nat) (found : nat)
| ErrorEv (message : string).

(** The JSON document of [save_session] (without its timestamp). *)
Record SessionData : Type := {
  sd_session_id : string;
  sd_parts_data : option PartsData;
  sd_total_parts : Z;
  sd_processed_count : Z;
  sd_results : list Result;
  sd_start_index : Z;
  sd_end_index : Z;
  sd_make_leaderboard : leaderboard Z
}.

(** The JSON document of [save_to_history] (without its timestamp). *)
Record HistoryEntry : Type := {
  he_summary : HistorySummary;
  he_results : list Result;
  he_leaderboard : leaderboard Z;
  he_automotive_count : nat;
  he_tools_count : nat;
  he_unknown_count : nat
}.

(** Everything outside [state]: the connection manager, what each
    observer has received so far, and the two directories on disk.
    [clock] counts the broadcasts and [writes] the file writes. *)
Record World : Type := {
  active_connections : list conn;
  delivered : list (conn * Event);
  clock : nat;
  sessions : gmap string SessionData;
  history_files : gmap string HistoryEntry;
  writes : nat;
  stop_pending : bool
}.

Definition initial_world : World := {|
  active_connections := [];
  delivered := [];
  clock := 0;
  sessions := ∅;
  history_files := ∅;
  writes := 0;
  stop_pending := false
|}.

(** The two places where the worker suspends within one record. *)
Inductive AwaitPoint : Type := AtProgress | AtResult.

(** The environment of a run.
    - [fetch part] is the outcome of the browser part of
      [search_rockauto] for the part: the sorted list of valid makes it
      returns, or [None].
    - [state_importable]: whether [from backend.main import state]
      inside [search_rockauto] yields the running [state] object.
    - [send_ok n c]: whether [send_text] to [c] succeeds in broadcast [n].
    - [disk_ok n]: whether file write number [n] succeeds.
    - [stop_at]: the record (position in the batch) and the suspension
      point at which a Stop request is served, if one is made.
    - [new_session_id]: the value of [uuid.uuid4()]. *)
Record Env : Type := {
  fetch : Part -> option (list string);
  state_importable : bool;
  send_ok : nat -> conn -> bool;
  disk_ok : nat -> bool;
  stop_at : option (nat * AwaitPoint);
  new_session_id : string
}.

(** *** A state-and-exception monad for the handlers and the worker *)

Inductive Res (A : Type) : Type :=
| Ret (a : A)
| Exn (message : string).
Arguments Ret {A} a.
Arguments Exn {A} message.

Definition M (A : Type) : Type :=
  ProcessingState -> World -> Res A * ProcessingState * World.

Definition ret {A : Type} (a : A) : M A := fun s w => (Ret a, s, w).

Definition raise {A : Type} (message : string) : M A :=
  fun s w => (Exn message, s, w).

Definition bind {A B : Type} (m : M A) (f : A -> M B) : M B :=
  fun s w =>
    match m s w with
    | (Ret a, s', w') => f a s' w'
    | (Exn e, s', w') => (Exn e, s', w')
    end.

(** [try: m except Exception as e: h(e)] *)
Definition try_except {A : Type} (m : M A) (h : string -> M A) : M A :=
  fun s w =>
    match m s w with
    | (Ret a, s', w') => (Ret a, s', w')
    | (Exn e, s', w') => h e s' w'
    end.

Definition get_state : M ProcessingState := fun s w => (Ret s, s, w).
Definition get_world : M World := fun s w => (Ret w, s, w).
Definition modify (f : ProcessingState -> ProcessingState) : M unit :=
  fun s w => (Ret tt, f s, w).
Definition modify_world (f : World -> World) : M unit :=
  fun s w => (Ret tt, s, f w).

Global Instance M_ret : MRet M := @ret.
Global Instance M_bind : MBind M := fun A B f m => bind m f.

Definition when (b : bool) (m : M unit) : M unit := if b then m else ret tt.

Definition set_active_connections (x : list conn) (w : World) : World :=
  {| active_connections := x; delivered := delivered w; clock := clock w;
     sessions := sessions w; history_files := history_files w;
     writes := writes w; stop_pending := stop_pending w |}.

Definition set_delivered (x : list (conn * Event)) (w : World) : World :=
  {| active_connections := active_connections w; delivered := x;
     clock := clock w; sessions := sessions w;
     history_files := history_files w; writes := writes w;
     stop_pending := stop_pending w |}.

Definition set_clock (x : nat) (w : World) : World :=
  {| active_connections := active_connections w; delivered := delivered w;
     clock := x; sessions := sessions w;
     history_files := history_files w; writes := writes w;
     stop_pending := stop_pending w |}.

Definition set_sessions (x : gmap string SessionData) (w : World) : World :=
  {| active_connections := active_connections w; delivered := delivered w;
     clock := clock w; sessions := x;
     history_files := history_files w; writes := writes w;
     stop_pending := stop_pending w |}.

Definition set_history_files (x : gmap string HistoryEntry) (w : World) : World :=
  {| active_connections := active_connections w; delivered := delivered w;
     clock := clock w; sessions := sessions w;
     history_files := x; writes := writes w;
     stop_pending := stop_pending w |}.

Definition set_writes (x : nat) (w : World) : World :=
  {| active_connections := active_connections w; delivered := delivered w;
     clock := clock w; sessions := sessions w;
     history_files := history_files w; writes := x;
     stop_pending := stop_pending w |}.

Definition set_stop_pending (x : bool) (w : World) : World :=
  {| active_connections := active_connections w; delivered := delivered w;
     clock := clock w; sessions := sessions w;
     history_files := history_files w; writes := writes w;
     stop_pending := x |}.

(** *** [ConnectionManager] *)

(** [ConnectionManager.connect] *)
Definition connect (websocket : conn) : M unit :=
  modify_world (fun w =>
    set_active_connections (active_connections w ++ [websocket]) w);;
  modify (fun s => set_connected_clients ({[websocket]} ∪ connected_clients s) s).

(** [list.remove(x)] guarded by [x in list]: the first occurrence goes. *)
Fixpoint remove_first (x : conn) (l : list conn) : list conn :=
  match l with
  | [] => []
  | y :: l' => if Nat.eqb y x then l' else y :: remove_first x l'
  end.

(** [ConnectionManager.disconnect] *)
Definition disconnect (websocket : conn) : M unit :=
  modify_world (fun w =>
    set_active_connections (remove_first websocket (active_connections w)) w);;
  modify (fun s => set_connected_clients (connected_clients s ∖ {[websocket]}) s).

(** The first loop of [broadcast]: one [send_text] per connection, a
    failure only noted in [disconnected]. *)
Fixpoint send_loop (env : Env) (n : nat) (message : Event)
    (conns : list conn) (disconnected : list conn) : M (list conn) :=
  match conns with
  | [] => mret disconnected
  | connection :: rest =>
      if send_ok env n connection
      then modify_world (fun w =>
             set_delivered (delivered w ++ [(connection, message)]) w);;
           send_loop env n message rest disconnected
      else send_loop env n message rest (disconnected ++ [connection])
  end.

(** The second loop of [broadcast]. *)
Fixpoint disconnect_all (disconnected : list conn) : M unit :=
  match disconnected with
  | [] => mret tt
  | c :: rest => disconnect c;; disconnect_all rest
  end.

(** [ConnectionManager.broadcast] *)
Definition broadcast (env : Env) (message : Event) : M unit :=
  w ← get_world;
  modify_world (fun w => set_clock (S (clock w)) w);;
  match active_connections w with
  | [] => mret tt
  | conns =>
      disconnected ← send_loop env (clock w) message conns [];
      disconnect_all disconnected
  end.

(** *** Checkpoints and history *)

Definition session_path (id : string) : string :=
  "sessions/session_" +:+ id +:+ ".json".

Definition history_path (id : string) : string :=
  "history/history_" +:+ id +:+ ".json".

Definition session_data_of (id : string) (s : ProcessingState) : SessionData :=
  {| sd_session_id := id;
     sd_parts_data := parts_data s;
     sd_total_parts := total_parts s;
     sd_processed_count := processed_count s;
     sd_results := results s;
     sd_start_index := start_index s;
     sd_end_index := end_index s;
     sd_make_leaderboard := make_leaderboard s |}.

(** What [str(e)] gives for the exception of a failed write; the wording
    plays no role. *)
Definition write_error : string := "OSError: cannot write session file".

(** [ProcessingState.save_session].  There is no [try] around the write:
    an error of [open] or [json.dump] leaves the function as an
    exception.  Session ids are [uuid4] strings, never empty. *)
Definition save_session (env : Env) : M (option string) :=
  s ← get_state;
  match current_session_id s with
  | None => mret None
  | Some id =>
      w ← get_world;
      modify_world (fun w => set_writes (S (writes w)) w);;
      if disk_ok env (writes w)
      then
        modify_world (fun w =>
          set_sessions (<[id := session_data_of id s]> (sessions w)) w);;
        modify (set_session_file (Some (session_path id)));;
        mret (Some (session_path id))
      else raise "OSError: cannot write session file"
  end.

(** [ProcessingState.load_session] *)
Definition load_session (session_id : string) : M bool :=
  w ← get_world;
  match sessions w !! session_id with
  | None => mret false
  | Some d =>
      modify (fun s =>
        set_session_file (Some (session_path session_id))
          (set_make_leaderboard (sd_make_leaderboard d)
            (set_end_index (sd_end_index d)
              (set_start_index (sd_start_index d)
                (set_results (sd_results d)
                  (set_processed_count (sd_processed_count d)
                    (set_total_parts (sd_total_parts d)
                      (set_parts_data (sd_parts_data d)
                        (set_current_session_id (Some (sd_session_id d)) s)))))))));;
      mret true
  end.

(** [r.get('makes') and r['makes'] != 'NOT_FOUND'] *)
Definition is_found (r : Result) : bool :=
  nonempty (makes r) && negb (String.eqb (makes r) NOT_FOUND).

Definition parts_count (f : PartsData -> list Part) (d : option PartsData) : nat :=
  match d with Some p => length (f p) | None => O end.

(** [ProcessingState.save_to_history] *)
Definition save_to_history (env : Env) : M (option string) :=
  s ← get_state;
  match results s, current_session_id s with
  | [], _ => mret None
  | _, None => mret None
  | _ :: _, Some id =>
      let summary :=
        {| h_id := id;
           h_total_processed := length (results s);
           h_successful_lookups := length (List.filter is_found (results s));
           h_start_index := start_index s;
           h_end_index := end_index s;
           h_total_parts_in_file := total_parts s;
           h_top_makes := slice_to 3 (get_top_makes (make_leaderboard s) 5) |} in
      let entry :=
        {| he_summary := summary;
           he_results := results s;
           he_leaderboard := make_leaderboard s;
           he_automotive_count := parts_count automotive (parts_data s);
           he_tools_count := parts_count tools (parts_data s);
           he_unknown_count := parts_count unknown (parts_data s) |} in
      w ← get_world;
      modify_world (fun w => set_writes (S (writes w)) w);;
      if disk_ok env (writes w)
      then
        modify_world (fun w =>
          set_history_files (<[id := entry]> (history_files w)) w);;
        modify (fun s => set_history (slice_to 50 (summary :: history s)) s);;
        mret (Some (history_path id))
      else raise "OSError: cannot write history file"
  end.

(** *** The worker *)

(** [stop_processing] up to its [await asyncio.sleep(1)]: the flag is
    raised and the browser session is closed at once; [driver] is not
    cleared.  [stop_pending] records that the handler is suspended. *)
Definition stop_processing_begin : M bool :=
  s ← get_state;
  if is_processing s
  then
    modify (set_should_stop true);;
    modify (fun s =>
      match detector s with
      | Some Live => set_detector (Some Quit) s
      | _ => s
      end);;
    modify_world (set_stop_pending true);;
    mret true
  else mret false.

(** [stop_processing] after its [await asyncio.sleep(1)]. *)
Definition stop_processing_end (env : Env) : M nat :=
  s ← get_state;
  match current_session_id s with
  | Some _ => save_session env;; mret tt
  | None => mret tt
  end;;
  s ← get_state;
  broadcast env (Stopped (length (results s)));;
  modify (set_is_processing false);;
  mret (length (results s)).

Definition await_point_eqb (p q : AwaitPoint) : bool :=
  match p, q with
  | AtProgress, AtProgress | AtResult, AtResult => true
  | _, _ => false
  end.

(** The worker is suspended in [await self.progress_callback(...)] of
    record [i]; the event loop serves the Stop request scheduled there. *)
Definition await (env : Env) (i : nat) (p : AwaitPoint) : M unit :=
  match stop_at env with
  | Some (j, q) =>
      if Nat.eqb i j && await_point_eqb p q
      then stop_processing_begin;; mret tt
      else mret tt
  | None => mret tt
  end.

(** [AutoPartsDetector.search_rockauto], seen from the worker: the check
    of [state.should_stop] at its head, then the browser, started when
    there is none.  [driver.get] on a session that was quit raises, and
    the outer [except] turns that, like every other error of the lookup,
    into [None]. *)
Definition search_rockauto (env : Env) (p : Part) : M (option (list string)) :=
  s ← get_state;
  if state_importable env && should_stop s then mret None
  else
    match detector s with
    | Some Quit => mret None
    | Some _ => modify (set_detector (Some Live));; mret (fetch env p)
    | None => mret None
    end.

(** [AutoPartsDetector._close_browser] *)
Definition _close_browser : M unit :=
  modify (fun s =>
    match detector s with
    | Some Live | Some Quit => set_detector (Some NoDriver) s
    | _ => s
    end).

(** "Record results" in the loop body. *)
Definition part_result_of (p : Part) (found : option (list string)) : Result :=
  match found with
  | Some (m :: ms) =>
      {| part := p; makes := join ", " (sorted_set (m :: ms));
         source := "RockAuto"; category := "Automotive" |}
  | _ =>
      {| part := p; makes := NOT_FOUND; source := "NONE";
         category := "Automotive" |}
  end.

(** One pass through the body of the [for] loop of
    [process_parts_batch_async], after the test of [state.should_stop]:
    [i] is the position in the batch and [results] the local list.  After
    the first record [state.results] is the very list object the loop
    appends to; the two are read only at suspension points, where they
    agree, so the assignment [state.results = results] is kept as a copy. *)
Definition loop_body (env : Env) (start_idx : Z) (i : nat) (p : Part)
    (results : list Result) : M (list Result) :=
  s ← get_state;
  let current_successful := length (List.filter is_found results) in
  let absolute_processed := processed_count s + Z.of_nat i + 1 in
  broadcast env
    (Progress (start_idx + Z.of_nat i) (total_parts s)
       absolute_processed current_successful
       (get_top_makes (make_leaderboard s) 10)
       (part_number p) (description p));;
  await env i AtProgress;;
  found ← search_rockauto env p;
  let part_result := part_result_of p found in
  let results' := results ++ [part_result] in
  modify (fun s =>
    set_processed_count
      (if Z.eqb (processed_count s) 0 then Z.of_nat i + 1
       else processed_count s + 1) s);;
  modify (set_results results');;
  modify (fun s =>
    set_make_leaderboard
      (update_leaderboard (make_leaderboard s) (makes part_result)
         (qty (part part_result))) s);;
  when (Z.eqb ((Z.of_nat i + 1) mod 10) 0) (save_session env;; mret tt);;
  s' ← get_state;
  broadcast env
    (ResultEv (start_idx + Z.of_nat i) part_result
       (get_top_makes (make_leaderboard s') 10));;
  await env i AtResult;;
  mret results'.

(** The [for] loop itself: [for i, part in enumerate(parts)], left by
    [break] when the flag is up. *)
Fixpoint batch_loop (env : Env) (start_idx : Z) (i : nat)
    (parts : list Part) (results : list Result) : M (list Result) :=
  match parts with
  | [] => mret results
  | p :: rest =>
      s ← get_state;
      if should_stop s then mret results
      else
        results' ← loop_body env start_idx i p results;
        batch_loop env start_idx (S i) rest results'
  end.

(** [WebAutoPartsDetector.process_parts_batch_async] *)
Definition process_parts_batch_async (env : Env) (parts : list Part)
    (max_parts : Z) (start_idx : Z) : M (list Result) :=
  results ← batch_loop env start_idx 0 (slice_to max_parts parts) [];
  _close_browser;;
  mret results.

(** [r.get('makes') != 'NOT_FOUND'] *)
Definition not_not_found (r : Result) : bool :=
  negb (String.eqb (makes r) NOT_FOUND).

(** [process_parts_background].  [upload_csv] stores a
    [WebAutoPartsDetector], so the branch that wraps a plain detector is
    not taken and the detector only receives the callback. *)
Definition process_parts_background (env : Env)
    (parts_to_process : list Part) (start_idx : Z) : M unit :=
  try_except
    (s ← get_state;
     match detector s with
     | None => raise "No detector found - data may not be loaded"
     | Some _ =>
         results ← process_parts_batch_async env parts_to_process
                     (Z.of_nat (length parts_to_process)) start_idx;
         s ← get_state;
         if negb (should_stop s)
         then
           modify (set_results results);;
           modify (set_is_processing false);;
           save_session env;;
           save_to_history env;;
           broadcast env
             (Completed (length results)
                        (length (List.filter not_not_found results)))
         else
           modify (set_results results);;
           modify (set_is_processing false)
     end)
    (fun e =>
       modify (set_error_message (Some e));;
       modify (set_is_processing false);;
       broadcast env (ErrorEv ("Processing failed: " +:+ e))).

(** *** The control operations *)

Record ProcessingRequest : Type := {
  req_start_index : Z;
  req_end_index : option Z;
  is_test : bool
}.

(** [Start(s, e)] of the specification. *)
Definition Start (s e : Z) : ProcessingRequest :=
  {| req_start_index := s; req_end_index := Some e; is_test := false |}.

Inductive Detail : Type :=
| AlreadyInProgress | NoDataLoaded | InvalidStartIndex | InvalidRange
| InvalidEndIndex | SessionNotFound | SessionAlreadyCompleted
| InternalError.

(** What a handler returns.  The two accepting answers carry the
    arguments of the task they hand to [asyncio.create_task]. *)
Inductive Response : Type :=
| HTTPException (status_code : Z) (detail : Detail)
| ProcessingStarted (session_id : string) (start_idx end_idx : Z)
                    (parts_to_process : list Part)
| SessionResumed (session_id : option string)
                 (resuming_from remaining_parts already_processed : Z)
                 (parts_to_process : list Part).

(** [l[a:b]] for any Python integers. *)
Definition clamp_index (len : nat) (i : Z) : nat :=
  if Z.ltb i 0 then Z.to_nat (Z.max 0 (Z.of_nat len + i))
  else Nat.min len (Z.to_nat i).

Definition slice {A : Type} (a b : Z) (l : list A) : list A :=
  let lo := clamp_index (length l) a in
  let hi := clamp_index (length l) b in
  firstn (hi - lo) (skipn lo l).

(** [start_processing] *)
Definition start_processing (env : Env) (request : ProcessingRequest) : M Response :=
  s ← get_state;
  if is_processing s then mret (HTTPException 400 AlreadyInProgress)
  else
    match parts_data s with
    | None => mret (HTTPException 400 NoDataLoaded)
    | Some data =>
        let automotive_parts := automotive data in
        let total_parts := Z.of_nat (length automotive_parts) in
        let start_idx := if is_test request then 0 else req_start_index request in
        let end_idx :=
          if is_test request then Z.min 50 total_parts
          else match req_end_index request with
               | Some e => e
               | None => total_parts
               end in
        if Z.ltb start_idx 0 || Z.geb start_idx total_parts
        then mret (HTTPException 400 InvalidStartIndex)
        else if Z.leb end_idx start_idx
        then mret (HTTPException 400 InvalidRange)
        else if Z.gtb end_idx total_parts
        then mret (HTTPException 400 InvalidEndIndex)
        else
          modify (set_is_processing true);;
          modify (set_current_session_id (Some (new_session_id env)));;
          modify (set_start_index start_idx);;
          modify (set_end_index end_idx);;
          modify (set_processed_count 0);;
          modify (set_results []);;
          modify (set_should_stop false);;
          modify (set_error_message None);;
          mret (ProcessingStarted (new_session_id env) start_idx end_idx
                  (slice start_idx end_idx automotive_parts))
    end.

(** [resume_session] *)
Definition resume_session (env : Env) (session_id : string) : M Response :=
  s ← get_state;
  if is_processing s then mret (HTTPException 400 AlreadyInProgress)
  else
    loaded ← load_session session_id;
    if negb loaded then mret (HTTPException 404 SessionNotFound)
    else
      s ← get_state;
      let remaining_parts := end_index s - start_index s - processed_count s in
      if Z.leb remaining_parts 0
      then mret (HTTPException 400 SessionAlreadyCompleted)
      else
        match parts_data s with
        | None => mret (HTTPException 500 InternalError)
        | Some data =>
            let start_from := start_index s + processed_count s in
            let parts_to_process := slice start_from (end_index s) (automotive data) in
            modify (set_is_processing true);;
            modify (set_should_stop false);;
            modify (set_error_message None);;
            mret (SessionResumed (current_session_id s) start_from
                    remaining_parts (processed_count s) parts_to_process)
        end.

Definition accepted (r : Response) : bool :=
  match r with HTTPException _ _ => false | _ => true end.

(** The task an accepting answer has created, run to its end.  A Stop
    handler that the run left in its [sleep(1)] finishes when the task has
    ended; an exception in it is that request's own HTTP error. *)
Definition run_task (env : Env) (r : Response) : M unit :=
  match r with
  | ProcessingStarted _ start_idx _ parts =>
      process_parts_background env parts start_idx
  | SessionResumed _ start_from _ _ parts =>
      process_parts_background env parts start_from
  | HTTPException _ _ => mret tt
  end;;
  w ← get_world;
  when (stop_pending w)
    (modify_world (set_stop_pending false);;
     try_except (stop_processing_end env;; mret tt) (fun _ => mret tt)).

(** [upload_csv] once the file is parsed and categorized. *)
Definition upload_csv (categorized : PartsData) : M unit :=
  modify (set_detector (Some NoDriver));;
  modify (set_parts_data (Some categorized));;
  modify (set_total_parts (Z.of_nat (length (automotive categorized))));;
  modify reset_processing_only.

End Backend.

(** ** The catalog: item numbers and the sorting of rows into categories
    ([rockauto_scraper.AutoPartsDetector]) *)

Module Catalog.
Import Text Leaderboard Backend.

(** A CSV cell as pandas hands it over: a [str], or a value that is not
    one (the NaN of an empty cell, a number). *)
Inductive Cell : Type :=
| Str (s : string)
| NotStr.

(** [s.find(c)] for one character; [None] is Python's [-1]. *)
Fixpoint find_char (c : ascii) (s : string) : option nat :=
  match s with
  | EmptyString => None
  | String a s' =>
      if Ascii.eqb a c then Some O else option_map S (find_char c s')
  end.

(** [s[n:]] for a position [n] that is not negative. *)
Fixpoint slice_from (n : nat) (s : string) : string :=
  match n, s with
  | S n', String _ s' => slice_from n' s'
  | _, _ => s
  end.

(** [AutoPartsDetector.extract_part_number] *)
Definition extract_part_number (item_num : Cell) : string :=
  match item_num with
  | NotStr => EmptyString
  | Str item_num =>
      match find_char "_" item_num with
      | Some underscore_index => slice_from (underscore_index + 1) item_num
      | None => item_num
      end
  end.

(** The three keyword lists of [AutoPartsDetector.__init__]. *)
Definition automotive_keywords : list string :=
  [ "brake pad"; "brake rotor"; "brake disc"; "brake shoe"; "brake line";
    "brake fluid"; "brake booster"; "oil filter"; "air filter";
    "fuel filter"; "cabin filter"; "catalytic converter"; "spark plug";
    "glow plug"; "ignition coil"; "fuel pump"; "water pump"; "oil pump";
    "alternator"; "starter"; "car battery"; "auto battery";
    "timing belt"; "timing chain"; "serpentine belt"; "drive belt";
    "radiator hose"; "heater hose"; "vacuum hose"; "head gasket";
    "intake gasket"; "exhaust gasket"; "transmission fluid";
    "transmission filter"; "clutch disc"; "clutch plate";
    "pressure plate"; "flywheel"; "radiator"; "thermostat";
    "cylinder head"; "engine block"; "piston ring"; "connecting rod";
    "crankshaft"; "camshaft"; "valve cover"; "intake manifold";
    "exhaust manifold"; "turbocharger"; "supercharger"; "intercooler";
    "a/c compressor"; "ac compressor"; "condenser"; "evaporator";
    "expansion valve"; "orifice tube"; "vapor canister";
    "charcoal canister"; "shock absorber"; "strut assembly";
    "coil spring"; "leaf spring"; "air spring"; "tie rod end";
    "ball joint"; "control arm"; "sway bar"; "stabilizer bar";
    "anti-roll bar"; "cv joint"; "cv axle"; "drive axle"; "half shaft";
    "driveshaft"; "prop shaft"; "steering rack"; "rack and pinion";
    "power steering pump"; "steering column"; "steering wheel";
    "tie rod"; "drag link"; "pitman arm"; "idler arm"; "engine mount";
    "transmission mount"; "motor mount"; "strut mount";
    "suspension bushing"; "control arm bushing"; "sway bar bushing";
    "brake caliper"; "brake cylinder"; "master cylinder";
    "wheel cylinder"; "brake drum"; "brake disc"; "abs module";
    "abs sensor"; "abs pump"; "headlight"; "headlamp"; "tail light";
    "turn signal"; "fog light"; "running light"; "side mirror";
    "rearview mirror"; "windshield wiper"; "wiper blade"; "wiper motor";
    "horn"; "car horn"; "hid ballast"; "xenon ballast"; "led headlight";
    "clock spring"; "blower motor"; "blower resistor"; "hvac blower";
    "cabin fan"; "ignition switch"; "ignition module"; "ecu"; "pcm";
    "bcm"; "abs module"; "wiring harness"; "engine harness";
    "transmission harness"; "headlight harness"; "tpms sensor";
    "tire pressure sensor"; "oxygen sensor"; "o2 sensor"; "map sensor";
    "maf sensor"; "throttle position"; "crankshaft sensor";
    "camshaft sensor"; "coolant temp sensor"; "oil pressure sensor";
    "fuel level sensor"; "car bumper"; "front bumper"; "rear bumper";
    "fender"; "quarter panel"; "car door"; "door handle"; "door lock";
    "door latch"; "window regulator"; "car seat"; "driver seat";
    "passenger seat"; "seat belt"; "center console"; "dashboard";
    "instrument panel"; "glove box"; "sun visor"; "weatherstrip";
    "door seal"; "window seal"; "trunk seal"; "hood seal"; "car antenna";
    "radio antenna"; "power antenna"; "car wheel"; "alloy wheel";
    "steel wheel"; "wheel hub"; "hub assembly"; "lug nut"; "wheel stud";
    "hub cap"; "center cap"; "valve stem"; "wheel bearing";
    "hub bearing"; "tire valve"; "tpms valve"; "exhaust pipe"; "muffler";
    "catalytic converter"; "exhaust manifold"; "exhaust gasket";
    "exhaust clamp"; "tail pipe"; "resonator"; "heater core";
    "evaporator core"; "hvac blower"; "a/c evaporator"; "heater hose";
    "hvac control"; "climate control"; "temperature blend door";
    "freightliner"; "peterbilt"; "kenworth"; "mack"; "volvo truck";
    "international truck"; "semi truck"; "trailer"; "fifth wheel";
    "kingpin"; "glad hand"; "air brake"; "diesel fuel"; "def fluid";
    "urea tank"; "dpf filter"; "scr system" ].

Definition tool_keywords : list string :=
  [ "angle grinder"; "circular saw"; "jigsaw"; "rotary hammer";
    "demolition hammer"; "electric drill"; "cordless drill";
    "impact driver"; "driver drill"; "hammer drill"; "reciprocating saw";
    "recip saw"; "band saw"; "miter saw"; "table saw"; "orbital sander";
    "belt sander"; "palm sander"; "router tool"; "trim router";
    "chainsaw"; "pole saw"; "leaf blower"; "pressure washer"; "shop vac";
    "hand tool"; "tool kit"; "tool set"; "mechanic tool set";
    "wrench set"; "socket set"; "ratchet set"; "combination wrench";
    "box wrench"; "open wrench"; "torque wrench"; "breaker bar";
    "extension bar"; "universal joint"; "screwdriver set"; "bit set";
    "hex key"; "allen wrench"; "pliers set"; "needle nose";
    "wire strippers"; "cutting pliers"; "locking pliers"; "toolbox";
    "tool chest"; "tool cabinet"; "tool cart"; "rolling cart";
    "work bench"; "workbench"; "shop stool"; "creeper";
    "mechanics creeper"; "work light"; "shop light"; "led work light";
    "trouble light"; "air compressor"; "shop compressor";
    "portable compressor"; "bench vise"; "pipe vise"; "anvil";
    "shop press"; "floor jack"; "bottle jack"; "scissor jack";
    "transmission jack"; "engine hoist"; "cherry picker"; "porta power";
    "engine stand"; "tire changer"; "wheel balancer"; "bead breaker";
    "tire iron"; "lug wrench"; "oil drain pan"; "funnel set";
    "magnetic drain plug"; "multimeter"; "digital multimeter";
    "code reader"; "scan tool"; "obd scanner"; "oscilloscope";
    "function generator"; "power supply"; "battery tester";
    "compression tester"; "leak tester"; "timing light"; "stroboscope";
    "bolt assortment"; "screw assortment"; "nut assortment";
    "washer assortment"; "cotter pin"; "clevis pin"; "hitch pin";
    "spring pin"; "roll pin"; "safety glasses"; "work gloves";
    "shop gloves"; "hearing protection"; "knee pads"; "back support";
    "shop apron" ].

Definition non_automotive_keywords : list string :=
  [ "kitchen"; "cooking"; "recipe"; "food"; "dining"; "tableware";
    "cookware"; "coffee"; "tea"; "beverage"; "drink"; "bottle opener";
    "can opener"; "cutting board"; "knife set"; "silverware";
    "dishwasher"; "microwave"; "clothing"; "shirt"; "pants"; "jacket";
    "shoes"; "boots"; "hat"; "cap"; "watch"; "jewelry"; "necklace";
    "ring"; "wallet"; "purse"; "bag"; "phone"; "tablet"; "laptop";
    "computer"; "monitor"; "keyboard"; "mouse"; "headphones"; "speaker";
    "bluetooth"; "usb cable"; "charger"; "adapter"; "camera"; "video";
    "tv"; "television"; "remote control"; "paint"; "brush"; "roller";
    "ladder"; "garden"; "lawn"; "plant"; "seed"; "fertilizer";
    "pesticide"; "sprinkler"; "hose nozzle"; "watering"; "paper"; "pen";
    "pencil"; "marker"; "notebook"; "binder"; "stapler"; "calculator";
    "desk"; "chair"; "filing cabinet" ].

(** [any(keyword in description for keyword in keywords)] *)
Definition any_in (keywords : list string) (description : string) : bool :=
  existsb (fun keyword => contains keyword description) keywords.

Inductive Category : Type := Automotive | Tools | Unknown.

(** The three tests of the loop body of [categorize_parts] and the choice
    of the list; [description] is the lower-cased description. *)
Definition categorize_row (description : string) : Category :=
  let is_non_automotive := any_in non_automotive_keywords description in
  let is_automotive :=
    if negb is_non_automotive then any_in automotive_keywords description
    else false in
  let is_tool :=
    if negb is_automotive && negb is_non_automotive
    then any_in tool_keywords description
    else false in
  if is_automotive then Automotive
  else if is_tool then Tools
  else Unknown.

(** A row of the data frame whose item number and description are text.
    The two prices are kept as the text of the CSV field. *)
Record Row : Type := {
  row_item_num : string;
  row_description : string;
  row_qty : Z;
  row_unit_retail : string;
  row_ext_retail : string
}.

(** [part_data] of the loop body; [index] is the row label, which for a
    frame read by [pd.read_csv] is the position of the row. *)
Definition part_data (index : nat) (row : Row) : Part :=
  {| Backend.index := Z.of_nat index;
     item_num := row_item_num row;
     part_number := extract_part_number (Str (row_item_num row));
     description := row_description row;
     qty := row_qty row;
     unit_retail := row_unit_retail row;
     ext_retail := row_ext_retail row |}.

(** The loop of [categorize_parts] from row [index] on. *)
Fixpoint categorize_loop (index : nat) (rows : list Row)
    (categorized : PartsData) : PartsData :=
  match rows with
  | [] => categorized
  | row :: rest =>
      let description := lower (row_description row) in
      let part := part_data index row in
      categorize_loop (S index) rest
        match categorize_row description with
        | Automotive =>
            {| automotive := automotive categorized ++ [part];
               tools := tools categorized;
               unknown := unknown categorized |}
        | Tools =>
            {| automotive := automotive categorized;
               tools := tools categorized ++ [part];
               unknown := unknown categorized |}
        | Unknown =>
            {| automotive := automotive categorized;
               tools := tools categorized;
               unknown := unknown categorized ++ [part] |}
        end
  end.

(** [AutoPartsDetector.categorize_parts] *)
Definition categorize_parts (df : list Row) : PartsData :=
  categorize_loop 0 df {| automotive := []; tools := []; unknown := [] |}.

(** The category the loop gives the row a part was built from. *)
Definition category_of (p : Part) : Category :=
  categorize_row (lower (description p)).

Definition category_eqb (a b : Category) : bool :=
  match a, b with
  | Automotive, Automotive | Tools, Tools | Unknown, Unknown => true
  | _, _ => false
  end.

(** *** The command-line batch ([process_parts_batch] and what follows it) *)

(** [part_result] of the command-line batch: a copy of the part with the
    keys [makes], [source] and [confidence]. *)
Record BatchResult : Type := {
  b_part : Part;
  b_makes : string;
  b_source : string;
  b_confidence : string
}.

(** [AutoPartsDetector._check_existing_make] *)
Definition _check_existing_make (p : Part) (existing_makes : gmap string string)
  : string :=
  match (if nonempty (item_num p) then existing_makes !! item_num p else None) with
  | Some m => m
  | None =>
      match (if nonempty (part_number p)
             then existing_makes !! part_number p else None) with
      | Some m => m
      | None => EmptyString
      end
  end.

(** [existing_make and existing_make not in ['NOT_FOUND', 'UNKNOWN_CATEGORY', '']] *)
Definition has_make (existing_make : string) : bool :=
  nonempty existing_make
  && negb (inb existing_make [ "NOT_FOUND"; "UNKNOWN_CATEGORY"; EmptyString ]).

(** The body of the loop of [process_parts_batch]; [lookup] is
    [search_rockauto] on the part. *)
Definition batch_result (lookup : Part -> option (list string))
    (skip_existing : bool) (existing_makes : gmap string string) (p : Part)
  : BatchResult :=
  let existing_make :=
    if skip_existing then _check_existing_make p existing_makes
    else EmptyString in
  if skip_existing && has_make existing_make
  then {| b_part := p; b_makes := existing_make; b_source := "EXISTING";
          b_confidence := "Existing" |}
  else
    match lookup p with
    | Some (m :: ms) =>
        let unique_makes := sorted_set (m :: ms) in
        {| b_part := p; b_makes := join ", " unique_makes;
           b_source := "RockAuto";
           b_confidence :=
             if Nat.leb (length unique_makes) 3 then "High" else "Medium" |}
    | _ =>
        {| b_part := p; b_makes := "NOT_FOUND"; b_source := "NONE";
           b_confidence := "None" |}
    end.

(** [AutoPartsDetector.process_parts_batch]; [existing_makes] is what
    [_load_existing_makes] has read, empty when there is no file. *)
Definition process_parts_batch (lookup : Part -> option (list string))
    (parts : list Part) (max_parts : Z) (skip_existing : bool)
    (existing_makes : gmap string string) : list BatchResult :=
  fold_left
    (fun results p =>
       results ++ [batch_result lookup skip_existing existing_makes p])
    (slice_to max_parts parts) [].

(** An entry of [existing_data] in [_merge_chunk_results]. *)
Record Existing : Type := {
  e_makes : string;
  e_source : string;
  e_confidence : string
}.

(** The loop of [_merge_chunk_results] from position [i] on; [None] is an
    exception raised in the loop. *)
Fixpoint merge_loop (chunk_results : list BatchResult) (start_idx : Z)
    (existing_data : gmap string Existing) (i : nat) (parts : list Part)
    (merged_results : list BatchResult) : option (list BatchResult) :=
  match parts with
  | [] => Some merged_results
  | p :: rest =>
      if Z.leb start_idx (Z.of_nat i)
         && Z.ltb (Z.of_nat i) (start_idx + Z.of_nat (length chunk_results))
      then
        match nth_error chunk_results (Z.to_nat (Z.of_nat i - start_idx)) with
        | Some r =>
            merge_loop chunk_results start_idx existing_data (S i) rest
              (merged_results ++ [r])
        | None => None
        end
      else
        match existing_data !! item_num p with
        | Some existing =>
            merge_loop chunk_results start_idx existing_data (S i) rest
              (merged_results ++
                 [{| b_part := p; b_makes := e_makes existing;
                     b_source := e_source existing;
                     b_confidence := e_confidence existing |}])
        | None =>
            merge_loop chunk_results start_idx existing_data (S i) rest
              (merged_results ++
                 [{| b_part := p; b_makes := "NOT_PROCESSED";
                     b_source := "N/A"; b_confidence := "None" |}])
        end
  end.

(** [AutoPartsDetector._merge_chunk_results]; [existing_data] is the
    lookup table built from the existing file, empty when there is none.
    An exception makes the function fall back to the chunk alone. *)
Definition _merge_chunk_results (chunk_results : list BatchResult)
    (all_categorized : PartsData) (start_idx : Z)
    (existing_data : gmap string Existing) : list BatchResult :=
  match merge_loop chunk_results start_idx existing_data 0
          (automotive all_categorized) [] with
  | Some merged_results => merged_results
  | None => chunk_results
  end.

(** A row of the exported CSV file. *)
Record ExportRow : Type := {
  x_item_num : string;
  x_description : string;
  x_qty : Z;
  x_unit_retail : string;
  x_ext_retail : string;
  x_part_number : string;
  x_category : string;
  x_makes : string;
  x_source : string
}.

Definition export_row (p : Part) (category makes source : string) : ExportRow :=
  {| x_item_num := item_num p;
     x_description := description p;
     x_qty := qty p;
     x_unit_retail := unit_retail p;
     x_ext_retail := ext_retail p;
     x_part_number := part_number p;
     x_category := category;
     x_makes := makes;
     x_source := source |}.

(** *** Makes guessed from the part number itself *)

(** [part_patterns] of [_extract_from_part_context], in the order of the
    dictionary literal. *)
Definition part_patterns : list (string * list string) :=
  [
    ("Ford", [ "F250"; "F350"; "F450"; "F550"; "FORD"; "FD"; "ECONOLINE" ]);
    ("Chevrolet", [ "CHEVY"; "SILVERADO"; "TAHOE"; "SUBURBAN"; "GM"; "CHEV" ]);
    ("Dodge", [ "RAM"; "DAKOTA"; "DURANGO"; "CHALLENGER"; "CHARGER"; "DODGE" ]);
    ("Honda", [ "CIVIC"; "ACCORD"; "CRV"; "PILOT"; "RIDGELINE"; "HONDA" ]);
    ("Toyota", [ "CAMRY"; "COROLLA"; "RAV4"; "HIGHLANDER"; "PRIUS"; "TOYOTA" ]);
    ("BMW", [ "BMW"; "X5"; "X3"; "525I"; "528I"; "535I"; "550I" ]);
    ("Mercedes", [ "MERCEDES"; "BENZ"; "ML"; "GL"; "SL" ]);
    ("Audi", [ "AUDI"; "A4"; "A6"; "Q5"; "Q7" ]);
    ("Nissan", [ "NISSAN"; "ALTIMA"; "MAXIMA"; "PATHFINDER"; "TITAN" ]);
    ("Mazda", [ "MAZDA"; "CX5"; "CX7"; "CX9"; "MX5"; "MIATA" ]);
    ("Subaru", [ "SUBARU"; "OUTBACK"; "FORESTER"; "IMPREZA" ]);
    ("Volkswagen", [ "VW"; "VOLKSWAGEN"; "JETTA"; "PASSAT"; "BEETLE" ]);
    ("Lexus", [ "LEXUS"; "RX300"; "RX350"; "ES350"; "GS350" ]);
    ("Acura", [ "ACURA"; "TL"; "MDX"; "RDX"; "TSX" ]) ].

(** The loop over [part_patterns.items()]: the inner loop adds the make
    at the first of its patterns that occurs in the part number and
    stops. *)
Definition add_if_pattern (part_upper : string) (makes : list string)
    (item : string * list string) : list string :=
  if any_in (snd item) part_upper then set_add (fst item) makes else makes.

(** [AutoPartsDetector._extract_from_part_context] *)
Definition _extract_from_part_context (part_number : string) : list string :=
  let part_upper := upper part_number in
  let makes := fold_left (add_if_pattern part_upper) part_patterns [] in
  if any_in [ "HS"; "HEAD" ] part_upper
  then if any_in [ "54657"; "5465" ] part_upper
       then set_add "Ford" makes
       else makes
  else makes.

End Catalog.

(** ** The remaining handlers of [backend/main.py] *)

Module Api.
Import Text Leaderboard Backend Catalog.

(** What a request gets: the value the handler returns, or the status
    code of the [HTTPException] that leaves it. *)
Inductive Answer (A : Type) : Type :=
| Returned (a : A)
| Raised (status_code : Z).
Arguments Returned {A} a.
Arguments Raised {A} status_code.

(** [try: body except Exception as e: raise HTTPException(status_code=500,
    detail=str(e))], with no [except HTTPException: raise] before it:
    [HTTPException] is an [Exception], so one raised in the body is caught
    like any other. *)
Definition except_exception {A : Type} (body : M (Answer A)) : M (Answer A) :=
  fun s w =>
    match body s w with
    | (Ret (Returned a), s', w') => (Ret (Returned a), s', w')
    | (Ret (Raised _), s', w') => (Ret (Raised 500), s', w')
    | (Exn _, s', w') => (Ret (Raised 500), s', w')
    end.

(** [try: body except HTTPException: raise except Exception as e: raise
    HTTPException(status_code=500, detail=str(e))] *)
Definition except_http_exception {A : Type} (body : M (Answer A)) : M (Answer A) :=
  fun s w =>
    match body s w with
    | (Ret a, s', w') => (Ret a, s', w')
    | (Exn _, s', w') => (Ret (Raised 500), s', w')
    end.

(** [os.remove] and [Path.unlink] on a file that exists: a file-system
    write like the others, which the environment lets succeed or fail. *)
Definition unlink (env : Env) : M unit :=
  w ← get_world;
  modify_world (fun w => set_writes (S (writes w)) w);;
  if disk_ok env (writes w) then mret tt
  else raise "OSError: cannot remove file".

(** [s.endswith(suffix)] *)
Definition endswith (s suffix : string) : bool :=
  String.prefix (String.rev suffix) (String.rev s).

(** The answer of [upload_csv]: the three counts. *)
Record Uploaded : Type := {
  total_automotive_parts : nat;
  total_tool_parts : nat;
  total_unknown_parts : nat
}.

(** The whole of [upload_csv].  [df] is what [pd.read_csv] makes of the
    uploaded bytes, [None] when it raises; writing the temporary file
    and removing it are file-system writes. *)
Definition upload (env : Env) (filename : string) (df : option (list Row))
  : M (Answer Uploaded) :=
  except_exception
    (if negb (endswith filename ".csv") then mret (Raised 400)
     else
       w ← get_world;
       modify_world (fun w => set_writes (S (writes w)) w);;
       if negb (disk_ok env (writes w))
       then raise "OSError: cannot write the uploaded file"
       else
         match df with
         | None => raise "ParserError"
         | Some rows =>
             let categorized := categorize_parts rows in
             upload_csv categorized;;
             unlink env;;
             mret (Returned
                     {| total_automotive_parts := length (automotive categorized);
                        total_tool_parts := length (tools categorized);
                        total_unknown_parts := length (unknown categorized) |})
         end).

(** [export_data] of [export_results]: the results, then the tools and
    the unknown parts when data is loaded. *)
Definition export_data (s : ProcessingState) : list ExportRow :=
  let rows1 :=
    fold_left
      (fun rows result =>
         rows ++ [export_row (part result) (category result)
                    (makes result) (source result)])
      (results s) [] in
  match parts_data s with
  | Some data =>
      let rows2 :=
        fold_left
          (fun rows p => rows ++ [export_row p "Tools" "N/A (Tool)" "N/A"])
          (tools data) rows1 in
      fold_left
        (fun rows p => rows ++ [export_row p "Unknown" "UNKNOWN_CATEGORY" "N/A"])
        (unknown data) rows2
  | None => rows1
  end.

(** [export_results]: the answer carries [total_rows] and the rows that
    [df.to_csv] has written. *)
Definition export_results (env : Env) : M (Answer (nat * list ExportRow)) :=
  except_exception
    (s ← get_state;
     match results s with
     | [] => mret (Raised 400)
     | _ :: _ =>
         let rows := export_data s in
         w ← get_world;
         modify_world (fun w => set_writes (S (writes w)) w);;
         if disk_ok env (writes w)
         then mret (Returned (length rows, rows))
         else raise "OSError: cannot write the export file"
     end).

(** [stop_processing], the two halves one after the other: what a Stop
    request does when nothing else runs in between. *)
Definition stop_processing (env : Env) : M (option nat) :=
  is_running ← stop_processing_begin;
  if is_running : bool
  then modify_world (set_stop_pending false);;
       n ← stop_processing_end env;
       ret (Some n)
  else ret None.

(** [delete_session] *)
Definition delete_session (env : Env) (session_id : string) : M (Answer unit) :=
  except_http_exception
    (w ← get_world;
     match sessions w !! session_id with
     | Some _ =>
         unlink env;;
         modify_world (fun w => set_sessions (delete session_id (sessions w)) w);;
         mret (Returned tt)
     | None => mret (Raised 404)
     end).

(** [ProcessingState.load_history_entry].  The files of [history/] are
    the documents [save_to_history] has written. *)
Definition load_history_entry (entry_id : string) : M (option HistoryEntry) :=
  w ← get_world;
  mret (history_files w !! entry_id).

(** [get_history_entry] *)
Definition get_history_entry (entry_id : string) : M (Answer HistoryEntry) :=
  except_http_exception
    (entry ← load_history_entry entry_id;
     match entry with
     | Some e => mret (Returned e)
     | None => mret (Raised 404)
     end).

(** The answer of [view_history_entry]. *)
Record Viewed : Type := {
  v_entry : HistoryEntry;
  v_results : list Result;
  v_leaderboard : leaderboard Z;
  v_summary : HistorySummary
}.

(** [view_history_entry] *)
Definition view_history_entry (entry_id : string) : M (Answer Viewed) :=
  except_http_exception
    (entry ← load_history_entry entry_id;
     match entry with
     | Some e =>
         mret (Returned {| v_entry := e; v_results := he_results e;
                           v_leaderboard := he_leaderboard e;
                           v_summary := he_summary e |})
     | None => mret (Raised 404)
     end).

(** [delete_history_entry] *)
Definition delete_history_entry (env : Env) (entry_id : string)
  : M (Answer unit) :=
  except_http_exception
    (w ← get_world;
     match history_files w !! entry_id with
     | Some _ =>
         unlink env;;
         modify_world (fun w =>
           set_history_files (delete entry_id (history_files w)) w);;
         modify (fun s =>
           set_history
             (List.filter (fun h => negb (String.eqb (h_id h) entry_id))
                          (history s)) s);;
         mret (Returned tt)
     | None => mret (Raised 404)
     end).

(** [try: m finally: f], for an [f] that does not raise. *)
Definition try_finally {A : Type} (m : M A) (f : M unit) : M A :=
  fun s w =>
    match m s w with
    | (r, s', w') =>
        match f s' w' with
        | (_, s'', w'') => (r, s'', w'')
        end
    end.

(** [websocket_endpoint]: the connection is registered, [serving] stands
    for what the other handlers and the worker do while the endpoint
    waits in its receive loop, and the [finally] clause removes the
    connection whichever way the loop ends. *)
Definition websocket_endpoint (websocket : conn) (serving : M unit) : M unit :=
  connect websocket;;
  try_finally serving (disconnect websocket).

End Api.

(** ** A broadcast among the other coroutines

    [Backend.broadcast] is the broadcast that no other coroutine
    disturbs.  The loop of the source iterates over
    [self.active_connections] itself and awaits every [send_text]; at each
    of these awaits the event loop may run the coroutines of the
    connections, and a [websocket_endpoint] that ends there calls
    [manager.disconnect] on the list the loop is reading. *)

Module Interleaving.
Import Text Leaderboard Backend.

(** What the coroutine of a connection does to the registry:
    [websocket_endpoint] begins with [manager.connect] and ends, in its
    [finally], with [manager.disconnect]. *)
Inductive Turn : Type :=
| Opens (websocket : conn)
| Closes (websocket : conn).

Definition turn (t : Turn) : M unit :=
  match t with
  | Opens websocket => connect websocket
  | Closes websocket => disconnect websocket
  end.

Fixpoint turns (ts : list Turn) : M unit :=
  match ts with
  | [] => mret tt
  | t :: rest => turn t;; turns rest
  end.

(** One pass through the body of the first loop:
    [try: await connection.send_text(...) except Exception:
    disconnected.append(connection)]. *)
Definition send_text (env : Env) (n : nat) (message : Event)
    (connection : conn) (disconnected : list conn) : M (list conn) :=
  if send_ok env n connection
  then modify_world (fun w =>
         set_delivered (delivered w ++ [(connection, message)]) w);;
       mret disconnected
  else mret (disconnected ++ [connection]).

(** The first loop of [broadcast] as the interpreter runs it.
    [for connection in self.active_connections] reads the list through an
    index: the next connection is [active_connections[i]] of the list as
    it is then, and the loop ends when there is none.  [others] lists,
    send by send, what the other coroutines do while the send is awaited;
    when it is used up the loop runs to its end undisturbed. *)
Fixpoint send_loop (env : Env) (n : nat) (message : Event)
    (others : list (list Turn)) (i : nat) (disconnected : list conn)
  : M (list conn) :=
  match others with
  | [] =>
      w ← get_world;
      Backend.send_loop env n message (skipn i (active_connections w))
        disconnected
  | during :: later =>
      w ← get_world;
      match nth_error (active_connections w) i with
      | None => mret disconnected
      | Some connection =>
          disconnected ← send_text env n message connection disconnected;
          turns during;;
          send_loop env n message later (S i) disconnected
      end
  end.

(** [ConnectionManager.broadcast] *)
Definition broadcast (env : Env) (others : list (list Turn)) (message : Event)
  : M unit :=
  w ← get_world;
  modify_world (fun w => set_clock (S (clock w)) w);;
  match active_connections w with
  | [] => mret tt
  | _ :: _ =>
      disconnected ← send_loop env (clock w) message others O [];
      disconnect_all disconnected
  end.

End Interleaving.

(** ** What the statements below are phrased with *)

Module Frames.
Import Text Leaderboard Backend.

(** The three components of what a handler or the worker leaves. *)
Definition answer_of {A : Type} (x : Res A * ProcessingState * World) : Res A :=
  fst (fst x).
Definition state_of {A : Type} (x : Res A * ProcessingState * World)
  : ProcessingState := snd (fst x).
Definition world_of {A : Type} (x : Res A * ProcessingState * World) : World :=
  snd x.

(** The session fields that only the worker's own assignments and the
    control operations change: [broadcast], the browser, a served Stop and
    [save_session] leave them alone. *)
Record same_session (s s' : ProcessingState) : Prop := {
  ss_is_processing : is_processing s' = is_processing s;
  ss_current_session_id : current_session_id s' = current_session_id s;
  ss_parts_data : parts_data s' = parts_data s;
  ss_total_parts : total_parts s' = total_parts s;
  ss_processed_count : processed_count s' = processed_count s;
  ss_results : results s' = results s;
  ss_start_index : start_index s' = start_index s;
  ss_end_index : end_index s' = end_index s;
  ss_error_message : error_message s' = error_message s;
  ss_make_leaderboard : make_leaderboard s' = make_leaderboard s;
  ss_history : history s' = history s
}.

(** The fields that one pass through the loop body leaves alone; it
    assigns [processed_count], [results] and [make_leaderboard]. *)
Record same_run (s s' : ProcessingState) : Prop := {
  sr_is_processing : is_processing s' = is_processing s;
  sr_current_session_id : current_session_id s' = current_session_id s;
  sr_parts_data : parts_data s' = parts_data s;
  sr_total_parts : total_parts s' = total_parts s;
  sr_start_index : start_index s' = start_index s;
  sr_end_index : end_index s' = end_index s;
  sr_error_message : error_message s' = error_message s;
  sr_history : history s' = history s
}.

(** The two directories and the count of file writes. *)
Record same_disk (w w' : World) : Prop := {
  sd_sessions : sessions w' = sessions w;
  sd_history_files : history_files w' = history_files w;
  sd_writes : writes w' = writes w
}.

(** A Stop request is served at this suspension point. *)
Definition stop_served (env : Env) (i : nat) (p : AwaitPoint) : bool :=
  match stop_at env with
  | Some (j, q) => Nat.eqb i j && await_point_eqb p q
  | None => false
  end.

(** "Save progress every 10 parts": [(i + 1) % 10 == 0]. *)
Definition is_checkpoint (i : nat) : bool :=
  Z.eqb ((Z.of_nat i + 1) mod 10) 0.

(** The assignment to [state.processed_count] in the loop body. *)
Definition next_count (i : nat) (count : Z) : Z :=
  if Z.eqb count 0 then Z.of_nat i + 1 else count + 1.

(** The worker's messages, broadcast one after the other. *)
Fixpoint broadcast_all (env : Env) (messages : list Event) : M unit :=
  match messages with
  | [] => mret tt
  | m :: rest => broadcast env m;; broadcast_all env rest
  end.

(** What one observer has received, oldest first. *)
Definition inbox (c : conn) (w : World) : list Event :=
  map snd (List.filter (fun d => Nat.eqb (fst d) c) (delivered w)).

(** The result recorded for a record whose lookup was not made or failed. *)
Definition not_found_result (p : Part) : Result :=
  {| part := p; makes := NOT_FOUND; source := "NONE"; category := "Automotive" |}.

(** The session is in the state the specification calls Failed. *)
Definition failed_with (message : string) (s : ProcessingState) : Prop :=
  error_message s = Some message /\ is_processing s = false.

End Frames.

(** ** What the statements on the catalog and the handlers are phrased with *)

Module Views.
Import Text Regex Extraction Leaderboard Backend Catalog Frames.

(** The names under which the dictionary makes are reported. *)
Definition canonical_makes : list string := map _normalize_make known_makes.

(** The set of makes under construction in [_extract_makes_from_popup]:
    no make twice, canonical names only. *)
Definition makes_ok (makes : list string) : Prop :=
  List.NoDup makes /\ Forall (fun m => In m canonical_makes) makes.

(** What [search_rockauto] returns once a buyers-guide panel has given
    makes: [if makes: return sorted([make for make in makes if
    self._is_valid_make(make)])]; [None] stands for going on. *)
Definition makes_answer (makes : list string) : option (list string) :=
  match makes with
  | [] => None
  | _ :: _ => Some (sorted (List.filter _is_valid_make makes))
  end.

(** The order of [sorted] on strings. *)
Definition alphabetical (a b : string) : Prop := String.leb a b = true.

(** A make as it can stand in a comma-separated list: not empty, no
    comma inside, no white space around it. *)
Definition clean_token (t : string) : bool :=
  nonempty t && String.eqb (strip t) t && negb (contains "," t).

(** The parts the loop of [categorize_parts] builds, in the order of the
    rows, before they are put into their lists. *)
Fixpoint parts_of (index : nat) (rows : list Row) : list Part :=
  match rows with
  | [] => []
  | row :: rest => part_data index row :: parts_of (S index) rest
  end.

Definition in_category (c : Category) (p : Part) : bool :=
  category_eqb (category_of p) c.

(** [needle not in s] *)
Definition lacks (needle s : string) : Prop := contains needle s = false.

(** The test of [_merge_chunk_results] for position [i]:
    [start_idx <= i < start_idx + len(chunk_results)]. *)
Definition in_chunk (chunk_results : list BatchResult) (start_idx : Z)
    (i : nat) : bool :=
  Z.leb start_idx (Z.of_nat i)
  && Z.ltb (Z.of_nat i) (start_idx + Z.of_nat (length chunk_results)).

(** What [_merge_chunk_results] records for a part outside the chunk. *)
Definition carried_over (existing_data : gmap string Existing) (p : Part)
  : BatchResult :=
  match existing_data !! item_num p with
  | Some existing =>
      {| b_part := p; b_makes := e_makes existing;
         b_source := e_source existing;
         b_confidence := e_confidence existing |}
  | None =>
      {| b_part := p; b_makes := "NOT_PROCESSED"; b_source := "N/A";
         b_confidence := "None" |}
  end.

(** The state fields a checkpoint does not hold: [load_session] leaves
    them as they are. *)
Record same_control (s s' : ProcessingState) : Prop := {
  sc_is_processing : is_processing s' = is_processing s;
  sc_detector : detector s' = detector s;
  sc_error_message : error_message s' = error_message s;
  sc_connected_clients : connected_clients s' = connected_clients s;
  sc_should_stop : should_stop s' = should_stop s;
  sc_history : history s' = history s
}.

(** The two registries of open connections hold the same connections,
    each once. *)
Definition registries_agree (s : ProcessingState) (w : World) : Prop :=
  List.NoDup (active_connections w)
  /\ connected_clients s = list_to_set (active_connections w).

(** The result the worker records for a part when nothing interferes
    with the lookup. *)
Definition lookup_result (env : Env) (p : Part) : Result :=
  part_result_of p (fetch env p).

(** The leaderboard after the updates for a list of results. *)
Definition board_after (lb : leaderboard Z) (rs : list Result)
  : leaderboard Z :=
  fold_left (fun lb r => update_leaderboard lb (makes r) (qty (part r))) rs lb.

(** The detector can do a lookup: it has no browser yet or a live one. *)
Definition browser_usable (s : ProcessingState) : Prop :=
  detector s = Some NoDriver \/ detector s = Some Live.

(** The [processed_count] fields of the progress messages among the
    events, oldest first. *)
Fixpoint reported_counts (events : list Event) : list Z :=
  match events with
  | [] => []
  | Progress _ _ reported _ _ _ _ :: rest => reported :: reported_counts rest
  | _ :: rest => reported_counts rest
  end.

(** The [index] fields of the result messages among the events. *)
Fixpoint reported_indices (events : list Event) : list Z :=
  match events with
  | [] => []
  | ResultEv i _ _ :: rest => i :: reported_indices rest
  | _ :: rest => reported_indices rest
  end.

(** The head-gasket rule of [_extract_from_part_context]. *)
Definition head_gasket_rule (part_upper : string) : bool :=
  any_in [ "HS"; "HEAD" ] part_upper && any_in [ "54657"; "5465" ] part_upper.

(** The handler has returned an accepting answer. *)
Definition accepted_answer (r : Res Response) : bool :=
  match r with
  | Ret x => accepted x
  | Exn _ => false
  end.

(** The three kinds of rows of an export. *)
Definition result_row (r : Result) : ExportRow :=
  export_row (part r) (category r) (makes r) (source r).
Definition tool_row (p : Part) : ExportRow :=
  export_row p "Tools" "N/A (Tool)" "N/A".
Definition unknown_row (p : Part) : ExportRow :=
  export_row p "Unknown" "UNKNOWN_CATEGORY" "N/A".

(** [state.parts_data[key]] when data is loaded, no part otherwise. *)
Definition loaded_parts (f : PartsData -> list Part) (s : ProcessingState)
  : list Part :=
  match parts_data s with Some data => f data | None => [] end.

(** What a task was started for: the session, the data and the range.
    The worker and the handlers of a run never assign these fields. *)
Record same_job (s s' : ProcessingState) : Prop := {
  sj_current_session_id : current_session_id s' = current_session_id s;
  sj_parts_data : parts_data s' = parts_data s;
  sj_total_parts : total_parts s' = total_parts s;
  sj_start_index : start_index s' = start_index s;
  sj_end_index : end_index s' = end_index s
}.

(** The summary and the document [save_to_history] builds for a run. *)
Definition summary_of (id : string) (s : ProcessingState) : HistorySummary :=
  {| h_id := id;
     h_total_processed := length (results s);
     h_successful_lookups := length (List.filter is_found (results s));
     h_start_index := start_index s;
     h_end_index := end_index s;
     h_total_parts_in_file := total_parts s;
     h_top_makes := slice_to 3 (get_top_makes (make_leaderboard s) 5) |}.

Definition entry_of (id : string) (s : ProcessingState) : HistoryEntry :=
  {| he_summary := summary_of id s;
     he_results := results s;
     he_leaderboard := make_leaderboard s;
     he_automotive_count := parts_count automotive (parts_data s);
     he_tools_count := parts_count tools (parts_data s);
     he_unknown_count := parts_count unknown (parts_data s) |}.

End Views.

(** ** Quantities a CSV can hold besides integers *)

Module Decimal.
Import PrimFloat.

Definition one : float := 1%float.
Definition two : float := 2%float.
Definition ten : float := 10%float.

(** 0.1 and 0.9999999999999999, the floats Python reads these as. *)
Definition tenth : float := 0x1.999999999999ap-4%float.
Definition below_one : float := 0x1.fffffffffffffp-1%float.

(** What pandas gives for an empty cell. *)
Definition empty_cell : float := nan.

(** The [Qty] column of three rows: 1, an empty cell and 2; and 2.5, 10
    and 2.5. *)
Definition with_an_empty_cell : list float := [one; empty_cell; two].
Definition halves : list float := [0x1.4p+1%float; ten; 0x1.4p+1%float].

(** The leaderboard after Ford, Kia and Honda were found, each for one
    of three rows with these quantities. *)
Definition three_makes (quantities : list float)
  : Leaderboard.leaderboard float :=
  fold_left
    (fun lb found => Leaderboard.update_leaderboard lb (fst found) (snd found))
    (combine [ "Ford"; "Kia"; "Honda" ] quantities) [].

End Decimal.

(** ** Concrete sessions *)

Module Scenario.
Import Text Leaderboard Backend Frames.

(** Record [n] of a catalog of brake pads. *)
Definition brake_pad (n : nat) : Part :=
  {| index := Z.of_nat n;
     item_num := "ACME_BP100";
     part_number := "BP100";
     description := "Front brake pad set";
     qty := 2;
     unit_retail := "19.99";
     ext_retail := "39.98" |}.

Definition catalog (n : nat) : PartsData :=
  {| automotive := map brake_pad (seq 0 n); tools := []; unknown := [] |}.

(** Every lookup finds Ford, every send and every write succeeds, and
    nobody asks to stop. *)
Definition calm : Env :=
  {| fetch := fun _ => Some ["Ford"];
     state_importable := true;
     send_ok := fun _ _ => true;
     disk_ok := fun _ => true;
     stop_at := None;
     new_session_id := "session-1" |}.

Definition with_stop (env : Env) (i : nat) (p : AwaitPoint) : Env :=
  {| fetch := fetch env;
     state_importable := state_importable env;
     send_ok := send_ok env;
     disk_ok := disk_ok env;
     stop_at := Some (i, p);
     new_session_id := new_session_id env |}.

Definition with_disk (env : Env) (ok : nat -> bool) : Env :=
  {| fetch := fetch env;
     state_importable := state_importable env;
     send_ok := send_ok env;
     disk_ok := ok;
     stop_at := stop_at env;
     new_session_id := new_session_id env |}.

(** Upload a catalog of [n] records, call [Start(a, b)] and let the task
    run to its end. *)
Definition started (env : Env) (n : nat) (a b : Z)
  : Res Response * ProcessingState * World :=
  (upload_csv (catalog n);;
   r ← start_processing env (Start a b);
   run_task env r;;
   mret r) initial_state initial_world.

(** Call [Resume(session_id)] where an earlier run ended and let the task
    run to its end. *)
Definition resumed (env : Env) (session_id : string)
    (before : Res Response * ProcessingState * World)
  : Res Response * ProcessingState * World :=
  (r ← resume_session env session_id;
   run_task env r;;
   mret r) (state_of before) (world_of before).

(** Start(0,3) on three records, Stop served while the worker is
    suspended after its first record, then Resume. *)
Definition stopped_after_one := started (with_stop calm 0 AtResult) 3 0 3.
Definition resumed_to_end := resumed calm "session-1" stopped_after_one.

(** The session as [Start(0, n)] on [n] records leaves it for the worker,
    and as the upload alone leaves it. *)
Definition running (env : Env) (n : nat) : ProcessingState :=
  state_of ((upload_csv (catalog n);;
             start_processing env (Start 0 (Z.of_nat n)))
              initial_state initial_world).

Definition loaded (n : nat) : ProcessingState :=
  state_of (upload_csv (catalog n) initial_state initial_world).

(** The first file write fails, the later ones succeed. *)
Definition first_write_fails : Env :=
  with_disk calm (fun n => negb (Nat.eqb n 0)).

(** Three observers; the send to observer 2 fails in the second
    broadcast. *)
Definition flaky : Env :=
  {| fetch := fetch calm;
     state_importable := true;
     send_ok := fun n c => negb (Nat.eqb n 1 && Nat.eqb c 2)%nat;
     disk_ok := fun _ => true;
     stop_at := None;
     new_session_id := "session-1" |}.

Definition three_observers : World :=
  world_of ((connect 1%nat;; connect 2%nat;; connect 3%nat)
              initial_state initial_world).

(** The state that goes with [three_observers]. *)
Definition three_clients : ProcessingState :=
  state_of ((connect 1%nat;; connect 2%nat;; connect 3%nat)
              initial_state initial_world).

(** Observer 1 has gone away: every send to it fails. *)
Definition first_gone : Env :=
  {| fetch := fetch calm;
     state_importable := true;
     send_ok := fun _ c => negb (Nat.eqb c 1);
     disk_ok := fun _ => true;
     stop_at := None;
     new_session_id := "session-1" |}.

(** Nothing happens during the send to observer 1; during the send to
    observer 2 the [websocket_endpoint] of observer 1 reaches its
    [finally]. *)
Definition first_leaves_during_second : list (list Interleaving.Turn) :=
  [ []; [Interleaving.Closes 1%nat] ].

Definition three_messages : list Event :=
  [ Stopped 1%nat; Completed 2%nat 1%nat; ErrorEv "late" ].

(** The claim on Stop, as stated: the record in flight when Stop is served
    ends with the result it has in the run without the Stop. *)
Definition in_flight_record_unaffected (env : Env) (n i : nat) : Prop :=
  nth_error (results (state_of (started (with_stop env i AtProgress) n 0 (Z.of_nat n)))) i
  = nth_error (results (state_of (started env n 0 (Z.of_nat n)))) i.

(** The claim on checkpoint failures, as stated: the session does not
    fail and every record of the range is processed. *)
Definition run_survives_write_failure (env : Env) (n : nat) : Prop :=
  let s := state_of (started env n 0 (Z.of_nat n)) in
  error_message s = None /\ length (results s) = n.

End Scenario.
(** ** Proof steps used throughout *)

(** Unfold the monad of the handlers down to state passing. *)
Ltac munfold :=
  unfold mbind, mret, Backend.M_bind, Backend.M_ret,
    Backend.bind, Backend.ret, Backend.get_state, Backend.get_world,
    Backend.modify, Backend.modify_world, Backend.raise, Backend.when.

(** The same in a hypothesis. *)
Ltac munfold_in H :=
  unfold mbind, mret, Backend.M_bind, Backend.M_ret,
    Backend.bind, Backend.ret, Backend.get_state, Backend.get_world,
    Backend.modify, Backend.modify_world, Backend.raise, Backend.when in H.

(** Settle a fact about one character by running through the 256 of them. *)
Ltac by_cases_on_char c :=
  destruct c as [[] [] [] [] [] [] [] []]; vm_compute; reflexivity.

(** * Facts about the text primitives *)

Section TextFacts.
Import Text.

Lemma upper_char_idem (c : ascii) : upper_char (upper_char c) = upper_char c.
Proof. by_cases_on_char c. Qed.

Lemma lower_char_idem (c : ascii) : lower_char (lower_char c) = lower_char c.
Proof. by_cases_on_char c. Qed.

Lemma upper_lower_char (c : ascii) : upper_char (lower_char c) = upper_char c.
Proof. by_cases_on_char c. Qed.

Lemma is_cased_upper_char (c : ascii) : is_cased (upper_char c) = is_cased c.
Proof. by_cases_on_char c. Qed.

Lemma is_cased_lower_char (c : ascii) : is_cased (lower_char c) = is_cased c.
Proof. by_cases_on_char c. Qed.

Lemma title_go_idem (s : string) :
  forall b, title_go b (title_go b s) = title_go b s.
Proof.
  induction s as [|c s IH]; intros b; simpl; [reflexivity|].
  destruct b.
  - rewrite lower_char_idem, is_cased_lower_char, IH. reflexivity.
  - rewrite upper_char_idem, is_cased_upper_char, IH. reflexivity.
Qed.

Lemma upper_title_go (s : string) :
  forall b, upper (title_go b s) = upper s.
Proof.
  induction s as [|c s IH]; intros b; simpl; [reflexivity|].
  rewrite IH. destruct b.
  - rewrite upper_lower_char. reflexivity.
  - rewrite upper_char_idem. reflexivity.
Qed.

End TextFacts.

Section ExtractionFacts.
Import Text Regex Extraction.

(** C10.  [_normalize_make] is idempotent: normalizing its own output
    changes nothing.  "Chevrolet" is kept, and every spelling of the alias
    CHEVY, whatever the case of its letters, becomes "Chevrolet". *)
Theorem C10_normalize_make_idempotent :
  (forall m : string, _normalize_make (_normalize_make m) = _normalize_make m)
  /\ _normalize_make "Chevrolet" = "Chevrolet"
  /\ (forall m : string, upper m = "CHEVY" -> _normalize_make m = "Chevrolet").
Proof.
  split; [|split].
  - intros m. unfold _normalize_make at 2 3.
    destruct (String.eqb (upper m) "CHEVY") eqn:E; [reflexivity|].
    unfold _normalize_make, title.
    rewrite upper_title_go, E. apply title_go_idem.
  - reflexivity.
  - intros m H. unfold _normalize_make. rewrite H. reflexivity.
Qed.

(** The alias in mixed case. *)
Lemma C10_normalize_make_idempotent_witness :
  upper "cHeVy" = "CHEVY" /\ _normalize_make "cHeVy" = "Chevrolet".
Proof.
  split; [reflexivity|].
  apply (proj2 (proj2 C10_normalize_make_idempotent) "cHeVy"). reflexivity.
Defined.

Lemma fits_first_char (c : ascii) :
  Ascii.eqb "f" (upper_char c) = false /\ Ascii.eqb "c" (upper_char c) = false.
Proof. destruct c as [[] [] [] [] [] [] [] []]; vm_compute; split; reflexivity. Qed.

Lemma fits_re_needs_lower_head {R : Type} prev (c : ascii) s caps
    (k : option ascii -> list ascii -> captures -> option R) :
  Ascii.eqb "f" c = false -> Ascii.eqb "c" c = false ->
  rmatch fits_re prev (c :: s) caps k = None.
Proof.
  intros Hf Hc. unfold fits_re. cbn -[Ascii.eqb]. rewrite Hf, Hc. reflexivity.
Qed.

Lemma search_fits_upper (text : string) :
  forall prev, search_from fits_re prev (list_ascii_of_string (upper text)) = None.
Proof.
  induction text as [|c text IH]; intros prev; simpl.
  - reflexivity.
  - unfold match_here.
    destruct (fits_first_char c) as [Hf Hc].
    rewrite (fits_re_needs_lower_head _ _ _ _ _ Hf Hc). apply IH.
Qed.

Lemma fits_match_never_fires (text : string) : fits_match (upper text) = None.
Proof. apply search_fits_upper. Qed.

(** C3.  The cell text "Fits: FORD,HONDA" contains the keyword, and the
    text after it holds the two dictionary makes FORD and HONDA as
    upper-case tokens.  The code adds neither: its pattern spells the
    keywords in lower case and is matched against the upper-cased text,
    so the clause fires on no text at all, and here the two other
    heuristics find nothing either (the standalone word is FORDHONDA). *)
Theorem C3_fits_clause_adds_no_make :
  fits_clause_spec "Fits: FORD,HONDA" = ["FORD"; "HONDA"]
  /\ potential_makes (upper (strip "Fits: FORD,HONDA")) = []
  /\ extract_cell [] "Fits: FORD,HONDA" = []
  /\ (forall text : string, fits_match (upper text) = None).
Proof.
  repeat split; try (vm_compute; reflexivity).
  apply fits_match_never_fires.
Qed.

End ExtractionFacts.

(** * The definitions on small inputs *)

Section Examples.
Import Text Regex Extraction Leaderboard Backend Frames Scenario.

Example title_words : title "hello wORLD-foo 3a" = "Hello World-Foo 3A".
Proof. reflexivity. Qed.

Example strip_both_ends : strip "  a b  " = "a b".
Proof. reflexivity. Qed.

Example split_on_commas : split_on "," "a,,b," = ["a"; ""; "b"; ""].
Proof. reflexivity. Qed.

Example split_on_runs_of_blanks : split "  a b   c " = ["a"; "b"; "c"].
Proof. reflexivity. Qed.

Example year_make_with_boundaries :
  year_make_matches "1999-FORD 2010  TOYOTA x2020 BMW 19999 KIA"
  = ["FORD"; "TOYOTA"].
Proof. vm_compute. reflexivity. Qed.

Example honda_civic : extract_cell [] "2008 HONDA CIVIC" = ["Honda"].
Proof. vm_compute. reflexivity. Qed.

Example ford_three_spellings :
  fold_left add_if_known ["Ford"; "FORD"; "ford"] [] = ["Ford"].
Proof. vm_compute. reflexivity. Qed.

Example space_separated_fits_list :
  extract_cell [] "Fits: FORD HONDA, chevy" = ["Ford"; "Honda"; "Chevrolet"].
Proof. vm_compute. reflexivity. Qed.

Example no_applications :
  _extract_makes_from_popup
    (Some {| popup_get_text := "No applications found for 2008 HONDA";
             popup_rows := [["2008 HONDA"]] |}) = [].
Proof. vm_compute. reflexivity. Qed.

Example stoplist : _is_valid_make "Auto" = false /\ _is_valid_make "Kia" = true.
Proof. split; reflexivity. Qed.

Example leaderboard_two_updates :
  update_leaderboard (update_leaderboard [] "Ford, Honda" 3) "Honda" 2
  = [ ("Ford", {| count := 1; weighted_count := 3 |});
      ("Honda", {| count := 2; weighted_count := 5 |}) ].
Proof. reflexivity. Qed.

Example slice_negative_limit : slice_to (-1) [1; 2; 3] = [1; 2].
Proof. reflexivity. Qed.

Example unstopped_run :
  map makes (results (state_of (started calm 3 0 3))) = ["Ford"; "Ford"; "Ford"]
  /\ processed_count (state_of (started calm 3 0 3)) = 3
  /\ is_processing (state_of (started calm 3 0 3)) = false.
Proof. vm_compute. repeat split. Qed.

Example stop_before_the_lookup :
  map makes (results (state_of (started (with_stop calm 1 AtProgress) 3 0 3)))
  = ["Ford"; "NOT_FOUND"].
Proof. vm_compute. reflexivity. Qed.

Example stop_after_the_record :
  map makes (results (state_of (started (with_stop calm 1 AtResult) 3 0 3)))
  = ["Ford"; "Ford"].
Proof. vm_compute. reflexivity. Qed.

End Examples.

(** * The leaderboard *)

Section LeaderboardFacts.
Import Text Leaderboard Decimal.






Lemma split_on_cons (sep : ascii) (s : string) :
  exists w ws, split_on sep s = w :: ws.
Proof.
  destruct s as [|c s]; simpl; [eauto|].
  destruct (Ascii.eqb c sep); [eauto|].
  destruct (split_on sep s); eauto.
Qed.

Lemma join_cons2 (sep x y : string) (l : list string) :
  join sep (x :: y :: l) = x +:+ sep +:+ join sep (y :: l).
Proof. reflexivity. Qed.

(** [split_on] cuts at the separator and nowhere else: gluing the pieces
    with it gives the string back. *)
Lemma join_split_on (sep : ascii) (s : string) :
  join (String sep EmptyString) (split_on sep s) = s.
Proof.
  induction s as [|c s IH]; [reflexivity|].
  simpl split_on. destruct (split_on_cons sep s) as (w & ws & Hs).
  rewrite Hs in IH |- *.
  destruct (Ascii.eqb c sep) eqn:E.
  - apply Ascii.eqb_eq in E as ->.
    rewrite join_cons2, IH. reflexivity.
  - destruct ws as [|w' ws'].
    + simpl in IH. simpl. rewrite IH. reflexivity.
    + rewrite join_cons2 in IH |- *. rewrite <- IH. reflexivity.
Qed.

Lemma lookup_make_bump {W : Type} `{Quantity W} (make m : string) (q : W)
    (lb : leaderboard W) :
  lookup_make m (bump make q lb) =
  if String.eqb make m
  then Some {| count := count_of lb make + 1;
               weighted_count := q_add (weighted_of lb make) q |}
  else lookup_make m lb.
Proof.
  unfold count_of, weighted_of.
  induction lb as [|[k e] lb IH]; simpl.
  - destruct (String.eqb make m); reflexivity.
  - destruct (String.eqb k make) eqn:Ek.
    + apply String.eqb_eq in Ek as ->. simpl.
      destruct (String.eqb make m); reflexivity.
    + simpl. destruct (String.eqb k m) eqn:Em.
      * destruct (String.eqb make m) eqn:Emm; [|reflexivity].
        apply String.eqb_eq in Em, Emm. subst.
        rewrite String.eqb_refl in Ek. discriminate.
      * exact IH.
Qed.

(** The dictionary keeps its keys in the order in which they were first
    seen: an update leaves the keys in place and puts a new one last. *)
Lemma bump_keys {W : Type} `{Quantity W} (make : string) (q : W)
    (lb : leaderboard W) :
  map fst (bump make q lb) =
  if inb make (map fst lb) then map fst lb else map fst lb ++ [make].
Proof.
  unfold inb. induction lb as [|[k e] lb IH]; [reflexivity|].
  simpl. rewrite (String.eqb_sym make k).
  destruct (String.eqb k make); simpl; [reflexivity|].
  rewrite IH. destruct (existsb (String.eqb make) (map fst lb)); reflexivity.
Qed.

Lemma bump_keys_NoDup {W : Type} `{Quantity W} (make : string) (q : W)
    (lb : leaderboard W) :
  List.NoDup (map fst lb) -> List.NoDup (map fst (bump make q lb)).
Proof.
  intros Hnd. rewrite bump_keys. unfold inb.
  destruct (existsb (String.eqb make) (map fst lb)) eqn:E; [exact Hnd|].
  apply (Permutation_NoDup (l := make :: map fst lb)).
  - apply Permutation_cons_append.
  - constructor; [|exact Hnd]. intros Hin.
    assert (existsb (String.eqb make) (map fst lb) = true) as Ht; [|congruence].
    apply existsb_exists. exists make. split; [exact Hin | apply String.eqb_refl].
Qed.

Lemma occurrences_cons (m t : string) (ts : list string) :
  occurrences m (t :: ts) =
  (if String.eqb m t then 1 else 0) + occurrences m ts.
Proof.
  unfold occurrences. simpl. destruct (String.eqb m t); simpl length; lia.
Qed.

Lemma occurrences_nonneg (m : string) (ts : list string) : 0 <= occurrences m ts.
Proof. unfold occurrences. lia. Qed.

Lemma count_of_bump {W : Type} `{Quantity W} (make m : string) (q : W)
    (lb : leaderboard W) :
  count_of (bump make q lb) m =
  count_of lb m + (if String.eqb make m then 1 else 0).
Proof.
  unfold count_of at 1. rewrite lookup_make_bump.
  destruct (String.eqb make m) eqn:E.
  - apply String.eqb_eq in E as ->. reflexivity.
  - fold (count_of lb m). lia.
Qed.

Lemma weighted_of_bump {W : Type} `{Quantity W} (make m : string) (q : W)
    (lb : leaderboard W) :
  weighted_of (bump make q lb) m =
  if String.eqb make m then q_add (weighted_of lb m) q else weighted_of lb m.
Proof.
  unfold weighted_of at 1. rewrite lookup_make_bump.
  destruct (String.eqb make m) eqn:E.
  - apply String.eqb_eq in E as ->. reflexivity.
  - reflexivity.
Qed.

(** One more addition, first or last, is the same thing. *)
Lemma added_first {W : Type} `{Quantity W} (n : nat) (q w : W) :
  added n q (q_add w q) = added (S n) q w.
Proof.
  unfold added. induction n as [|n IH]; [reflexivity|].
  simpl in *. rewrite IH. reflexivity.
Qed.

(** The loop of [update_leaderboard]: every token adds 1 and the
    quantity to the entry of its make, whatever the quantity is. *)
Lemma bump_all {W : Type} `{Quantity W} (q : W) (tokens : list string) :
  forall (lb : leaderboard W) (m : string),
    let lb' := fold_left (fun acc make => bump make q acc) tokens lb in
    count_of lb' m = count_of lb m + occurrences m tokens
    /\ weighted_of lb' m
       = added (Z.to_nat (occurrences m tokens)) q (weighted_of lb m)
    /\ (occurrences m tokens = 0 -> lookup_make m lb' = lookup_make m lb).
Proof.
  induction tokens as [|t ts IH]; intros lb m; cbn zeta.
  - unfold occurrences. simpl. repeat split; lia.
  - simpl fold_left. destruct (IH (bump t q lb) m) as (Hc & Hw & Hu).
    rewrite Hc, Hw, count_of_bump, weighted_of_bump, occurrences_cons.
    rewrite (String.eqb_sym m t).
    pose proof (occurrences_nonneg m ts) as Hge.
    destruct (String.eqb t m) eqn:E.
    + split; [lia|]. split; [|lia].
      rewrite added_first. f_equal. lia.
    + split; [lia|]. split; [f_equal; lia|].
      intros H0. rewrite Hu by lia. rewrite lookup_make_bump, E. reflexivity.
Qed.

(** With integer quantities, [n] additions of the quantity are one
    addition of [n] times the quantity. *)
Lemma added_integers (n : nat) (q w : Z) : added n q w = w + q * Z.of_nat n.
Proof.
  unfold added. induction n as [|n IH]; [simpl; lia|].
  rewrite Nat.iter_succ, IH. unfold q_add, int_quantity. lia.
Qed.

Lemma bump_all_counts (q : Z) (tokens : list string) :
  forall (lb : leaderboard Z) (m : string),
    let lb' := fold_left (fun acc make => bump make q acc) tokens lb in
    count_of lb' m = count_of lb m + occurrences m tokens
    /\ weighted_of lb' m = weighted_of lb m + q * occurrences m tokens
    /\ (occurrences m tokens = 0 -> lookup_make m lb' = lookup_make m lb).
Proof.
  intros lb m. cbn zeta. destruct (bump_all q tokens lb m) as (Hc & Hw & Hu).
  split; [exact Hc|]. split; [|exact Hu].
  rewrite Hw, added_integers.
  pose proof (occurrences_nonneg m tokens). f_equal. f_equal. lia.
Qed.

Lemma occurrences_NoDup (m : string) (ts : list string) :
  List.NoDup ts -> In m ts -> occurrences m ts = 1.
Proof.
  induction 1 as [|t ts Hnin Hnd IH]; intros Hin; [destruct Hin|].
  rewrite occurrences_cons. destruct Hin as [->|Hin].
  - rewrite String.eqb_refl.
    assert (occurrences m ts = 0); [|lia].
    unfold occurrences.
    replace (List.filter (String.eqb m) ts) with (@nil string); [reflexivity|].
    symmetry. clear -Hnin. induction ts as [|u us IHu]; [reflexivity|].
    simpl. destruct (String.eqb m u) eqn:E.
    + apply String.eqb_eq in E. subst. exfalso. apply Hnin. left. reflexivity.
    + apply IHu. intros H. apply Hnin. right. exact H.
  - destruct (String.eqb m t) eqn:E.
    + apply String.eqb_eq in E. subst. contradiction.
    + rewrite IH by assumption. lia.
Qed.



(** Ten tokens of one make at a quantity of 0.1: ten additions give
    0.9999999999999999, which is not ten times 0.1. *)
Example ten_tenths_are_not_one :
  weighted_of
    (update_leaderboard [] "Kia,Kia,Kia,Kia,Kia,Kia,Kia,Kia,Kia,Kia" tenth) "Kia"
  = added 10 tenth PrimFloat.zero
  /\ added 10 tenth PrimFloat.zero = below_one
  /\ PrimFloat.mul ten tenth = one
  /\ PrimFloat.ltb below_one one = true.
Proof. vm_compute. repeat split. Qed.




End LeaderboardFacts.
(** * The ranking *)

Section RankingFacts.
Import Text Leaderboard Decimal.

Lemma Forall_firstn {A : Type} (Q : A -> Prop) (n : nat) (l : list A) :
  Forall Q l -> Forall Q (firstn n l).
Proof.
  intros Hl. apply List.Forall_forall. intros x Hx.
  apply (proj1 (List.Forall_forall _ _) Hl).
  rewrite <- (firstn_skipn n l). apply in_or_app. left. exact Hx.
Qed.

Lemma Forall_skipn {A : Type} (Q : A -> Prop) (n : nat) (l : list A) :
  Forall Q l -> Forall Q (skipn n l).
Proof.
  intros Hl. apply List.Forall_forall. intros x Hx.
  apply (proj1 (List.Forall_forall _ _) Hl).
  rewrite <- (firstn_skipn n l). apply in_or_app. right. exact Hx.
Qed.

(** *** [list.sort] returns a rearrangement, whatever [<] is *)

Lemma insert_at_perm {A : Type} (i : nat) (x : A) (l : list A) :
  Permutation (insert_at i x l) (x :: l).
Proof.
  unfold insert_at. rewrite <- Permutation_middle, firstn_skipn. reflexivity.
Qed.

Lemma binarysort_perm {A : Type} (less : A -> A -> bool) (rest : list A) :
  forall run : list A, Permutation (binarysort less run rest) (run ++ rest).
Proof.
  unfold binarysort. induction rest as [|x rest IH]; intros run; simpl.
  - rewrite app_nil_r. reflexivity.
  - rewrite IH, insert_at_perm. apply Permutation_middle.
Qed.

Lemma list_sort_perm {A : Type} (less : A -> A -> bool) (reverse : bool)
    (l : list A) :
  Permutation (list_sort less reverse l) l.
Proof.
  unfold list_sort. set (l0 := if reverse then rev l else l).
  assert (Permutation l0 l) as H0
    by (subst l0; destruct reverse; [symmetry; apply Permutation_rev | reflexivity]).
  destruct (count_run less l0) as [n d].
  assert (Permutation
            (binarysort less (if d then rev (firstn n l0) else firstn n l0)
               (skipn n l0)) l0) as H1.
  { rewrite binarysort_perm.
    transitivity (firstn n l0 ++ skipn n l0); [|rewrite firstn_skipn; reflexivity].
    apply Permutation_app_tail.
    destruct d; [symmetry; apply Permutation_rev | reflexivity]. }
  destruct reverse.
  - rewrite <- Permutation_rev, H1. exact H0.
  - rewrite H1. exact H0.
Qed.

Lemma sorted_makes_perm {W : Type} `{Quantity W} (lb : leaderboard W) :
  Permutation (sorted_makes lb) lb.
Proof. apply list_sort_perm. Qed.

(** *** The binary search finds the place of linear insertion *)

Lemma place_le {A : Type} (less : A -> A -> bool) (x : A) (l : list A) :
  (place less x l <= length l)%nat.
Proof.
  induction l as [|y l IH]; simpl; [lia|]. destruct (less x y); simpl; lia.
Qed.

Lemma insert_asc_place {A : Type} (less : A -> A -> bool) (x : A) (l : list A) :
  insert_asc less x l = insert_at (place less x l) x l.
Proof.
  induction l as [|y l IH]; [reflexivity|]. simpl.
  destruct (less x y); [reflexivity|]. rewrite IH. reflexivity.
Qed.

Lemma insert_asc_perm {A : Type} (less : A -> A -> bool) (x : A) (l : list A) :
  Permutation (insert_asc less x l) (x :: l).
Proof. rewrite insert_asc_place. apply insert_at_perm. Qed.

Lemma place_before {A : Type} (less : A -> A -> bool) (x : A) (l : list A) :
  forall (p : nat) (y : A),
    (p < place less x l)%nat -> nth_error l p = Some y -> less x y = false.
Proof.
  induction l as [|y0 l IH]; intros p y Hp Hy; simpl in Hp; [lia|].
  destruct (less x y0) eqn:E; [lia|].
  destruct p as [|p]; simpl in Hy.
  - injection Hy as <-. exact E.
  - apply (IH p y); [lia | exact Hy].
Qed.

Lemma place_firstn {A : Type} (less : A -> A -> bool) (x : A) (l : list A) :
  Forall (fun y => less x y = false) (firstn (place less x l) l).
Proof.
  induction l as [|y l IH]; simpl; [constructor|].
  destruct (less x y) eqn:E; simpl; [constructor|].
  constructor; assumption.
Qed.

Lemma not_below_trans {W : Type} `{Quantity W} (P : W -> Prop)
    (x y z : string * Entry W) :
  orders P -> P (weight x) -> P (weight y) -> P (weight z) ->
  below z y = false -> below y x = false -> below z x = false.
Proof.
  intros Hord Hx Hy Hz Hzy Hyx. destruct (below z x) eqn:E; [|reflexivity].
  destruct (lt_between P Hord _ (weight y) _ Hz Hy Hx E) as [H1|H1];
    unfold below in *; congruence.
Qed.

Lemma below_asym {W : Type} `{Quantity W} (P : W -> Prop)
    (x y : string * Entry W) :
  orders P -> P (weight x) -> P (weight y) ->
  below x y = true -> below y x = false.
Proof.
  intros Hord Hx Hy Hxy. destruct (below y x) eqn:E; [|reflexivity].
  pose proof (lt_trans P Hord _ _ _ Hx Hy Hx Hxy E) as Hxx.
  rewrite (lt_irrefl P Hord _ Hx) in Hxx. discriminate.
Qed.

Lemma place_skipn {W : Type} `{Quantity W} (P : W -> Prop)
    (x : string * Entry W) (l : leaderboard W) :
  orders P -> P (weight x) -> Forall (fun e => P (weight e)) l ->
  ascending below l ->
  Forall (fun y => below x y = true) (skipn (place below x l) l).
Proof.
  intros Hord Hx Hl Hs. induction Hs as [|y0 l Hs IH Hy0]; simpl; [constructor|].
  inversion Hl as [|? ? Hp0 Hpl]; subst.
  destruct (below x y0) eqn:E; simpl.
  - constructor; [exact E|].
    apply List.Forall_forall. intros z Hz.
    pose proof (proj1 (List.Forall_forall _ _) Hy0 z Hz) as Hzy.
    pose proof (proj1 (List.Forall_forall _ _) Hpl z Hz) as Hpz.
    destruct (lt_between P Hord _ (weight z) _ Hx Hpz Hp0 E) as [H1|H1];
      [exact H1|]. unfold below in Hzy. simpl in Hzy. congruence.
  - apply IH, Hpl.
Qed.

Lemma place_after {W : Type} `{Quantity W} (P : W -> Prop)
    (x : string * Entry W) (l : leaderboard W) :
  orders P -> P (weight x) -> Forall (fun e => P (weight e)) l ->
  ascending below l ->
  forall (p : nat) (y : string * Entry W),
    (place below x l <= p)%nat -> nth_error l p = Some y -> below x y = true.
Proof.
  intros Hord Hx Hl Hs p y Hp Hy.
  pose proof (place_skipn P x l Hord Hx Hl Hs) as Hall.
  apply (proj1 (List.Forall_forall _ _) Hall).
  apply (nth_error_In _ (p - place below x l)).
  rewrite nth_error_skipn.
  replace (place below x l + (p - place below x l))%nat with p by lia.
  exact Hy.
Qed.

Lemma bisect_place {W : Type} `{Quantity W} (P : W -> Prop)
    (x : string * Entry W) (run : leaderboard W) :
  orders P -> P (weight x) -> Forall (fun e => P (weight e)) run ->
  ascending below run ->
  forall steps l r : nat,
    (l <= place below x run)%nat -> (place below x run <= r)%nat ->
    (r <= length run)%nat -> (r - l <= steps)%nat ->
    bisect below x run l r steps = place below x run.
Proof.
  intros Hord Hx Hl Hs. induction steps as [|steps IH]; intros l r H1 H2 H3 H4.
  - simpl. lia.
  - simpl. destruct (Nat.ltb_spec l r) as [Hlr|Hlr]; [|lia].
    pose proof (Nat.lt_div2 (r - l) ltac:(lia)) as Hd.
    revert Hd. generalize (Nat.div2 (r - l)). intros d Hd.
    destruct (nth_error run (l + d)) as [y|] eqn:Hy.
    + destruct (below x y) eqn:E.
      * assert (place below x run <= l + d)%nat as Hle.
        { destruct (Nat.le_gt_cases (place below x run) (l + d))
            as [Hle|Hgt]; [exact Hle|].
          rewrite (place_before below x run _ y Hgt Hy) in E. discriminate. }
        apply IH; lia.
      * assert (l + d < place below x run)%nat as Hgt.
        { destruct (Nat.le_gt_cases (place below x run) (l + d))
            as [Hle|Hgt]; [|exact Hgt].
          rewrite (place_after P x run Hord Hx Hl Hs _ y Hle Hy) in E.
          discriminate. }
        apply IH; lia.
    + apply nth_error_None in Hy. lia.
Qed.

(** *** Linear insertion keeps the run in order *)

Lemma insert_asc_ordered {W : Type} `{Quantity W} (P : W -> Prop)
    (x : string * Entry W) (l : leaderboard W) :
  orders P -> P (weight x) -> Forall (fun e => P (weight e)) l ->
  ascending below l -> ascending below (insert_asc below x l).
Proof.
  intros Hord Hx Hl Hs. induction Hs as [|y l Hs IH Hy]; simpl.
  - repeat constructor.
  - inversion Hl as [|? ? Hpy Hpl]; subst.
    destruct (below x y) eqn:E.
    + constructor; [constructor; assumption|].
      constructor; [exact (below_asym P x y Hord Hx Hpy E)|].
      apply List.Forall_forall. intros z Hz.
      pose proof (proj1 (List.Forall_forall _ _) Hy z Hz) as Hzy.
      pose proof (proj1 (List.Forall_forall _ _) Hpl z Hz) as Hpz.
      destruct (below z x) eqn:Ezx; [|reflexivity].
      pose proof (lt_trans P Hord _ _ _ Hpz Hx Hpy Ezx E) as Hc.
      unfold below in Hzy. simpl in Hzy. congruence.
    + constructor; [apply IH, Hpl|].
      apply List.Forall_forall. intros z Hz.
      apply (Permutation_in _ (insert_asc_perm below x l)) in Hz.
      destruct Hz as [<-|Hz]; [exact E|].
      exact (proj1 (List.Forall_forall _ _) Hy z Hz).
Qed.

Lemma insert_asc_good {W : Type} `{Quantity W} (P : W -> Prop)
    (x : string * Entry W) (l : leaderboard W) :
  P (weight x) -> Forall (fun e => P (weight e)) l ->
  Forall (fun e => P (weight e)) (insert_asc below x l).
Proof.
  intros Hx Hl. apply List.Forall_forall. intros z Hz.
  apply (Permutation_in _ (insert_asc_perm below x l)) in Hz.
  destruct Hz as [<-|Hz]; [exact Hx|].
  exact (proj1 (List.Forall_forall _ _) Hl z Hz).
Qed.

Lemma fold_insert_asc {W : Type} `{Quantity W} (P : W -> Prop)
    (l : leaderboard W) :
  orders P -> Forall (fun e => P (weight e)) l ->
  forall run : leaderboard W,
    Forall (fun e => P (weight e)) run -> ascending below run ->
    ascending below (fold_left (fun run x => insert_asc below x run) l run)
    /\ Forall (fun e => P (weight e))
         (fold_left (fun run x => insert_asc below x run) l run).
Proof.
  intros Hord Hl. induction Hl as [|x l Hx Hl IH]; intros run Hr Hs; simpl.
  - split; assumption.
  - apply IH.
    + apply insert_asc_good; assumption.
    + apply (insert_asc_ordered P); assumption.
Qed.

(** [binarysort] on a run in order is linear insertion. *)
Lemma binarysort_stable {W : Type} `{Quantity W} (P : W -> Prop)
    (rest : leaderboard W) :
  orders P -> Forall (fun e => P (weight e)) rest ->
  forall run : leaderboard W,
    Forall (fun e => P (weight e)) run -> ascending below run ->
    binarysort below run rest
    = fold_left (fun run x => insert_asc below x run) rest run.
Proof.
  intros Hord Hl. unfold binarysort.
  induction Hl as [|x l Hx Hl IH]; intros run Hr Hs; simpl; [reflexivity|].
  rewrite (bisect_place P x run Hord Hx Hr Hs)
    by (try lia; apply place_le).
  rewrite <- insert_asc_place. apply IH.
  - apply insert_asc_good; assumption.
  - apply (insert_asc_ordered P); assumption.
Qed.

(** *** The run [count_run] finds *)

Lemma run_tail_chain {A : Type} (continues : A -> A -> bool) (tl : list A) :
  forall x : A, chain continues (firstn (S (run_tail continues x tl)) (x :: tl)).
Proof.
  induction tl as [|y tl IH]; intros x; [exact I|].
  cbn [run_tail]. destruct (continues x y) eqn:E; [|exact I].
  change (chain continues (x :: firstn (S (run_tail continues y tl)) (y :: tl))).
  specialize (IH y). cbn [firstn] in IH |- *. cbn [chain]. split; [exact E|exact IH].
Qed.

Lemma sorted_app_left {A : Type} (R : A -> A -> Prop) (l1 : list A) (x : A)
    (l2 : list A) :
  StronglySorted R (l1 ++ x :: l2) -> Forall (fun e => R e x) l1.
Proof.
  induction l1 as [|a l1 IH]; intros Hs; [constructor|].
  simpl in Hs. inversion Hs as [|? ? Hs' Ha]; subst. constructor.
  - apply (proj1 (List.Forall_forall _ _) Ha). apply in_or_app. right. left.
    reflexivity.
  - apply IH, Hs'.
Qed.

Lemma insert_asc_last {A : Type} (less : A -> A -> bool) (x : A) (l : list A) :
  Forall (fun e => less x e = false) l -> insert_asc less x l = l ++ [x].
Proof.
  induction 1 as [|y l Hy Hl IH]; [reflexivity|].
  simpl. rewrite Hy, IH. reflexivity.
Qed.

(** An ascending run is left as it is. *)
Lemma fold_ascending_run {A : Type} (less : A -> A -> bool) (r : list A) :
  forall acc : list A,
    ascending less (acc ++ r) ->
    fold_left (fun run x => insert_asc less x run) r acc = acc ++ r.
Proof.
  induction r as [|x r IH]; intros acc Hs; simpl.
  - rewrite app_nil_r. reflexivity.
  - rewrite insert_asc_last
      by exact (sorted_app_left (fun a b => less b a = false) acc x r Hs).
    rewrite IH; rewrite <- app_assoc; [reflexivity | exact Hs].
Qed.

(** A strictly descending run is reversed. *)
Lemma fold_descending_run {A : Type} (less : A -> A -> bool) (r : list A) :
  forall acc : list A,
    chain (fun prev cur => less cur prev) r ->
    match r, acc with
    | x :: _, h :: _ => less x h = true
    | _, _ => True
    end ->
    fold_left (fun run x => insert_asc less x run) r acc = rev r ++ acc.
Proof.
  induction r as [|x r IH]; intros acc Hc Hh; [reflexivity|].
  simpl fold_left.
  assert (insert_asc less x acc = x :: acc) as ->.
  { destruct acc as [|h acc]; [reflexivity|]. simpl. rewrite Hh. reflexivity. }
  rewrite IH.
  - simpl. rewrite <- app_assoc. reflexivity.
  - destruct r as [|y r]; [exact I|]. exact (proj2 Hc).
  - destruct r as [|y r]; [exact I|]. exact (proj1 Hc).
Qed.

Lemma chain_ascending {W : Type} `{Quantity W} (P : W -> Prop)
    (l : leaderboard W) :
  orders P -> Forall (fun e => P (weight e)) l ->
  chain (fun prev cur => negb (below cur prev)) l -> ascending below l.
Proof.
  intros Hord Hl. induction Hl as [|x l Hx Hl IH]; intros Hc; [constructor|].
  destruct l as [|y l]; [repeat constructor|].
  destruct Hc as [Hxy Hc]. apply negb_true_iff in Hxy.
  specialize (IH Hc). constructor; [exact IH|].
  constructor; [exact Hxy|].
  inversion IH as [|? ? _ Hy]; subst.
  inversion Hl as [|? ? Hpy Hpl]; subst.
  apply List.Forall_forall. intros z Hz.
  apply (not_below_trans P x y z Hord Hx Hpy);
    [exact (proj1 (List.Forall_forall _ _) Hpl z Hz)
    |exact (proj1 (List.Forall_forall _ _) Hy z Hz)
    |exact Hxy].
Qed.

(** The run at the head of the list, reversed when it is descending, is
    what linear insertion makes of its items. *)
Lemma count_run_stable {W : Type} `{Quantity W} (P : W -> Prop)
    (l : leaderboard W) (n : nat) (descending : bool) :
  orders P -> Forall (fun e => P (weight e)) l ->
  count_run below l = (n, descending) ->
  stable_asc below (firstn n l)
  = if descending then rev (firstn n l) else firstn n l.
Proof.
  intros Hord Hl Hc. unfold stable_asc.
  destruct l as [|x tl]; [injection Hc as <- <-; reflexivity|].
  destruct tl as [|y tl]; [injection Hc as <- <-; reflexivity|].
  unfold count_run in Hc. destruct (below y x) eqn:E; injection Hc as <- <-.
  - rewrite fold_descending_run;
      [apply app_nil_r | exact (run_tail_chain _ (y :: tl) x) |].
    cbn [firstn]. exact I.
  - apply (fold_ascending_run below _ []). simpl app.
    apply (chain_ascending P);
      [exact Hord | | exact (run_tail_chain _ (y :: tl) x)].
    exact (Forall_firstn _
             (S (run_tail (fun prev cur => negb (below cur prev)) x (y :: tl)))
             (x :: y :: tl) Hl).
Qed.

(** *** [list.sort] is the stable sort when [<] orders the keys *)

Lemma list_sort_ascending {W : Type} `{Quantity W} (P : W -> Prop)
    (l : leaderboard W) :
  orders P -> Forall (fun e => P (weight e)) l ->
  list_sort below false l = stable_asc below l.
Proof.
  intros Hord Hl. unfold list_sort.
  destruct (count_run below l) as [n d] eqn:Hc.
  rewrite <- (count_run_stable P l n d Hord Hl Hc).
  assert (Forall (fun e => P (weight e)) (firstn n l)) as Hf
    by (apply Forall_firstn, Hl).
  assert (Forall (fun e => P (weight e)) (skipn n l)) as Hk
    by (apply Forall_skipn, Hl).
  destruct (fold_insert_asc P (firstn n l) Hord Hf [] ltac:(constructor)
              ltac:(constructor)) as [Hs Hg].
  unfold stable_asc.
  rewrite (binarysort_stable P (skipn n l) Hord Hk _ Hg Hs).
  rewrite <- fold_left_app, firstn_skipn. reflexivity.
Qed.

Lemma list_sort_reverse {A : Type} (less : A -> A -> bool) (l : list A) :
  list_sort less true l = rev (list_sort less false (rev l)).
Proof. unfold list_sort. destruct (count_run less (rev l)); reflexivity. Qed.

Lemma insert_desc_app {A : Type} (less : A -> A -> bool) (x : A) (l1 l2 : list A) :
  Forall (fun y => less x y = true) l1 ->
  Forall (fun y => less x y = false) l2 ->
  insert_desc less x (l1 ++ l2) = l1 ++ x :: l2.
Proof.
  intros H1 H2. induction H1 as [|y l1 Hy H1 IH]; simpl.
  - destruct H2 as [|h l2 Hh H2]; [reflexivity|]. simpl. rewrite Hh. reflexivity.
  - rewrite Hy, IH. reflexivity.
Qed.

Lemma rev_insert_asc {W : Type} `{Quantity W} (P : W -> Prop)
    (x : string * Entry W) (l : leaderboard W) :
  orders P -> P (weight x) -> Forall (fun e => P (weight e)) l ->
  ascending below l ->
  rev (insert_asc below x l) = insert_desc below x (rev l).
Proof.
  intros Hord Hx Hl Hs. rewrite insert_asc_place. unfold insert_at.
  set (k := place below x l).
  assert (rev l = rev (skipn k l) ++ rev (firstn k l)) as ->
    by (rewrite <- rev_app_distr, firstn_skipn; reflexivity).
  rewrite rev_app_distr. cbn [rev]. rewrite <- app_assoc. cbn [app].
  symmetry. apply insert_desc_app.
  - apply Forall_rev, (place_skipn P); assumption.
  - apply Forall_rev, place_firstn.
Qed.

Lemma stable_asc_rev {W : Type} `{Quantity W} (P : W -> Prop)
    (lb : leaderboard W) :
  orders P -> Forall (fun e => P (weight e)) lb ->
  rev (stable_asc below (rev lb)) = stable_desc below lb.
Proof.
  intros Hord Hl. induction Hl as [|x lb Hx Hl IH]; [reflexivity|].
  simpl rev. unfold stable_asc. rewrite fold_left_app. simpl fold_left.
  destruct (fold_insert_asc P (rev lb) Hord (Forall_rev Hl) []
              ltac:(constructor) ltac:(constructor)) as [Hs Hg].
  rewrite (rev_insert_asc P x _ Hord Hx Hg Hs).
  fold (stable_asc below (rev lb)). rewrite IH. reflexivity.
Qed.

(** What [sorted] returns for a leaderboard whose weighted counts [<]
    orders is the stable sort in descending order. *)
Lemma sorted_makes_stable_sort {W : Type} `{Quantity W} (P : W -> Prop)
    (lb : leaderboard W) :
  orders P -> Forall (fun e => P (weight e)) lb ->
  sorted_makes lb = stable_desc below lb.
Proof.
  intros Hord Hl. unfold sorted_makes.
  rewrite list_sort_reverse, (list_sort_ascending P) by
    (try exact Hord; apply Forall_rev, Hl).
  apply (stable_asc_rev P); assumption.
Qed.

(** *** The stable sort: largest first, ties in insertion order *)

Lemma insert_desc_perm {A : Type} (less : A -> A -> bool) (x : A) (l : list A) :
  Permutation (insert_desc less x l) (x :: l).
Proof.
  induction l as [|y l IH]; simpl; [reflexivity|].
  destruct (less x y); [|reflexivity].
  rewrite IH. apply perm_swap.
Qed.

Lemma stable_desc_perm {A : Type} (less : A -> A -> bool) (l : list A) :
  Permutation (stable_desc less l) l.
Proof.
  induction l as [|x l IH]; simpl; [reflexivity|].
  rewrite insert_desc_perm, IH. reflexivity.
Qed.

Lemma stable_desc_good {W : Type} `{Quantity W} (P : W -> Prop)
    (lb : leaderboard W) :
  Forall (fun e => P (weight e)) lb ->
  Forall (fun e => P (weight e)) (stable_desc below lb).
Proof.
  intros Hl. apply List.Forall_forall. intros z Hz.
  apply (Permutation_in _ (stable_desc_perm below lb)) in Hz.
  exact (proj1 (List.Forall_forall _ _) Hl z Hz).
Qed.

Lemma insert_desc_sorted {W : Type} `{Quantity W} (P : W -> Prop)
    (x : string * Entry W) (l : leaderboard W) :
  orders P -> P (weight x) -> Forall (fun e => P (weight e)) l ->
  StronglySorted outranks l -> StronglySorted outranks (insert_desc below x l).
Proof.
  intros Hord Hx Hl Hs. induction Hs as [|y l Hs IH Hy]; simpl.
  - repeat constructor.
  - inversion Hl as [|? ? Hpy Hpl]; subst.
    destruct (below x y) eqn:E.
    + constructor; [apply IH, Hpl|].
      apply List.Forall_forall. intros z Hz.
      apply (Permutation_in _ (insert_desc_perm below x l)) in Hz.
      destruct Hz as [<-|Hz].
      * exact (below_asym P x y Hord Hx Hpy E).
      * exact (proj1 (List.Forall_forall _ _) Hy z Hz).
    + constructor; [constructor; assumption|].
      constructor; [exact E|].
      apply List.Forall_forall. intros z Hz.
      apply (not_below_trans P z y x Hord
               (proj1 (List.Forall_forall _ _) Hpl z Hz) Hpy Hx E).
      exact (proj1 (List.Forall_forall _ _) Hy z Hz).
Qed.

Lemma stable_desc_sorted {W : Type} `{Quantity W} (P : W -> Prop)
    (lb : leaderboard W) :
  orders P -> Forall (fun e => P (weight e)) lb ->
  StronglySorted outranks (stable_desc below lb).
Proof.
  intros Hord Hl. induction Hl as [|x lb Hx Hl IH]; simpl; [constructor|].
  apply (insert_desc_sorted P); try assumption.
  apply stable_desc_good, Hl.
Qed.

(** Stability: among the entries of one weighted count the dictionary
    order is kept. *)
Lemma insert_desc_stable {W : Type} `{Quantity W} (P : W -> Prop) (w : W)
    (x : string * Entry W) (l : leaderboard W) :
  orders P -> P w -> P (weight x) -> Forall (fun e => P (weight e)) l ->
  List.filter (has_weight w) (insert_desc below x l) =
  List.filter (has_weight w) (x :: l).
Proof.
  intros Hord Hw Hx Hl. induction Hl as [|y l Hy Hl IH]; [reflexivity|].
  simpl insert_desc. destruct (below x y) eqn:E; [|reflexivity].
  change (List.filter (has_weight w) (y :: insert_desc below x l))
    with (if has_weight w y
          then y :: List.filter (has_weight w) (insert_desc below x l)
          else List.filter (has_weight w) (insert_desc below x l)).
  rewrite IH. simpl.
  destruct (has_weight w x) eqn:Ex; destruct (has_weight w y) eqn:Ey;
    try reflexivity.
  exfalso. unfold has_weight in Ex, Ey.
  apply andb_true_iff in Ex as [Ex1 Ex2]. apply andb_true_iff in Ey as [Ey1 Ey2].
  apply negb_true_iff in Ex1, Ex2, Ey1, Ey2.
  destruct (lt_between P Hord _ w _ Hx Hw Hy E); congruence.
Qed.

Lemma stable_desc_stable {W : Type} `{Quantity W} (P : W -> Prop) (w : W)
    (lb : leaderboard W) :
  orders P -> P w -> Forall (fun e => P (weight e)) lb ->
  List.filter (has_weight w) (stable_desc below lb)
  = List.filter (has_weight w) lb.
Proof.
  intros Hord Hw Hl. induction Hl as [|x lb Hx Hl IH]; [reflexivity|].
  simpl stable_desc. rewrite (insert_desc_stable P) by
    (try assumption; apply stable_desc_good, Hl).
  simpl. rewrite IH. reflexivity.
Qed.

Lemma StronglySorted_firstn {A : Type} (R : A -> A -> Prop) (n : nat) (l : list A) :
  StronglySorted R l -> StronglySorted R (firstn n l).
Proof.
  intros H. revert n. induction H as [|x l Hs IH Hx]; intros [|n]; simpl;
    try constructor.
  - apply IH.
  - apply List.Forall_forall. intros y Hy.
    assert (In y l) as Hin
      by (rewrite <- (firstn_skipn n l); apply in_or_app; left; exact Hy).
    exact (proj1 (List.Forall_forall _ _) Hx y Hin).
Qed.

Lemma filter_firstn_prefix {A : Type} (f : A -> bool) (n : nat) (l : list A) :
  exists rest, List.filter f l = List.filter f (firstn n l) ++ rest.
Proof.
  exists (List.filter f (skipn n l)).
  rewrite <- List.filter_app, firstn_skipn. reflexivity.
Qed.

(** Two elements that pass a filter keep their order through it, in
    both directions. *)
Lemma filter_nth_order {A : Type} (f : A -> bool) (l : list A) :
  forall (i j : nat) (a b : A),
    (i < j)%nat -> nth_error l i = Some a -> nth_error l j = Some b ->
    f a = true -> f b = true ->
    exists i' j', (i' < j')%nat
      /\ nth_error (List.filter f l) i' = Some a
      /\ nth_error (List.filter f l) j' = Some b.
Proof.
  induction l as [|x l IH]; intros i j a b Hij Ha Hb Hfa Hfb.
  - destruct i; discriminate Ha.
  - destruct j as [|j]; [lia|]. simpl in Hb. destruct i as [|i].
    + simpl in Ha. injection Ha as ->. simpl. rewrite Hfa.
      assert (In b (List.filter f l)) as Hin.
      { apply filter_In. split; [eapply nth_error_In; exact Hb | exact Hfb]. }
      apply In_nth_error in Hin as [k Hk].
      exists 0%nat, (S k). repeat split; [lia | exact Hk].
    + simpl in Ha. destruct (IH i j a b ltac:(lia) Ha Hb Hfa Hfb)
        as (i' & j' & Hlt & Hi' & Hj').
      simpl. destruct (f x).
      * exists (S i'), (S j'). repeat split; [lia | exact Hi' | exact Hj'].
      * exists i', j'. repeat split; assumption.
Qed.

Lemma filter_positions {A : Type} (f : A -> bool) (l : list A) :
  forall (i j : nat) (a b : A),
    (i < j)%nat ->
    nth_error (List.filter f l) i = Some a ->
    nth_error (List.filter f l) j = Some b ->
    exists p q, (p < q)%nat /\ nth_error l p = Some a /\ nth_error l q = Some b.
Proof.
  induction l as [|x l IH]; intros i j a b Hij Ha Hb.
  - destruct i; discriminate Ha.
  - simpl in Ha, Hb. destruct (f x).
    + destruct j as [|j]; [lia|]. simpl in Hb. destruct i as [|i].
      * simpl in Ha. injection Ha as ->.
        apply nth_error_In, filter_In in Hb as [Hb _].
        apply In_nth_error in Hb as [k Hk].
        exists 0%nat, (S k). repeat split; [lia | exact Hk].
      * simpl in Ha.
        destruct (IH i j a b ltac:(lia) Ha Hb) as (p & q & Hpq & Hp & Hq).
        exists (S p), (S q). repeat split; [lia | exact Hp | exact Hq].
    + destruct (IH i j a b Hij Ha Hb) as (p & q & Hpq & Hp & Hq).
      exists (S p), (S q). repeat split; [lia | exact Hp | exact Hq].
Qed.

Lemma nth_error_app_left {A : Type} (l k : list A) (i : nat) (a : A) :
  nth_error l i = Some a -> nth_error (l ++ k) i = Some a.
Proof.
  intros H. rewrite nth_error_app1; [exact H|].
  apply nth_error_Some. rewrite H. discriminate.
Qed.

(** For a limit [n >= 0] and a leaderboard whose weighted counts [<]
    orders (all integers, or floats none of which is NaN),
    [get_top_makes] returns at most [n] entries: the first [n] of a
    rearrangement of the leaderboard that is sorted by weighted count,
    largest first, and in which the entries of any one weighted count
    stand in their insertion order; of two entries of the result with
    equal weighted count, the one that ranks higher stands earlier in the
    leaderboard (its make was seen first). *)
Lemma get_top_makes_ranking {W : Type} `{Quantity W} (P : W -> Prop)
    (lb : leaderboard W) (n : Z) :
  orders P -> Forall (fun e => P (weight e)) lb -> 0 <= n ->
  let top := get_top_makes lb n in
  (length top <= Z.to_nat n)%nat
  /\ top = firstn (Z.to_nat n) (sorted_makes lb)
  /\ Permutation (sorted_makes lb) lb
  /\ StronglySorted outranks top
  /\ (forall w : W, P w -> exists later,
        List.filter (has_weight w) lb = List.filter (has_weight w) top ++ later)
  /\ (forall (i j : nat) (a b : string * Entry W),
        (i < j)%nat -> nth_error top i = Some a -> nth_error top j = Some b ->
        has_weight (weight a) b = true ->
        exists p q, (p < q)%nat
          /\ nth_error lb p = Some a /\ nth_error lb q = Some b).
Proof.
  intros Hord Hl Hn. cbn zeta. unfold get_top_makes, slice_to.
  destruct (Z.leb_spec 0 n) as [_|]; [|lia].
  split; [apply firstn_le_length|]. split; [reflexivity|].
  split; [apply sorted_makes_perm|].
  rewrite (sorted_makes_stable_sort P lb Hord Hl).
  split; [apply StronglySorted_firstn, (stable_desc_sorted P); assumption|].
  split.
  - intros w Hw. rewrite <- (stable_desc_stable P w lb Hord Hw Hl).
    apply filter_firstn_prefix.
  - intros i j a b Hij Ha Hb Hw.
    assert (P (weight a)) as Hpa.
    { apply nth_error_In in Ha.
      assert (In a (stable_desc below lb)) as Hin.
      { rewrite <- (firstn_skipn (Z.to_nat n)). apply in_or_app. left. exact Ha. }
      apply (Permutation_in _ (stable_desc_perm below lb)) in Hin.
      exact (proj1 (List.Forall_forall _ _) Hl a Hin). }
    set (f := has_weight (weight a)).
    assert (f a = true) as Hfa.
    { unfold f, has_weight. rewrite (lt_irrefl P Hord _ Hpa). reflexivity. }
    destruct (filter_nth_order f _ i j a b Hij Ha Hb Hfa Hw)
      as (i' & j' & Hlt & Hi' & Hj').
    destruct (filter_firstn_prefix f (Z.to_nat n) (stable_desc below lb))
      as [later Hlater].
    unfold f in Hlater at 1.
    rewrite (stable_desc_stable P (weight a) lb Hord Hpa Hl) in Hlater.
    fold f in Hlater.
    apply (filter_positions f lb i' j' a b Hlt); rewrite Hlater;
      apply nth_error_app_left; assumption.
Qed.

(** *** Integers and floats *)

Lemma integers_are_ordered : orders (fun _ : Z => True).
Proof.
  constructor; unfold q_lt, int_quantity.
  - intros a _. apply Z.ltb_irrefl.
  - intros a b c _ _ _ H1 H2. apply Z.ltb_lt in H1, H2. apply Z.ltb_lt. lia.
  - intros a b c _ _ _ H1. apply Z.ltb_lt in H1.
    destruct (Z.ltb_spec a b) as [|Hab]; [left; reflexivity|].
    right. apply Z.ltb_lt. lia.
Qed.

Lemma key_lt_ordered :
  (forall a, ~ key_lt a a)
  /\ (forall a b c, key_lt a b -> key_lt b c -> key_lt a c)
  /\ (forall a b c, key_lt a c -> key_lt a b \/ key_lt b c).
Proof.
  unfold key_lt. split; [|split].
  - intros [[a1 a2] a3]. simpl. lia.
  - intros [[a1 a2] a3] [[b1 b2] b3] [[c1 c2] c3]. simpl. lia.
  - intros [[a1 a2] a3] [[b1 b2] b3] [[c1 c2] c3]. simpl. lia.
Qed.

(** [SFltb] on two floats that are numbers compares their keys. *)
Lemma SFltb_key (f g : SpecFloat.spec_float) :
  f <> SpecFloat.S754_nan -> g <> SpecFloat.S754_nan ->
  SpecFloat.SFltb f g = true <-> key_lt (float_key f) (float_key g).
Proof.
  intros Hf Hg. unfold SpecFloat.SFltb, SpecFloat.SFcompare, key_lt.
  destruct f as [sf|sf| |sf mf ef]; try congruence;
    destruct g as [sg|sg| |sg mg eg]; try congruence;
    try destruct sf; try destruct sg; simpl;
    try (split; [discriminate | lia]);
    try (split; [lia | reflexivity]);
    try (split; [reflexivity | lia]).
  - destruct (Z.compare_spec ef eg); simpl;
      try (split; [discriminate | lia]); try (split; [lia | reflexivity]);
      try (split; [reflexivity | lia]).
    rewrite Pos.compare_cont_spec. simpl.
    destruct (Pos.compare_spec mf mg); simpl;
      try (split; [discriminate | lia]); split; try reflexivity; lia.
  - destruct (Z.compare_spec ef eg); simpl;
      try (split; [discriminate | lia]); try (split; [lia | reflexivity]);
      try (split; [reflexivity | lia]).
    rewrite Pos.compare_cont_spec. simpl.
    destruct (Pos.compare_spec mf mg); simpl;
      try (split; [discriminate | lia]); split; try reflexivity; lia.
Qed.

Lemma not_nan_spec (x : PrimFloat.float) :
  not_nan x -> FloatOps.Prim2SF x <> SpecFloat.S754_nan.
Proof.
  unfold not_nan, PrimFloat.is_nan. rewrite FloatAxioms.eqb_spec.
  intros H E. rewrite E in H. discriminate H.
Qed.

(** Python's [<] orders the floats that are not NaN. *)
Lemma floats_are_ordered : orders not_nan.
Proof.
  destruct key_lt_ordered as (Hi & Ht & Hb).
  constructor; unfold q_lt, float_quantity.
  - intros a Ha. rewrite FloatAxioms.ltb_spec.
    destruct (SpecFloat.SFltb (FloatOps.Prim2SF a) (FloatOps.Prim2SF a)) eqn:E;
      [|reflexivity].
    apply SFltb_key in E; try apply not_nan_spec, Ha. destruct (Hi _ E).
  - intros a b c Ha Hb' Hc. rewrite !FloatAxioms.ltb_spec. intros H1 H2.
    apply SFltb_key in H1, H2; try (apply not_nan_spec; assumption).
    apply SFltb_key; try (apply not_nan_spec; assumption).
    exact (Ht _ _ _ H1 H2).
  - intros a b c Ha Hb' Hc. rewrite !FloatAxioms.ltb_spec. intros H1.
    apply SFltb_key in H1; try (apply not_nan_spec; assumption).
    destruct (Hb _ (float_key (FloatOps.Prim2SF b)) _ H1) as [H|H];
      [left|right]; apply SFltb_key; try (apply not_nan_spec; assumption);
      exact H.
Qed.

(** On integers "not below" is [>=] and "the same weight" is [=]. *)
Lemma integer_ranking (lb : leaderboard Z) (n : Z) :
  0 <= n ->
  let top := get_top_makes lb n in
  StronglySorted (fun a b => weight b <= weight a) top
  /\ (forall (i j : nat) (a b : string * Entry Z),
        (i < j)%nat -> nth_error top i = Some a -> nth_error top j = Some b ->
        weight a = weight b ->
        exists p q, (p < q)%nat
          /\ nth_error lb p = Some a /\ nth_error lb q = Some b).
Proof.
  intros Hn. cbn zeta.
  destruct (get_top_makes_ranking (fun _ => True) lb n integers_are_ordered
              ltac:(apply List.Forall_forall; intros; exact I) Hn)
    as (_ & _ & _ & Hs & _ & Ht).
  split.
  - revert Hs. generalize (get_top_makes lb n). intros l Hs.
    induction Hs as [|x l Hs IH Hx]; constructor; [exact IH|].
    eapply List.Forall_impl; [|exact Hx].
    intros y Hy. unfold outranks, below, q_lt, int_quantity in Hy.
    apply Z.ltb_ge in Hy. exact Hy.
  - intros i j a b Hij Ha Hb Hw. apply (Ht i j a b Hij Ha Hb).
    unfold has_weight, q_lt, int_quantity. rewrite Hw, Z.ltb_irrefl. reflexivity.
Qed.

(** Decimal quantities: Ford and Honda tie at 2.5 behind Kia at 10; of
    the two, Ford was seen first. *)
Example decimal_ranking :
  map fst (get_top_makes (three_makes halves) 2) = [ "Kia"; "Ford" ]
  /\ Forall (fun e => not_nan (weight e)) (three_makes halves)
  /\ StronglySorted outranks (get_top_makes (three_makes halves) 2).
Proof.
  assert (Forall (fun e => not_nan (weight e)) (three_makes halves)) as Hl
    by repeat constructor.
  split; [vm_compute; reflexivity|]. split; [exact Hl|].
  apply (get_top_makes_ranking not_nan (three_makes halves) 2
           floats_are_ordered Hl ltac:(lia)).
Qed.

(** C8, where the code leaves the claim.  Ford, Kia and Honda are found
    once each, for rows whose [Qty] cells are 1, empty and 2; pandas
    reads that column as the floats 1.0, NaN and 2.0.  Every comparison
    with NaN is false, so [sorted] takes the three entries for a run that
    is in order already: [get_top_makes] returns them as they stand, Ford
    with 1.0 above Honda with 2.0, which is not descending.  All three
    entries are returned, and no more than the limit. *)
Theorem C8_get_top_makes_misranks_an_empty_quantity :
  let lb := three_makes with_an_empty_cell in
  let top := get_top_makes lb 10 in
  map fst top = [ "Ford"; "Kia"; "Honda" ]
  /\ map weight top = [ one; empty_cell; two ]
  /\ Permutation top lb
  /\ PrimFloat.ltb one two = true
  /\ ~ StronglySorted outranks top.
Proof.
  cbn zeta. split; [vm_compute; reflexivity|].
  split; [vm_compute; reflexivity|].
  split.
  - unfold get_top_makes, slice_to. simpl Z.leb. cbv iota.
    rewrite firstn_all2.
    + apply sorted_makes_perm.
    + rewrite (Permutation_length (sorted_makes_perm _)). vm_compute. lia.
  - split; [vm_compute; reflexivity|].
    assert (get_top_makes (three_makes with_an_empty_cell) 10
            = [ ("Ford", {| count := 1; weighted_count := one |});
                ("Kia", {| count := 1; weighted_count := empty_cell |});
                ("Honda", {| count := 1; weighted_count := two |}) ]) as ->
      by (vm_compute; reflexivity).
    intros Hs. inversion Hs as [|x l _ Hx Heq]; subst.
    inversion Hx as [|? ? _ Hx']; subst. inversion Hx' as [|? ? Hz _]; subst.
    vm_compute in Hz. discriminate Hz.
Qed.

End RankingFacts.

(** * The connection manager, the checkpoints and the worker *)

Section BackendFacts.
Import Text Leaderboard Backend Frames Scenario.

Lemma same_session_refl (s : ProcessingState) : same_session s s.
Proof. constructor; reflexivity. Qed.

Lemma same_session_trans (s1 s2 s3 : ProcessingState) :
  same_session s1 s2 -> same_session s2 s3 -> same_session s1 s3.
Proof. intros [] []. constructor; congruence. Qed.

(** *** [broadcast] *)

Lemma send_loop_spec (env : Env) (n : nat) (m : Event) (conns : list conn) :
  forall (disconnected : list conn) (s : ProcessingState) (w : World),
    send_loop env n m conns disconnected s w =
    (Ret (disconnected ++ List.filter (fun c => negb (send_ok env n c)) conns),
     s,
     set_delivered
       (delivered w ++ map (fun c => (c, m)) (List.filter (send_ok env n) conns)) w).
Proof.
  induction conns as [|c conns IH]; intros disconnected s w; simpl.
  - munfold. rewrite !app_nil_r. destruct w; reflexivity.
  - destruct (send_ok env n c) eqn:E; simpl.
    + munfold. rewrite IH. simpl. rewrite <- app_assoc. reflexivity.
    + rewrite IH, <- app_assoc. reflexivity.
Qed.

Lemma disconnect_all_spec (l : list conn) :
  forall (s : ProcessingState) (w : World),
    disconnect_all l s w =
    (Ret tt,
     set_connected_clients (connected_clients s ∖ list_to_set l) s,
     set_active_connections
       (fold_left (fun acc c => remove_first c acc) l (active_connections w)) w).
Proof.
  induction l as [|c l IH]; intros s w; simpl.
  - munfold. f_equal; [f_equal|].
    + rewrite difference_empty_L. destruct s; reflexivity.
    + destruct w; reflexivity.
  - unfold disconnect. munfold. rewrite IH. simpl. f_equal. f_equal.
    rewrite difference_difference_l_L. reflexivity.
Qed.

(** Taking the failed connections out one by one leaves exactly those
    whose send succeeded, in their order. *)
Lemma remove_failed (ok : conn -> bool) (l : list conn) :
  fold_left (fun acc c => remove_first c acc)
            (List.filter (fun c => negb (ok c)) l) l
  = List.filter ok l.
Proof.
  induction l as [|a l IH]; [reflexivity|].
  simpl. destruct (ok a) eqn:E; simpl.
  - rewrite <- IH. clear IH.
    assert (Forall (fun c => ok c = false)
                   (List.filter (fun c => negb (ok c)) l)) as Hbad.
    { apply List.Forall_forall. intros c Hc. apply filter_In in Hc as [_ Hc].
      destruct (ok c); [discriminate | reflexivity]. }
    revert Hbad. generalize (List.filter (fun c => negb (ok c)) l) as d.
    generalize l as acc. intros acc d. revert acc.
    induction d as [|c d IHd]; intros acc Hbad; [reflexivity|].
    inversion Hbad as [|? ? Hc Hd]; subst. simpl.
    destruct (Nat.eqb a c) eqn:Eac.
    + apply Nat.eqb_eq in Eac. subst. congruence.
    + apply IHd, Hd.
  - rewrite Nat.eqb_refl. exact IH.
Qed.

Lemma broadcast_spec (env : Env) (m : Event) (s : ProcessingState) (w : World) :
  let ok := send_ok env (clock w) in
  let conns := active_connections w in
  broadcast env m s w =
  (Ret tt,
   set_connected_clients
     (connected_clients s ∖ list_to_set (List.filter (fun c => negb (ok c)) conns)) s,
   set_active_connections (List.filter ok conns)
     (set_delivered
        (delivered w ++ map (fun c => (c, m)) (List.filter ok conns))
        (set_clock (S (clock w)) w))).
Proof.
  cbn zeta. unfold broadcast. munfold.
  destruct (active_connections w) as [|c conns] eqn:Hc.
  - simpl. rewrite difference_empty_L, app_nil_r.
    destruct s, w; simpl in *. subst. reflexivity.
  - rewrite send_loop_spec. rewrite disconnect_all_spec.
    cbn [app]. f_equal.
    cbn [active_connections set_delivered set_clock].
    rewrite Hc, remove_failed. destruct w; reflexivity.
Qed.

Lemma broadcast_all_returns (env : Env) (messages : list Event) :
  forall (s : ProcessingState) (w : World),
    exists s' w', broadcast_all env messages s w = (Ret tt, s', w').
Proof.
  induction messages as [|m rest IH]; intros s w; simpl.
  - eauto.
  - munfold. rewrite broadcast_spec. apply IH.
Qed.

Lemma filter_eq_NoDup (c : conn) (l : list conn) :
  List.NoDup l ->
  List.filter (fun x => Nat.eqb x c) l = if existsb (Nat.eqb c) l then [c] else [].
Proof.
  induction 1 as [|a l Hnin Hnd IH]; [reflexivity|].
  simpl. rewrite (Nat.eqb_sym c a). destruct (Nat.eqb a c) eqn:E.
  - apply Nat.eqb_eq in E. subst. simpl. rewrite IH.
    destruct (existsb (Nat.eqb c) l) eqn:Ex; [|reflexivity].
    apply existsb_exists in Ex as (x & Hx & Hxc).
    apply Nat.eqb_eq in Hxc. subst. contradiction.
  - simpl. exact IH.
Qed.

Lemma inbox_app (c : conn) (w : World) (m : Event) (l : list conn) :
  map snd (List.filter (fun d => Nat.eqb (fst d) c)
             (delivered w ++ map (fun x => (x, m)) l))
  = inbox c w ++ map (fun _ => m) (List.filter (fun x => Nat.eqb x c) l).
Proof.
  unfold inbox. rewrite List.filter_app, map_app. f_equal.
  induction l as [|x l IH]; [reflexivity|].
  simpl. destruct (Nat.eqb x c); simpl; rewrite IH; reflexivity.
Qed.

Lemma existsb_filter_false (c : conn) (ok : conn -> bool) (l : list conn) :
  existsb (Nat.eqb c) l = false ->
  existsb (Nat.eqb c) (List.filter ok l) = false.
Proof.
  induction l as [|a l IH]; [reflexivity|].
  simpl. intros H. apply orb_false_iff in H as [Ha Hl].
  destruct (ok a); simpl; [rewrite Ha|]; auto.
Qed.

(** An observer that is not registered receives nothing. *)
Lemma broadcast_all_unregistered (env : Env) (c : conn) (messages : list Event) :
  forall (s : ProcessingState) (w : World),
    List.NoDup (active_connections w) ->
    existsb (Nat.eqb c) (active_connections w) = false ->
    inbox c (snd (broadcast_all env messages s w)) = inbox c w.
Proof.
  induction messages as [|m rest IH]; intros s w Hnd Hc; [reflexivity|].
  simpl. munfold. rewrite broadcast_spec. rewrite IH.
  - unfold inbox at 1. cbn [delivered set_active_connections set_delivered].
    rewrite inbox_app, filter_eq_NoDup by (apply List.NoDup_filter, Hnd).
    rewrite existsb_filter_false by exact Hc. simpl. apply app_nil_r.
  - simpl. apply List.NoDup_filter, Hnd.
  - simpl. apply existsb_filter_false, Hc.
Qed.

(** A registered observer receives the messages in the order they are
    broadcast, without a gap, up to its first failed send. *)
Lemma broadcast_all_inbox (env : Env) (c : conn) (messages : list Event) :
  forall (s : ProcessingState) (w : World),
    List.NoDup (active_connections w) ->
    exists k : nat,
      inbox c (snd (broadcast_all env messages s w))
      = inbox c w ++ firstn k messages.
Proof.
  induction messages as [|m rest IH]; intros s w Hnd.
  - exists 0%nat. simpl. rewrite app_nil_r. reflexivity.
  - simpl. munfold. rewrite broadcast_spec.
    set (ok := send_ok env (clock w)).
    set (s1 := set_connected_clients _ s).
    set (w1 := set_active_connections _ _).
    assert (List.NoDup (active_connections w1)) as Hnd1
      by (simpl; apply List.NoDup_filter, Hnd).
    assert (inbox c w1 = inbox c w ++
              if existsb (Nat.eqb c) (List.filter ok (active_connections w))
              then [m] else []) as Hin.
    { unfold inbox at 1. subst w1. cbn [delivered set_active_connections set_delivered].
      rewrite inbox_app, filter_eq_NoDup by (apply List.NoDup_filter, Hnd).
      destruct (existsb _ _); reflexivity. }
    destruct (existsb (Nat.eqb c) (List.filter ok (active_connections w))) eqn:E.
    + destruct (IH s1 w1 Hnd1) as [k Hk]. exists (S k).
      rewrite Hk, Hin, <- app_assoc. reflexivity.
    + exists 0%nat. rewrite broadcast_all_unregistered; [|exact Hnd1|exact E].
      rewrite Hin. reflexivity.
Qed.

(** When no other coroutine touches the registry while a broadcast is
    sending, one [broadcast] always returns normally, whatever sends
    fail.  It leaves in the registry exactly the observers whose send
    succeeded, in their order (a failed send removes that observer and no
    other), and every one of those has received the message; the session
    fields are untouched.  Over the messages of a run, broadcast one after
    the other to connections registered once each, what an observer
    receives is a prefix of what was broadcast: in emission order and
    without a gap. *)
Lemma broadcast_isolates_send_failures
    (env : Env) (s : ProcessingState) (w : World) :
  (forall m : Event,
     let ok := send_ok env (clock w) in
     exists s' w',
       broadcast env m s w = (Ret tt, s', w')
       /\ active_connections w' = List.filter ok (active_connections w)
       /\ delivered w' =
            delivered w ++ map (fun c => (c, m)) (List.filter ok (active_connections w))
       /\ connected_clients s' =
            connected_clients s ∖
              list_to_set (List.filter (fun c => negb (ok c)) (active_connections w))
       /\ same_session s s'
       /\ should_stop s' = should_stop s)
  /\ (List.NoDup (active_connections w) ->
      forall (messages : list Event) (c : conn),
        (exists s' w', broadcast_all env messages s w = (Ret tt, s', w'))
        /\ (exists k : nat,
              inbox c (snd (broadcast_all env messages s w))
              = inbox c w ++ firstn k messages)).
Proof.
  split.
  - intros m. cbn zeta. rewrite broadcast_spec.
    eexists _, _. split; [reflexivity|]. simpl.
    repeat split; reflexivity.
  - intros Hnd messages c. split.
    + apply broadcast_all_returns.
    + apply broadcast_all_inbox, Hnd.
Qed.

(** *** The broadcast among the other coroutines *)

Lemma skipn_nth_error {A : Type} (l : list A) :
  forall (i : nat) (x : A),
    nth_error l i = Some x -> skipn i l = x :: skipn (S i) l.
Proof.
  induction l as [|a l IH]; intros [|i] x Hx; try discriminate Hx.
  - injection Hx as ->. reflexivity.
  - exact (IH i x Hx).
Qed.

Lemma skipn_past {A : Type} (l : list A) :
  forall i : nat, nth_error l i = None -> skipn i l = [].
Proof.
  induction l as [|a l IH]; intros [|i] Hx; try reflexivity; try discriminate Hx.
  exact (IH i Hx).
Qed.

(** The loop that no other coroutine disturbs is the loop over the list
    as it was when the loop began. *)
Lemma send_loop_undisturbed (env : Env) (n : nat) (m : Event)
    (others : list (list Interleaving.Turn)) :
  Forall (fun during => during = []) others ->
  forall (i : nat) (disconnected : list conn) (s : ProcessingState) (w : World),
    Interleaving.send_loop env n m others i disconnected s w
    = send_loop env n m (skipn i (active_connections w)) disconnected s w.
Proof.
  induction 1 as [|during later -> Hl IH]; intros i disconnected s w.
  - reflexivity.
  - cbn [Interleaving.send_loop]. munfold. cbv beta iota zeta.
    destruct (nth_error (active_connections w) i) as [c|] eqn:Hc.
    + rewrite (skipn_nth_error _ i c Hc). cbn [send_loop].
      unfold Interleaving.send_text.
      destruct (send_ok env n c); munfold; cbv beta iota zeta;
        cbn [Interleaving.turns]; munfold; cbv beta iota zeta;
        rewrite IH; reflexivity.
    + rewrite (skipn_past _ i Hc). reflexivity.
Qed.

Lemma broadcast_undisturbed (env : Env) (m : Event)
    (others : list (list Interleaving.Turn))
    (s : ProcessingState) (w : World) :
  Forall (fun during => during = []) others ->
  Interleaving.broadcast env others m s w = broadcast env m s w.
Proof.
  intros Hq. unfold Interleaving.broadcast, broadcast. munfold.
  cbv beta iota zeta.
  destruct (active_connections w) as [|c conns] eqn:Hc; [reflexivity|].
  rewrite (send_loop_undisturbed env (clock w) m others Hq).
  cbn [active_connections set_clock skipn]. rewrite Hc. reflexivity.
Qed.

Lemma turns_returns (ts : list Interleaving.Turn) :
  forall (s : ProcessingState) (w : World),
    exists s' w', Interleaving.turns ts s w = (Ret tt, s', w').
Proof.
  induction ts as [|t ts IH]; intros s w; simpl.
  - eauto.
  - destruct t; unfold Interleaving.turn, connect, disconnect; munfold;
      cbv beta iota zeta; apply IH.
Qed.

(** Whatever the other coroutines do, the loop ends and raises
    nothing. *)
Lemma send_loop_returns (env : Env) (n : nat) (m : Event)
    (others : list (list Interleaving.Turn)) :
  forall (i : nat) (disconnected : list conn) (s : ProcessingState) (w : World),
    exists d' s' w',
      Interleaving.send_loop env n m others i disconnected s w = (Ret d', s', w').
Proof.
  induction others as [|during later IH]; intros i disconnected s w.
  - cbn [Interleaving.send_loop]. munfold. cbv beta iota zeta.
    rewrite send_loop_spec. eauto.
  - cbn [Interleaving.send_loop]. munfold. cbv beta iota zeta.
    destruct (nth_error (active_connections w) i) as [c|]; [|eauto].
    unfold Interleaving.send_text.
    destruct (send_ok env n c); munfold; cbv beta iota zeta.
    + destruct (turns_returns during s
                  (set_delivered (delivered w ++ [(c, m)]) w)) as (s1 & w1 & ->).
      apply IH.
    + destruct (turns_returns during s w) as (s1 & w1 & ->). apply IH.
Qed.

(** The worker that awaits a broadcast does not fail, whatever sends
    fail and whatever the other coroutines do meanwhile. *)
Lemma broadcast_returns (env : Env) (m : Event)
    (others : list (list Interleaving.Turn))
    (s : ProcessingState) (w : World) :
  exists s' w', Interleaving.broadcast env others m s w = (Ret tt, s', w').
Proof.
  unfold Interleaving.broadcast. munfold. cbv beta iota zeta.
  destruct (active_connections w) as [|c conns]; [eauto|].
  destruct (send_loop_returns env (clock w) m others 0 [] s
              (set_clock (S (clock w)) w)) as (d & s1 & w1 & ->).
  rewrite disconnect_all_spec. eauto.
Qed.

(** C9, where the code leaves the claim.  Three observers are
    registered; observer 1 has gone away, so the send to it fails, and
    while the send to observer 2 is awaited the [websocket_endpoint] of
    observer 1 reaches its [finally] and takes it off the list.  The
    list the loop is reading is now one shorter, the loop's index is past
    its end, and the loop ends: observer 3, registered before and after
    and with a send that would succeed, does not receive the event.  The
    same broadcast that no coroutine disturbs delivers it to observer 3.
    The broadcast returns normally and only observer 1 leaves the
    registry. *)
Theorem C9_a_closing_observer_makes_the_broadcast_skip_another :
  let disturbed :=
    Interleaving.broadcast first_gone first_leaves_during_second (Stopped 1)
      three_clients three_observers in
  let undisturbed :=
    broadcast first_gone (Stopped 1) three_clients three_observers in
  active_connections three_observers = [1; 2; 3]%nat
  /\ send_ok first_gone (clock three_observers) 3%nat = true
  /\ answer_of disturbed = Ret tt
  /\ active_connections (world_of disturbed) = [2; 3]%nat
  /\ inbox 2%nat (world_of disturbed) = [Stopped 1]
  /\ inbox 3%nat (world_of disturbed) = []
  /\ inbox 3%nat (world_of undisturbed) = [Stopped 1]
  /\ active_connections (world_of undisturbed) = [2; 3]%nat.
Proof.
  cbn zeta. repeat split; vm_compute; reflexivity.
Qed.

End BackendFacts.
Section WorkerFacts.
Import Text Leaderboard Backend Frames.

Lemma broadcast_frame (env : Env) (m : Event) (s : ProcessingState) (w : World) :
  exists s' w',
    broadcast env m s w = (Ret tt, s', w')
    /\ same_session s s' /\ should_stop s' = should_stop s
    /\ detector s' = detector s
    /\ same_disk w w'.
Proof.
  rewrite broadcast_spec. eexists _, _. split; [reflexivity|].
  repeat split; reflexivity.
Qed.

Lemma await_spec (env : Env) (i : nat) (p : AwaitPoint)
    (s : ProcessingState) (w : World) :
  exists s' w',
    await env i p s w = (Ret tt, s', w')
    /\ same_session s s' /\ same_disk w w'
    /\ (if stop_served env i p && is_processing s
        then should_stop s' = true
        else s' = s /\ w' = w).
Proof.
  unfold await, stop_served.
  destruct (stop_at env) as [[j q]|]; simpl.
  - destruct (Nat.eqb i j && await_point_eqb p q) eqn:E; simpl.
    + unfold stop_processing_begin. munfold.
      destruct (is_processing s) eqn:Hp.
      * simpl. destruct (detector s) as [[]|];
          (eexists _, _; split; [reflexivity|]); repeat split; reflexivity.
      * eexists _, _. split; [reflexivity|].
        repeat split; reflexivity.
    + exists s, w. munfold. repeat split; reflexivity.
  - exists s, w. munfold. repeat split; reflexivity.
Qed.

Lemma search_rockauto_spec (env : Env) (p : Part) (s : ProcessingState) (w : World) :
  exists found s',
    search_rockauto env p s w = (Ret found, s', w)
    /\ same_session s s' /\ should_stop s' = should_stop s
    /\ (state_importable env = true -> should_stop s = true -> found = None).
Proof.
  unfold search_rockauto. munfold.
  destruct (state_importable env && should_stop s) eqn:E.
  - exists None, s. repeat split; reflexivity.
  - destruct (detector s) as [[]|];
      eexists _, _; (split; [reflexivity|]);
      (repeat split; try reflexivity);
      intros Hi Hs; rewrite Hi, Hs in E; discriminate E.
Qed.

Lemma save_session_spec (env : Env) (s : ProcessingState) (w : World) :
  exists r s' w',
    save_session env s w = (r, s', w')
    /\ same_session s s' /\ should_stop s' = should_stop s
    /\ detector s' = detector s
    /\ history_files w' = history_files w
    /\ match current_session_id s with
       | None => r = Ret None /\ w' = w
       | Some id =>
           writes w' = S (writes w)
           /\ if disk_ok env (writes w)
              then r = Ret (Some (session_path id))
                   /\ sessions w' = <[id := session_data_of id s]> (sessions w)
              else r = Exn write_error /\ sessions w' = sessions w /\ s' = s
       end.
Proof.
  unfold save_session. munfold.
  destruct (current_session_id s) as [id|] eqn:Hid.
  - destruct (disk_ok env (writes w)) eqn:Hd.
    + eexists _, _, _. split; [reflexivity|]. repeat split; reflexivity.
    + eexists _, _, _. split; [reflexivity|]. repeat split; reflexivity.
  - exists (Ret None), s, w. repeat split; reflexivity.
Qed.

Lemma same_run_refl (s : ProcessingState) : same_run s s.
Proof. constructor; reflexivity. Qed.

Lemma same_run_trans (s1 s2 s3 : ProcessingState) :
  same_run s1 s2 -> same_run s2 s3 -> same_run s1 s3.
Proof.
  intros [A1 A2 A3 A4 A5 A6 A7 A8] [B1 B2 B3 B4 B5 B6 B7 B8].
  constructor; etransitivity; eassumption.
Qed.

Lemma same_session_run (s s' : ProcessingState) : same_session s s' -> same_run s s'.
Proof. intros []. constructor; assumption. Qed.

Lemma part_result_of_part (p : Part) (found : option (list string)) :
  part (part_result_of p found) = p.
Proof. destruct found as [[|m ms]|]; reflexivity. Qed.

Lemma loop_body_spec (env : Env) (start_idx : Z) (i : nat) (p : Part)
    (results0 : list Result) (s : ProcessingState) (w : World) :
  exists r x s' w',
    loop_body env start_idx i p results0 s w = (r, s', w')
    /\ part x = p
    /\ results s' = results0 ++ [x]
    /\ processed_count s' = next_count i (processed_count s)
    /\ make_leaderboard s' =
         update_leaderboard (make_leaderboard s) (makes x) (qty p)
    /\ same_run s s'
    /\ history_files w' = history_files w
    /\ (if is_checkpoint i
        then match current_session_id s with
             | None =>
                 r = Ret (results0 ++ [x])
                 /\ writes w' = writes w /\ sessions w' = sessions w
             | Some id =>
                 writes w' = S (writes w)
                 /\ if disk_ok env (writes w)
                    then r = Ret (results0 ++ [x])
                    else r = Exn write_error /\ sessions w' = sessions w
             end
        else r = Ret (results0 ++ [x])
             /\ writes w' = writes w /\ sessions w' = sessions w)
    /\ (if stop_served env i AtProgress && is_processing s
        then should_stop s' = true
             /\ (state_importable env = true -> x = not_found_result p)
        else if stop_served env i AtResult && is_processing s
             then forall l, r = Ret l -> should_stop s' = true
             else should_stop s' = should_stop s).
Proof.
  unfold loop_body. munfold.
  destruct (broadcast_frame env
              (Progress (start_idx + Z.of_nat i) (total_parts s)
                 (processed_count s + Z.of_nat i + 1)
                 (length (List.filter is_found results0))
                 (get_top_makes (make_leaderboard s) 10)
                 (part_number p) (description p)) s w)
    as (s1 & w1 & E1 & F1 & St1 & _ & D1).
  rewrite E1.
  destruct (await_spec env i AtProgress s1 w1) as (s2 & w2 & E2 & F2 & D2 & St2).
  rewrite E2.
  destruct (search_rockauto_spec env p s2 w2) as (found & s3 & E3 & F3 & St3 & Hnf).
  rewrite E3. cbv beta iota zeta. clear E1 E2 E3.
  set (x := part_result_of p found).
  set (s4 := set_make_leaderboard _ _).
  assert (same_run s s4) as R4.
  { apply same_run_trans with s3.
    - apply same_session_run.
      eapply same_session_trans; [|exact F3].
      eapply same_session_trans; [exact F1 | exact F2].
    - subst s4. constructor; reflexivity. }
  assert (should_stop s4 = should_stop s3) as St4 by reflexivity.
  assert (results s4 = results0 ++ [x]) as Hr4 by reflexivity.
  assert (processed_count s4 = next_count i (processed_count s)) as Hc4.
  { subst s4. simpl. unfold next_count.
    assert (processed_count s3 = processed_count s) as ->
      by (destruct F1, F2, F3; congruence).
    reflexivity. }
  assert (make_leaderboard s4 =
          update_leaderboard (make_leaderboard s) (makes x) (qty p)) as Hl4.
  { destruct F1, F2, F3. subst s4 x. simpl.
    rewrite part_result_of_part. congruence. }
  assert (is_processing s1 = is_processing s) as Hp1 by (destruct F1; assumption).
  assert (part x = p) as Hx by apply part_result_of_part.
  assert (stop_served env i AtProgress && is_processing s = true ->
          should_stop s4 = true
          /\ (state_importable env = true -> x = not_found_result p)) as Hstop.
  { intros Hs. rewrite Hp1, Hs in St2. split; [congruence|].
    intros Hi. subst x. rewrite (Hnf Hi St2). reflexivity. }
  assert (stop_served env i AtProgress && is_processing s = false ->
          should_stop s4 = should_stop s) as Hnostop.
  { intros Hs. rewrite Hp1, Hs in St2. destruct St2 as [-> _]. congruence. }
  clearbody s4 x. clear St2 Hnf St1 St3 F1 F2 F3 St4.
  change ((Z.of_nat i + 1) mod 10 =? 0) with (is_checkpoint i).
  assert (forall s5 w5,
            same_session s4 s5 -> should_stop s5 = should_stop s4 ->
            history_files w5 = history_files w ->
            exists s' w',
              (let (p1, w'1) :=
                 broadcast env
                   (ResultEv (start_idx + Z.of_nat i) x
                      (get_top_makes (make_leaderboard s5) 10)) s5 w5 in
               let (r1, s'1) := p1 in
               match r1 with
               | Ret _ =>
                   let (p2, w'2) := await env i AtResult s'1 w'1 in
                   let (r2, s'2) := p2 in
                   match r2 with
                   | Ret _ => (Ret (results0 ++ [x]), s'2, w'2)
                   | Exn e => (Exn e, s'2, w'2)
                   end
               | Exn e => (Exn e, s'1, w'1)
               end) = (Ret (results0 ++ [x]), s', w')
              /\ results s' = results0 ++ [x]
              /\ processed_count s' = next_count i (processed_count s)
              /\ make_leaderboard s' =
                   update_leaderboard (make_leaderboard s) (makes x) (qty p)
              /\ same_run s s'
              /\ history_files w' = history_files w
              /\ writes w' = writes w5 /\ sessions w' = sessions w5
              /\ (if stop_served env i AtProgress && is_processing s
                  then should_stop s' = true
                       /\ (state_importable env = true -> x = not_found_result p)
                  else if stop_served env i AtResult && is_processing s
                       then should_stop s' = true
                       else should_stop s' = should_stop s)) as Htail.
  { intros s5 w5 F5 St5 Hh5.
    destruct (broadcast_frame env
                (ResultEv (start_idx + Z.of_nat i) x
                   (get_top_makes (make_leaderboard s5) 10)) s5 w5)
      as (s6 & w6 & E6 & F6 & St6 & _ & D6).
    rewrite E6.
    destruct (await_spec env i AtResult s6 w6) as (s7 & w7 & E7 & F7 & D7 & St7).
    rewrite E7. exists s7, w7. split; [reflexivity|].
    assert (is_processing s6 = is_processing s) as Hp6
      by (destruct F5, F6, R4; congruence).
    rewrite Hp6 in St7.
    destruct F5, F6, F7, R4, D6, D7.
    repeat split; try congruence.
    destruct (stop_served env i AtProgress && is_processing s) eqn:Es.
    - destruct (Hstop eq_refl) as [Hs4 Hx4]. split; [|exact Hx4].
      destruct (stop_served env i AtResult && is_processing s);
        [exact St7 | destruct St7 as [-> _]; congruence].
    - destruct (stop_served env i AtResult && is_processing s);
        [exact St7 | destruct St7 as [-> _]; rewrite <- (Hnostop eq_refl); congruence]. }
  destruct (is_checkpoint i) eqn:Hck.
  - destruct (save_session_spec env s4 w2)
      as (r5 & s5 & w5 & E5 & F5 & St5 & _ & Hh5 & Hsave).
    rewrite E5.
    assert (current_session_id s4 = current_session_id s) as Hid
      by (destruct R4; assumption).
    rewrite Hid in Hsave.
    assert (history_files w5 = history_files w) as Hh by (destruct D1, D2; congruence).
    assert (writes w2 = writes w /\ sessions w2 = sessions w) as [Hw2 Hs2]
      by (destruct D1, D2; split; congruence).
    destruct (current_session_id s) as [id|] eqn:Hcs.
    + destruct Hsave as (Hw5 & Hsave). rewrite Hw2 in Hsave, Hw5.
      destruct (disk_ok env (writes w)) eqn:Hdisk.
      * destruct Hsave as (-> & Hs5).
        destruct (Htail s5 w5 F5 St5 Hh)
          as (s' & w' & E & Hres & Hcnt & Hlb & Hrun & Hhf & Hwr & Hse & Hst).
        exists (Ret (results0 ++ [x])), x, s', w'.
        split; [exact E|]. repeat apply conj; try assumption; try congruence.
        destruct (stop_served env i AtProgress && is_processing s);
          [exact Hst|].
        destruct (stop_served env i AtResult && is_processing s);
          [intros; exact Hst | exact Hst].
      * destruct Hsave as (-> & Hs5 & ->).
        exists (Exn write_error), x, s4, w5. split; [reflexivity|].
        repeat apply conj; try assumption; try congruence.
        destruct (stop_served env i AtProgress && is_processing s) eqn:Es;
          [exact (Hstop eq_refl)|].
        destruct (stop_served env i AtResult && is_processing s);
          [intros l Hl; discriminate Hl | exact (Hnostop eq_refl)].
    + destruct Hsave as (-> & ->).
      destruct (Htail s5 w2 F5 St5 ltac:(destruct D1, D2; congruence))
        as (s' & w' & E & Hres & Hcnt & Hlb & Hrun & Hhf & Hwr & Hse & Hst).
      exists (Ret (results0 ++ [x])), x, s', w'.
      split; [exact E|]. repeat apply conj; try assumption; try congruence.
      destruct (stop_served env i AtProgress && is_processing s);
        [exact Hst|].
      destruct (stop_served env i AtResult && is_processing s);
        [intros; exact Hst | exact Hst].
  - unfold ret.
    destruct (Htail s4 w2 (same_session_refl s4) eq_refl
                ltac:(destruct D1, D2; congruence))
      as (s' & w' & E & Hres & Hcnt & Hlb & Hrun & Hhf & Hwr & Hse & Hst).
    exists (Ret (results0 ++ [x])), x, s', w'.
    split; [exact E|].
    assert (writes w2 = writes w /\ sessions w2 = sessions w) as [Hw2 Hs2]
      by (destruct D1, D2; split; congruence).
    repeat apply conj; try assumption; try congruence.
    destruct (stop_served env i AtProgress && is_processing s);
      [exact Hst|].
    destruct (stop_served env i AtResult && is_processing s);
      [intros; exact Hst | exact Hst].
Qed.

End WorkerFacts.
Section StopFacts.
Import Text Leaderboard Backend Frames.

Lemma batch_loop_stopped (env : Env) (start_idx : Z) (parts : list Part) (i : nat)
    (results0 : list Result) (s : ProcessingState) (w : World) :
  should_stop s = true ->
  batch_loop env start_idx i parts results0 s w = (Ret results0, s, w).
Proof.
  intros H. destruct parts; simpl; munfold; [|rewrite H]; reflexivity.
Qed.

Lemma batch_loop_step (env : Env) (start_idx : Z) (p : Part) (rest : list Part)
    (i : nat) (results0 : list Result) (s : ProcessingState) (w : World) :
  should_stop s = false ->
  batch_loop env start_idx i (p :: rest) results0 s w =
  match loop_body env start_idx i p results0 s w with
  | (Ret results', s', w') => batch_loop env start_idx (S i) rest results' s' w'
  | (Exn e, s', w') => (Exn e, s', w')
  end.
Proof.
  intros H. simpl. munfold. rewrite H.
  destruct (loop_body env start_idx i p results0 s w) as [[[l|e] s'] w'];
    reflexivity.
Qed.

Lemma stop_served_other (env : Env) (i j : nat) (ph q : AwaitPoint) :
  stop_at env = Some (j, ph) -> i <> j -> stop_served env i q = false.
Proof.
  intros H Hij. unfold stop_served. rewrite H.
  destruct (Nat.eqb_spec i j); [contradiction | reflexivity].
Qed.

Lemma stop_served_here (env : Env) (j : nat) (ph q : AwaitPoint) :
  stop_at env = Some (j, ph) -> stop_served env j q = await_point_eqb q ph.
Proof.
  intros H. unfold stop_served. rewrite H, Nat.eqb_refl. reflexivity.
Qed.

(** The outcome of one pass, read off [loop_body_spec]. *)
Lemma loop_body_outcome (env : Env) (start_idx : Z) (i : nat) (p : Part)
    (results0 : list Result) (s : ProcessingState) (w : World) :
  exists r x s' w',
    loop_body env start_idx i p results0 s w = (r, s', w')
    /\ part x = p
    /\ results s' = results0 ++ [x]
    /\ same_run s s'
    /\ (r = Ret (results0 ++ [x]) \/ r = Exn write_error)
    /\ ((forall n, disk_ok env n = true) -> r = Ret (results0 ++ [x]))
    /\ (if stop_served env i AtProgress && is_processing s
        then should_stop s' = true
             /\ (state_importable env = true -> x = not_found_result p)
        else if stop_served env i AtResult && is_processing s
             then forall l, r = Ret l -> should_stop s' = true
             else should_stop s' = should_stop s).
Proof.
  destruct (loop_body_spec env start_idx i p results0 s w)
    as (r & x & s' & w' & E & Hx & Hres & _ & _ & Hrun & _ & Hck & Hst).
  exists r, x, s', w'. repeat apply conj; try assumption.
  - destruct (is_checkpoint i); [|left; apply Hck].
    destruct (current_session_id s); [|left; apply Hck].
    destruct Hck as [_ Hck].
    destruct (disk_ok env (writes w)); [left; exact Hck | right; apply Hck].
  - intros Hdisk. destruct (is_checkpoint i); [|apply Hck].
    destruct (current_session_id s); [|apply Hck].
    destruct Hck as [_ Hck]. rewrite Hdisk in Hck. exact Hck.
Qed.

Lemma nth_error_snoc {A : Type} (l : list A) (x : A) :
  nth_error (l ++ [x]) (length l) = Some x.
Proof. induction l; simpl; auto. Qed.

(** The loop, entered before the record at which Stop is served. *)
Lemma batch_loop_until_stop (env : Env) (start_idx : Z) (j : nat) (ph : AwaitPoint) :
  stop_at env = Some (j, ph) ->
  forall (parts : list Part) (i : nat) (results0 : list Result)
         (s : ProcessingState) (w : World),
    is_processing s = true -> should_stop s = false ->
    (i <= j)%nat -> length results0 = i ->
    exists r s' w',
      batch_loop env start_idx i parts results0 s w = (r, s', w')
      /\ same_run s s'
      /\ (forall l, r = Ret l ->
            length l = Nat.min (i + length parts) (S j)
            /\ ((j < i + length parts)%nat ->
                should_stop s' = true
                /\ results s' = l
                /\ (ph = AtProgress -> state_importable env = true ->
                    exists p, nth_error parts (j - i) = Some p
                              /\ nth_error l j = Some (not_found_result p))))
      /\ (forall e, r = Exn e ->
            e = write_error /\ (0 < length (results s') <= S j)%nat)
      /\ ((forall n, disk_ok env n = true) -> exists l, r = Ret l).
Proof.
  intros Hstop parts.
  induction parts as [|p rest IH]; intros i results0 s w Hproc Hnostop Hij Hlen.
  - exists (Ret results0), s, w. split; [reflexivity|].
    split; [apply same_run_refl|]. repeat apply conj.
    + intros l [= <-]. simpl length. split; [lia|]. lia.
    + intros e [=].
    + eauto.
  - rewrite (batch_loop_step _ _ _ _ _ _ _ _ Hnostop).
    destruct (loop_body_outcome env start_idx i p results0 s w)
      as (r1 & x & s1 & w1 & E & Hx & Hres & Hrun & Hr1 & Hdisk & Hst).
    rewrite E. rewrite Hproc, !andb_true_r in Hst.
    assert (is_processing s1 = true) as Hproc1 by (destruct Hrun; congruence).
    destruct Hr1 as [-> | ->].
    2:{ exists (Exn write_error), s1, w1. split; [reflexivity|].
        split; [exact Hrun|]. repeat apply conj.
        - intros l [=].
        - intros e [= <-]. split; [reflexivity|].
          rewrite Hres, length_app. simpl. lia.
        - intros Hd. specialize (Hdisk Hd). discriminate Hdisk. }
    destruct (Nat.eq_dec i j) as [-> | Hne].
    + (* Stop is served within this record *)
      rewrite !(stop_served_here _ _ _ _ Hstop) in Hst.
      assert (should_stop s1 = true
              /\ (ph = AtProgress -> state_importable env = true ->
                  x = not_found_result p)) as [Hs1 Hnf].
      { destruct ph; simpl in Hst.
        - destruct Hst as [H1 H2]. split; [exact H1 | intros _; exact H2].
        - split; [eapply Hst; reflexivity | intros [=]]. }
      rewrite (batch_loop_stopped _ _ _ _ _ _ _ Hs1).
      exists (Ret (results0 ++ [x])), s1, w1. split; [reflexivity|].
      split; [exact Hrun|]. repeat apply conj.
      * intros l [= <-]. rewrite length_app. simpl. split; [lia|].
        intros _. repeat apply conj; try assumption.
        intros Hph Himp. exists p. rewrite Nat.sub_diag. split; [reflexivity|].
        rewrite <- Hlen, nth_error_snoc, (Hnf Hph Himp). reflexivity.
      * intros e [=].
      * eauto.
    + (* no Stop within this record *)
      rewrite !(stop_served_other _ _ _ _ _ Hstop Hne) in Hst. simpl in Hst.
      destruct (IH (S i) (results0 ++ [x]) s1 w1 Hproc1
                  ltac:(congruence) ltac:(lia)
                  ltac:(rewrite length_app; simpl; lia))
        as (r & s' & w' & E' & Hp' & HRet & HExn & Hd').
      exists r, s', w'. split; [exact E'|].
      split; [exact (same_run_trans _ _ _ Hrun Hp')|].
      repeat apply conj.
      * intros l Hl. destruct (HRet l Hl) as [Hlen' Hrest]. simpl length.
        split; [lia|]. intros Hj.
        destruct (Hrest ltac:(lia)) as (Hs' & Hr' & Hnf').
        repeat apply conj; try assumption.
        intros Hph Himp. destruct (Hnf' Hph Himp) as (q & Hq & Hq').
        exists q. split; [|exact Hq'].
        replace (j - i)%nat with (S (j - S i)) by lia. exact Hq.
      * exact HExn.
      * exact Hd'.
Qed.

Lemma slice_to_all {A : Type} (l : list A) :
  slice_to (Z.of_nat (length l)) l = l.
Proof.
  unfold slice_to. destruct (Z.leb_spec 0 (Z.of_nat (length l))); [|lia].
  rewrite Nat2Z.id. apply firstn_all.
Qed.

Lemma close_browser_spec (s : ProcessingState) (w : World) :
  exists s', _close_browser s w = (Ret tt, s', w)
             /\ same_session s s' /\ should_stop s' = should_stop s.
Proof.
  unfold _close_browser. munfold.
  destruct (detector s) as [[]|]; eexists; (split; [reflexivity|]);
    split; try reflexivity; constructor; reflexivity.
Qed.

(** C4 (as amended).  Let a Stop request be served while the worker is
    suspended within record [j] of its batch: before the lookup
    ([AtProgress], [j] records done) or after the record is stored
    ([AtResult], [j + 1] records done).  Then the worker ends with at most
    [j + 1] results, so at most one record is worked on after the Stop,
    and it leaves the running state.  When no file write fails it ends
    with exactly [j + 1] results and no error; and when the Stop came
    before the lookup and [search_rockauto] can read the flag, the flag is
    seen inside the record: the lookup is skipped and the record is stored
    as NOT_FOUND.  The Stop request itself closes a live browser session at
    once. *)
Theorem C4_stop_ends_the_run_within_one_record
    (env : Env) (parts : list Part) (start_idx : Z)
    (s : ProcessingState) (w : World) (j : nat) (ph : AwaitPoint) :
  stop_at env = Some (j, ph) -> (j < length parts)%nat ->
  is_processing s = true -> should_stop s = false -> detector s <> None ->
  let s' := state_of (process_parts_background env parts start_idx s w) in
  (length (results s') <= S j)%nat
  /\ is_processing s' = false
  /\ ((forall n, disk_ok env n = true) ->
      length (results s') = S j
      /\ should_stop s' = true
      /\ error_message s' = error_message s
      /\ (ph = AtProgress -> state_importable env = true ->
          exists p, nth_error parts j = Some p
                    /\ nth_error (results s') j = Some (not_found_result p)))
  /\ (forall (s0 : ProcessingState) (w0 : World),
        is_processing s0 = true -> detector s0 = Some Live ->
        let s1 := state_of (stop_processing_begin s0 w0) in
        should_stop s1 = true /\ detector s1 = Some Quit).
Proof.
  intros Hstop Hj Hproc Hnostop Hdet. cbn zeta.
  assert (forall (s0 : ProcessingState) (w0 : World),
            is_processing s0 = true -> detector s0 = Some Live ->
            should_stop (state_of (stop_processing_begin s0 w0)) = true
            /\ detector (state_of (stop_processing_begin s0 w0)) = Some Quit)
    as Hquit.
  { intros s0 w0 H0 H1. unfold stop_processing_begin. munfold.
    rewrite H0. simpl. rewrite H1. split; reflexivity. }
  unfold process_parts_background, try_except. munfold.
  destruct (detector s) as [d|] eqn:Hd; [|contradiction].
  unfold process_parts_batch_async. munfold. rewrite slice_to_all.
  destruct (batch_loop_until_stop env start_idx j ph Hstop parts 0 [] s w
              Hproc Hnostop ltac:(lia) eq_refl)
    as (r & s1 & w1 & E & Hp1 & HRet & HExn & Hdisk).
  rewrite E. destruct r as [l|e].
  - destruct (HRet l eq_refl) as [Hlen Hrest].
    destruct (Hrest ltac:(simpl; lia)) as (Hs1 & Hr1 & Hnf).
    destruct (close_browser_spec s1 w1) as (s2 & E2 & F2 & St2).
    rewrite E2. rewrite St2, Hs1. simpl.
    unfold state_of. simpl.
    assert (length l = S j) as Hl by (simpl in Hlen; lia).
    repeat apply conj; try assumption.
    + lia.
    + reflexivity.
    + intros _. repeat apply conj; try assumption.
      * congruence.
      * destruct F2, Hp1. congruence.
      * intros Hph Himp. destruct (Hnf Hph Himp) as (p & Hq & Hq').
        exists p. rewrite Nat.sub_0_r in Hq. split; assumption.
  - destruct (HExn e eq_refl) as [-> Hlen].
    rewrite broadcast_spec. unfold state_of. simpl.
    repeat apply conj; try assumption.
    + lia.
    + reflexivity.
    + intros Hd'. destruct (Hdisk Hd') as [l [=]].
Qed.

End StopFacts.
Section CheckpointFacts.
Import Text Leaderboard Backend Frames.

Lemma is_checkpoint_true (i : nat) :
  is_checkpoint i = true -> exists c : nat, (i + 1 = 10 * c)%nat.
Proof.
  unfold is_checkpoint. intros H. apply Z.eqb_eq in H.
  apply Z.mod_divide in H; [|lia]. destruct H as [c Hc].
  exists (Z.to_nat c). lia.
Qed.

Lemma is_checkpoint_false (i q : nat) :
  is_checkpoint i = false -> (i + 1 <> 10 * q)%nat.
Proof.
  unfold is_checkpoint. intros H Hq. apply Z.eqb_neq in H. apply H.
  replace (Z.of_nat i + 1) with (Z.of_nat q * 10) by lia.
  apply Z.mod_mul. lia.
Qed.

(** The loop of a run that nobody stops, in which the first [k]
    checkpoint writes succeed and the next one fails. *)
Lemma batch_loop_failing_checkpoint (env : Env) (start_idx : Z)
    (id : string) (c0 k : nat) :
  stop_at env = None ->
  (forall n, (n < k)%nat -> disk_ok env (c0 + n) = true) ->
  disk_ok env (c0 + k) = false ->
  forall (parts : list Part) (i : nat) (results0 : list Result)
         (s : ProcessingState) (w : World) (q : nat),
    should_stop s = false -> current_session_id s = Some id ->
    length results0 = i ->
    writes w = (c0 + q)%nat -> (10 * q <= i <= 10 * q + 9)%nat ->
    (i <= 10 * k + 9)%nat -> (10 * k + 9 < i + length parts)%nat ->
    exists s' w',
      batch_loop env start_idx i parts results0 s w = (Exn write_error, s', w')
      /\ length (results s') = (10 * (k + 1))%nat
      /\ same_run s s'.
Proof.
  intros Hstop Hok Hfail parts.
  induction parts as [|p rest IH];
    intros i results0 s w q Hnostop Hid Hlen Hw Hq Hi Hparts.
  - simpl in Hparts. lia.
  - rewrite (batch_loop_step _ _ _ _ _ _ _ _ Hnostop).
    destruct (loop_body_spec env start_idx i p results0 s w)
      as (r & x & s1 & w1 & E & Hx & Hres & _ & _ & Hrun & _ & Hck & Hst).
    rewrite E.
    assert (should_stop s1 = false) as Hnostop1.
    { unfold stop_served in Hst. rewrite Hstop in Hst. simpl in Hst. congruence. }
    assert (current_session_id s1 = Some id) as Hid1
      by (destruct Hrun; congruence).
    assert (length (results0 ++ [x]) = S i) as Hlen1
      by (rewrite length_app; simpl; lia).
    rewrite Hid in Hck.
    destruct (is_checkpoint i) eqn:Hc.
    + destruct (is_checkpoint_true i Hc) as [c Hic].
      destruct Hck as [Hw1 Hck]. rewrite Hw in Hck.
      destruct (Nat.eq_dec q k) as [-> | Hqk].
      * rewrite Hfail in Hck. destruct Hck as [-> _].
        exists s1, w1. split; [reflexivity|].
        split; [rewrite Hres, Hlen1; lia | exact Hrun].
      * rewrite Hok in Hck by lia. subst r.
        destruct (IH (S i) (results0 ++ [x]) s1 w1 (S q) Hnostop1 Hid1 Hlen1
                    ltac:(lia) ltac:(lia) ltac:(lia) ltac:(simpl in Hparts; lia))
          as (s' & w' & E' & Hl' & Hr').
        exists s', w'. split; [exact E'|].
        split; [exact Hl' | exact (same_run_trans _ _ _ Hrun Hr')].
    + pose proof (is_checkpoint_false i (S q) Hc) as Hne.
      pose proof (is_checkpoint_false i (S k) Hc) as Hnk.
      destruct Hck as (-> & Hw1 & _).
      destruct (IH (S i) (results0 ++ [x]) s1 w1 q Hnostop1 Hid1 Hlen1
                  ltac:(lia) ltac:(lia) ltac:(lia) ltac:(simpl in Hparts; lia))
        as (s' & w' & E' & Hl' & Hr').
      exists s', w'. split; [exact E'|].
      split; [exact Hl' | exact (same_run_trans _ _ _ Hrun Hr')].
Qed.

(** C5 (as amended).  In a run that nobody stops, let the first [k]
    checkpoint writes succeed and the next one fail.  The failure leaves
    [save_session] and the worker loop as an exception: the handler of
    [process_parts_background] stores the message in [error_message],
    ends the running state and broadcasts an [error] message, and the
    task itself returns.  The result log holds the [10 * (k + 1)] records
    worked on so far; the records after them are not processed. *)
Theorem C5_failed_checkpoint_write_fails_the_session
    (env : Env) (parts : list Part) (start_idx : Z)
    (s : ProcessingState) (w : World) (id : string) (k : nat) :
  stop_at env = None -> should_stop s = false -> detector s <> None ->
  current_session_id s = Some id ->
  (forall n, (n < k)%nat -> disk_ok env (writes w + n) = true) ->
  disk_ok env (writes w + k) = false ->
  (10 * (k + 1) <= length parts)%nat ->
  let out := process_parts_background env parts start_idx s w in
  answer_of out = Ret tt
  /\ failed_with write_error (state_of out)
  /\ length (results (state_of out)) = (10 * (k + 1))%nat
  /\ exists s1 w1,
       length (results s1) = (10 * (k + 1))%nat
       /\ out = broadcast env (ErrorEv ("Processing failed: " +:+ write_error))
                  (set_is_processing false
                     (set_error_message (Some write_error) s1)) w1.
Proof.
  intros Hstop Hnostop Hdet Hid Hok Hfail Hlen. cbn zeta.
  unfold process_parts_background, try_except. munfold.
  destruct (detector s) as [d|] eqn:Hd; [|contradiction].
  unfold process_parts_batch_async. munfold. rewrite slice_to_all.
  destruct (batch_loop_failing_checkpoint env start_idx id (writes w) k
              Hstop Hok Hfail parts 0 [] s w 0
              Hnostop Hid eq_refl ltac:(lia) ltac:(lia) ltac:(lia)
              ltac:(simpl; lia))
    as (s1 & w1 & E & Hl & Hrun).
  rewrite E. rewrite broadcast_spec. unfold answer_of, state_of, failed_with.
  simpl. repeat apply conj; try reflexivity; try assumption.
  exists s1, w1. split; [exact Hl|]. rewrite broadcast_spec. reflexivity.
Qed.

End CheckpointFacts.
Section ControlFacts.
Import Text Leaderboard Backend Frames.

(** A request that is turned down has changed nothing, whatever the state
    and the request. *)
Lemma start_processing_rejection (env : Env) (request : ProcessingRequest)
    (s : ProcessingState) (w : World) :
  exists r, answer_of (start_processing env request s w) = Ret r
    /\ (accepted r = false ->
        state_of (start_processing env request s w) = s
        /\ world_of (start_processing env request s w) = w
        /\ exists detail, r = HTTPException 400 detail).
Proof.
  unfold start_processing. munfold.
  destruct (is_processing s); [eexists; split; [reflexivity|]; eauto|].
  destruct (parts_data s) as [data|]; [|eexists; split; [reflexivity|]; eauto].
  destruct (_ || _); [eexists; split; [reflexivity|]; eauto|].
  destruct (Z.leb _ _); [eexists; split; [reflexivity|]; eauto|].
  destruct (Z.gtb _ _); [eexists; split; [reflexivity|]; eauto|].
  eexists. split; [reflexivity|]. intros [=].
Qed.

Lemma slice_length {A : Type} (a b : Z) (l : list A) :
  0 <= a <= b -> b <= Z.of_nat (length l) ->
  length (slice a b l) = Z.to_nat (b - a).
Proof.
  intros Hab Hb. unfold slice, clamp_index.
  destruct (Z.ltb_spec a 0); [lia|]. destruct (Z.ltb_spec b 0); [lia|].
  rewrite length_firstn, length_skipn. lia.
Qed.

(** C6.  With no run in progress and data loaded, [Start(a, b)] is
    accepted exactly when [0 <= a < b <= total], the number of automotive
    records.  A request that is turned down is answered at once with an
    HTTP 400 error: no task is created and neither the session state nor
    anything else has changed.  An accepted request records the range,
    starts from a count of zero and an empty result log, and hands the
    worker the [b - a] records of the range. *)
Theorem C6_start_accepts_exactly_the_valid_ranges
    (env : Env) (s : ProcessingState) (w : World) (data : PartsData) (a b : Z) :
  is_processing s = false -> parts_data s = Some data ->
  let total := Z.of_nat (length (automotive data)) in
  let out := start_processing env (Start a b) s w in
  exists r,
    answer_of out = Ret r
    /\ (accepted r = true <-> 0 <= a < b /\ b <= total)
    /\ (accepted r = false ->
        state_of out = s /\ world_of out = w
        /\ exists detail, r = HTTPException 400 detail)
    /\ (accepted r = true ->
        r = ProcessingStarted (new_session_id env) a b (slice a b (automotive data))
        /\ length (slice a b (automotive data)) = Z.to_nat (b - a)
        /\ is_processing (state_of out) = true
        /\ start_index (state_of out) = a
        /\ end_index (state_of out) = b
        /\ processed_count (state_of out) = 0
        /\ results (state_of out) = []
        /\ should_stop (state_of out) = false
        /\ world_of out = w).
Proof.
  intros Hidle Hdata. cbn zeta.
  destruct (start_processing_rejection env (Start a b) s w) as (r & Hr & Hrej).
  exists r. split; [exact Hr|]. split; [|split; [exact Hrej|]].
  - revert Hr. unfold start_processing, answer_of. munfold.
    rewrite Hidle, Hdata. simpl.
    destruct (Z.ltb_spec a 0); simpl;
      [intros [= <-]; simpl; split; [discriminate | lia]|].
    destruct (Z.geb_spec a (Z.of_nat (length (automotive data)))); simpl;
      [intros [= <-]; simpl; split; [discriminate | lia]|].
    destruct (Z.leb_spec b a); simpl;
      [intros [= <-]; simpl; split; [discriminate | lia]|].
    destruct (Z.gtb_spec b (Z.of_nat (length (automotive data)))); simpl;
      [intros [= <-]; simpl; split; [discriminate | lia]|].
    intros [= <-]. simpl. split; [lia | reflexivity].
  - revert Hr. unfold start_processing, answer_of, state_of, world_of. munfold.
    rewrite Hidle, Hdata. simpl.
    destruct (Z.ltb_spec a 0); simpl; [intros [= <-] [=]|].
    destruct (Z.geb_spec a (Z.of_nat (length (automotive data)))); simpl;
      [intros [= <-] [=]|].
    destruct (Z.leb_spec b a); simpl; [intros [= <-] [=]|].
    destruct (Z.gtb_spec b (Z.of_nat (length (automotive data)))); simpl;
      [intros [= <-] [=]|].
    intros [= <-] _. repeat apply conj; try reflexivity.
    apply slice_length; lia.
Qed.

End ControlFacts.
Section ResumeFacts.
Import Text Regex Extraction Leaderboard Backend Frames Scenario.

(** The worker's count and its log over one run of the loop, entered with
    an empty local list: the count grows by one per record from whatever
    it was, and the log holds the records of this run only. *)
Lemma batch_loop_counts (env : Env) (start_idx : Z) :
  forall (parts : list Part) (i : nat) (results0 : list Result)
         (s : ProcessingState) (w : World),
    0 <= processed_count s -> (processed_count s = 0 -> i = 0%nat) ->
    exists r s' w' (n : nat),
      batch_loop env start_idx i parts results0 s w = (r, s', w')
      /\ (n <= length parts)%nat
      /\ processed_count s' = processed_count s + Z.of_nat n
      /\ ((0 < n)%nat -> length (results s') = (length results0 + n)%nat)
      /\ (n = 0%nat -> results s' = results s)
      /\ (forall l, r = Ret l -> length l = (length results0 + n)%nat).
Proof.
  induction parts as [|p rest IH]; intros i results0 s w Hge Hzero.
  - exists (Ret results0), s, w, 0%nat. split; [reflexivity|].
    repeat apply conj; try lia; try reflexivity.
    intros l [= <-]. lia.
  - destruct (should_stop s) eqn:Hs.
    + rewrite (batch_loop_stopped _ _ _ _ _ _ _ Hs).
      exists (Ret results0), s, w, 0%nat. split; [reflexivity|].
      repeat apply conj; try lia; try reflexivity.
      intros l [= <-]. lia.
    + rewrite (batch_loop_step _ _ _ _ _ _ _ _ Hs).
      destruct (loop_body_spec env start_idx i p results0 s w)
        as (r1 & x & s1 & w1 & E & _ & Hres & Hcnt & _ & _ & _ & Hck & _).
      rewrite E.
      assert (processed_count s1 = processed_count s + 1) as Hc1.
      { rewrite Hcnt. unfold next_count.
        destruct (Z.eqb_spec (processed_count s) 0) as [H0|]; [|reflexivity].
        rewrite H0, (Hzero H0). reflexivity. }
      assert (r1 = Ret (results0 ++ [x]) \/ r1 = Exn write_error) as [-> | ->].
      { destruct (is_checkpoint i); [|left; apply Hck].
        destruct (current_session_id s); [|left; apply Hck].
        destruct Hck as [_ Hck].
        destruct (disk_ok env (writes w)); [left; exact Hck | right; apply Hck]. }
      * destruct (IH (S i) (results0 ++ [x]) s1 w1 ltac:(lia) ltac:(lia))
          as (r & s' & w' & n & E' & Hn & Hc' & Hpos & Hz & HRet).
        exists r, s', w', (S n). split; [exact E'|].
        rewrite length_app in Hpos, HRet. simpl in Hpos, HRet.
        repeat apply conj.
        -- simpl. lia.
        -- lia.
        -- intros _. destruct n as [|n].
           ++ rewrite (Hz eq_refl), Hres, length_app. simpl. lia.
           ++ rewrite Hpos by lia. lia.
        -- intros [=].
        -- intros l Hl. rewrite (HRet l Hl). lia.
      * exists (Exn write_error), s1, w1, 1%nat. split; [reflexivity|].
        repeat apply conj.
        -- simpl. lia.
        -- lia.
        -- intros _. rewrite Hres, length_app. reflexivity.
        -- intros [=].
        -- intros l [=].
Qed.

(** A run entered with a count of zero and an empty log, as [Start]
    leaves them: the log is as long as the count says. *)
Lemma fresh_run_log_matches_count (env : Env) (start_idx : Z)
    (parts : list Part) (s : ProcessingState) (w : World) :
  processed_count s = 0 -> results s = [] ->
  let s' := snd (fst (batch_loop env start_idx 0 parts [] s w)) in
  Z.of_nat (length (results s')) = processed_count s'.
Proof.
  intros Hc Hr. cbn zeta.
  destruct (batch_loop_counts env start_idx parts 0 [] s w
              ltac:(lia) ltac:(reflexivity))
    as (r & s' & w' & n & E & _ & Hc' & Hpos & Hz & _).
  rewrite E. simpl. rewrite Hc'. destruct n as [|n].
  - rewrite (Hz eq_refl), Hr, Hc. reflexivity.
  - rewrite Hpos by lia. simpl length. lia.
Qed.

(** A run entered with the count [k > 0] of a loaded checkpoint: once a
    record is stored the log is [k] entries shorter than the count. *)
Lemma resumed_run_log_is_short (env : Env) (start_idx : Z)
    (parts : list Part) (s : ProcessingState) (w : World) :
  0 < processed_count s ->
  let s' := snd (fst (batch_loop env start_idx 0 parts [] s w)) in
  processed_count s < processed_count s' ->
  Z.of_nat (length (results s')) = processed_count s' - processed_count s.
Proof.
  intros Hk. cbn zeta.
  destruct (batch_loop_counts env start_idx parts 0 [] s w
              ltac:(lia) ltac:(lia))
    as (r & s' & w' & n & E & _ & Hc' & Hpos & _ & _).
  rewrite E. simpl. intros Hlt. rewrite Hpos by lia. simpl length. lia.
Qed.

(** What [resume_session] answers and leaves when it accepts: the
    worker's batch starts at [start_index + processed_count] of the
    checkpoint, and count, log and leaderboard are those of the
    checkpoint. *)
Lemma resume_session_accepts (env : Env) (session_id : string)
    (s : ProcessingState) (w : World) (d : SessionData) (data : PartsData) :
  is_processing s = false ->
  sessions w !! session_id = Some d ->
  sd_parts_data d = Some data ->
  0 < sd_end_index d - sd_start_index d - sd_processed_count d ->
  let out := resume_session env session_id s w in
  let from := sd_start_index d + sd_processed_count d in
  answer_of out =
    Ret (SessionResumed (Some (sd_session_id d)) from
           (sd_end_index d - sd_start_index d - sd_processed_count d)
           (sd_processed_count d)
           (slice from (sd_end_index d) (automotive data)))
  /\ processed_count (state_of out) = sd_processed_count d
  /\ results (state_of out) = sd_results d
  /\ make_leaderboard (state_of out) = sd_make_leaderboard d
  /\ is_processing (state_of out) = true
  /\ should_stop (state_of out) = false.
Proof.
  intros Hidle Hd Hdata Hrem. cbn zeta.
  unfold resume_session, load_session, answer_of, state_of. munfold.
  rewrite Hidle, Hd. simpl. rewrite Hdata.
  destruct (Z.leb_spec (sd_end_index d - sd_start_index d - sd_processed_count d) 0);
    [lia|].
  simpl. repeat apply conj; reflexivity.
Qed.

(** C1.  Start(0,3) on three records, Stop served after the first record,
    then Resume.  The resumed worker starts at index 0 + 1 and the count
    goes on from 1 to 3, as the claim says; but the result log after the
    resume holds the records 1 and 2 only: the entry made before the Stop
    is gone, so the first entry of the log is not the one of the log
    before the Stop. *)
Theorem C1_resume_drops_the_results_made_before_the_stop :
  processed_count (state_of stopped_after_one) = 1
  /\ map (fun r => index (part r)) (results (state_of stopped_after_one)) = [0]
  /\ answer_of resumed_to_end
     = Ret (SessionResumed (Some "session-1") (0 + 1) 2 1
              [brake_pad 1; brake_pad 2])
  /\ processed_count (state_of resumed_to_end) = 3
  /\ map (fun r => index (part r)) (results (state_of resumed_to_end)) = [1; 2]
  /\ firstn 1 (results (state_of resumed_to_end))
     <> results (state_of stopped_after_one).
Proof.
  vm_compute. repeat split. intros H. discriminate H.
Qed.

(** C2.  In the same session the log and the count agree when the worker
    stops (one entry, count 1); after the resume has run to its end the
    count is 3 and the log has 2 entries, in memory and in the checkpoint
    written at the end. *)
Theorem C2_result_log_is_shorter_than_the_count_after_resume :
  Z.of_nat (length (results (state_of stopped_after_one)))
    = processed_count (state_of stopped_after_one)
  /\ processed_count (state_of resumed_to_end) = 3
  /\ length (results (state_of resumed_to_end)) = 2%nat
  /\ option_map (fun d => (sd_processed_count d, length (sd_results d)))
       (sessions (world_of resumed_to_end) !! "session-1")
     = Some (3, 2%nat).
Proof.
  vm_compute. repeat split.
Qed.

(** C4, the claim as stated, fails: Stop is served while record 1 of three
    is in flight; without the Stop that record finds Ford, with it the
    record is stored as NOT_FOUND. *)
Lemma C4_counterexample_in_flight_record :
  ~ in_flight_record_unaffected calm 3 1.
Proof.
  unfold in_flight_record_unaffected. vm_compute. intros H. discriminate H.
Qed.

(** C5, the claim as stated, fails: twelve records, the first checkpoint
    write fails; the session ends with an error message and ten results. *)
Lemma C5_counterexample_first_checkpoint :
  ~ run_survives_write_failure first_write_fails 12.
Proof.
  unfold run_survives_write_failure. vm_compute. intros [H _]. discriminate H.
Qed.

End ResumeFacts.

(** * The general statements at concrete sessions *)

Section Witnesses.
Import Text Leaderboard Backend Frames Scenario.

(** Stop served before the lookup of record 1 of three: at most two
    results. *)
Lemma C4_stop_ends_the_run_within_one_record_witness :
  (length (results (state_of
     (process_parts_background (with_stop calm 1 AtProgress)
        (automotive (catalog 3)) 0 (running calm 3) initial_world))) <= 2)%nat.
Proof.
  refine (proj1 (C4_stop_ends_the_run_within_one_record
                   (with_stop calm 1 AtProgress) (automotive (catalog 3)) 0
                   (running calm 3) initial_world 1 AtProgress
                   _ _ _ _ _)).
  - reflexivity.
  - simpl. lia.
  - reflexivity.
  - reflexivity.
  - discriminate.
Defined.

(** Twelve records, the first checkpoint write fails: the session has
    failed. *)
Lemma C5_failed_checkpoint_write_fails_the_session_witness :
  failed_with write_error
    (state_of (process_parts_background first_write_fails
                 (automotive (catalog 12)) 0
                 (running first_write_fails 12) initial_world)).
Proof.
  refine (proj1 (proj2 (C5_failed_checkpoint_write_fails_the_session
                   first_write_fails (automotive (catalog 12)) 0
                   (running first_write_fails 12) initial_world
                   "session-1" 0 _ _ _ _ _ _ _))).
  - reflexivity.
  - reflexivity.
  - discriminate.
  - reflexivity.
  - intros n Hn. lia.
  - reflexivity.
  - simpl. lia.
Defined.

(** Start(0,3) on three loaded records. *)
Lemma C6_start_accepts_exactly_the_valid_ranges_witness :
  exists r,
    answer_of (start_processing calm (Start 0 3) (loaded 3) initial_world) = Ret r
    /\ (accepted r = true <-> 0 <= 0 < 3 /\ 3 <= Z.of_nat (length (automotive (catalog 3)))).
Proof.
  destruct (C6_start_accepts_exactly_the_valid_ranges
              calm (loaded 3) initial_world (catalog 3) 0 3
              eq_refl eq_refl) as (r & Hr & Hacc & _).
  exists r. split; [exact Hr | exact Hacc].
Defined.

(** Three observers and three messages, the second send to observer 2
    fails: what it has received is a prefix of the messages. *)
Example flaky_observer_receives_a_prefix :
  exists k : nat,
    inbox 2%nat (snd (broadcast_all flaky three_messages initial_state three_observers))
    = inbox 2%nat three_observers ++ firstn k three_messages.
Proof.
  refine (proj2 (proj2 (broadcast_isolates_send_failures
                          flaky initial_state three_observers) _
                   three_messages 2%nat)).
  repeat constructor; simpl; intuition discriminate.
Qed.

End Witnesses.

(** * The catalog *)

Section CatalogFacts.
Import Text Leaderboard Backend Catalog Views.

Lemma prefix_append (a s : string) :
  String.prefix a s = true <-> exists q, s = a +:+ q.
Proof.
  revert s. induction a as [|c a IH]; intros s; simpl.
  - destruct s; split; intros; eauto.
  - destruct s as [|d s]; simpl.
    + split; [discriminate|]. intros [q H]. discriminate.
    + destruct (ascii_dec c d) as [->|Hne].
      * split.
        -- intros H. apply IH in H. destruct H as [q H]. exists q.
           rewrite H. reflexivity.
        -- intros [q H]. apply IH. exists q. injection H. trivial.
      * split; [discriminate|]. intros [q H]. injection H. intros _ E.
        congruence.
Qed.

Lemma contains_append (a s : string) :
  contains a s = true <-> exists p q, s = p +:+ a +:+ q.
Proof.
  induction s as [|d s IH].
  - cbn [contains]. rewrite orb_false_r. split.
    + intros H. apply prefix_append in H. destruct H as [q H].
      exists EmptyString, q. exact H.
    + intros [p [q H]]. apply prefix_append.
      destruct p; simpl in H; [eauto|discriminate].
  - cbn [contains]. rewrite orb_true_iff. split.
    + intros [H|H].
      * apply prefix_append in H. destruct H as [q H].
        exists EmptyString, q. exact H.
      * apply IH in H. destruct H as [p [q H]].
        exists (String d p), q. simpl. rewrite H. reflexivity.
    + intros [p [q H]]. destruct p as [|e p]; simpl in H.
      * left. apply prefix_append. eauto.
      * right. apply IH. injection H. intros E _. eauto.
Qed.

Lemma append_assoc (a b c : string) : (a +:+ b) +:+ c = a +:+ (b +:+ c).
Proof.
  induction a as [|x a IH]; [reflexivity|].
  change (String x ((a +:+ b) +:+ c) = String x (a +:+ (b +:+ c))).
  rewrite IH. reflexivity.
Qed.

Lemma contains_trans (a b c : string) :
  contains a b = true -> contains b c = true -> contains a c = true.
Proof.
  intros Hab Hbc. apply contains_append in Hab. apply contains_append in Hbc.
  destruct Hab as [p [q H]]. destruct Hbc as [p' [q' H']].
  apply contains_append.
  exists (p' +:+ p), (q +:+ q'). rewrite H', H, !append_assoc. reflexivity.
Qed.

Lemma lacks_cons (c d : ascii) (s : string) :
  lacks (String c EmptyString) (String d s) <->
  Ascii.eqb d c = false /\ lacks (String c EmptyString) s.
Proof.
  unfold lacks. cbn [contains String.prefix].
  destruct (ascii_dec c d) as [->|Hne].
  - rewrite Ascii.eqb_refl. destruct s; simpl; split; intros H;
      try discriminate; destruct H; discriminate.
  - assert (Ascii.eqb d c = false) as ->
      by (apply Ascii.eqb_neq; congruence).
    simpl. tauto.
Qed.

Lemma find_char_first (c : ascii) (a b : string) :
  lacks (String c EmptyString) a ->
  find_char c (a +:+ String c b) = Some (String.length a).
Proof.
  induction a as [|d a IH]; intros H; simpl.
  - rewrite Ascii.eqb_refl. reflexivity.
  - apply lacks_cons in H. destruct H as [Hd Ha].
    rewrite Hd, (IH Ha). reflexivity.
Qed.

Lemma find_char_lacks (c : ascii) (s : string) :
  lacks (String c EmptyString) s -> find_char c s = None.
Proof.
  induction s as [|d s IH]; intros H; simpl; [reflexivity|].
  apply lacks_cons in H. destruct H as [Hd Hs].
  rewrite Hd, (IH Hs). reflexivity.
Qed.

Lemma slice_from_append (a b : string) (c : ascii) :
  slice_from (String.length a + 1) (a +:+ String c b) = b.
Proof. induction a as [|d a IH]; simpl; [destruct b; reflexivity|exact IH]. Qed.

(** X1.  [extract_part_number] cuts an item number at its first
    underscore: for a vendor prefix without underscore, VENDOR_PART gives
    PART, underscores of PART included; an item number without
    underscore is its own part number; a cell that is not text gives
    the empty string. *)
Theorem X1_extract_part_number_cuts_at_the_first_underscore :
  (forall vendor rest : string,
     lacks "_" vendor ->
     extract_part_number (Str (vendor +:+ "_" +:+ rest)) = rest)
  /\ (forall item_num : string,
        lacks "_" item_num -> extract_part_number (Str item_num) = item_num)
  /\ extract_part_number NotStr = EmptyString.
Proof.
  split; [|split].
  - intros vendor rest H. unfold extract_part_number.
    change ("_" +:+ rest) with (String "_" rest).
    rewrite (find_char_first _ _ _ H). apply slice_from_append.
  - intros item_num H. unfold extract_part_number.
    rewrite (find_char_lacks _ _ H). reflexivity.
  - reflexivity.
Qed.

Lemma X1_extract_part_number_cuts_at_the_first_underscore_witness :
  extract_part_number (Str "ACME_BP_100") = "BP_100"
  /\ extract_part_number (Str "BP100") = "BP100".
Proof.
  split.
  - apply (proj1 X1_extract_part_number_cuts_at_the_first_underscore
             "ACME" "BP_100"). reflexivity.
  - apply (proj1 (proj2 X1_extract_part_number_cuts_at_the_first_underscore)
             "BP100"). reflexivity.
Defined.

Lemma in_category_part_data (c : Category) (index : nat) (row : Row) :
  in_category c (part_data index row)
  = category_eqb (categorize_row (lower (row_description row))) c.
Proof. reflexivity. Qed.

Lemma categorize_loop_spec (rows : list Row) :
  forall (index : nat) (acc : PartsData),
    let parts := parts_of index rows in
    automotive (categorize_loop index rows acc)
      = automotive acc ++ List.filter (in_category Automotive) parts
    /\ tools (categorize_loop index rows acc)
      = tools acc ++ List.filter (in_category Tools) parts
    /\ unknown (categorize_loop index rows acc)
      = unknown acc ++ List.filter (in_category Unknown) parts.
Proof.
  induction rows as [|row rows IH]; intros index acc; cbn zeta.
  - simpl. rewrite !app_nil_r. auto.
  - cbn [categorize_loop parts_of List.filter].
    rewrite !in_category_part_data.
    destruct (categorize_row (lower (row_description row)));
      cbn [category_eqb];
      match goal with |- context [categorize_loop _ _ ?a] =>
        destruct (IH (S index) a) as [Ha [Ht Hu]] end;
      rewrite Ha, Ht, Hu; cbn [automotive tools unknown];
      repeat apply conj; rewrite <- ?app_assoc; reflexivity.
Qed.

Lemma parts_of_index (rows : list Row) :
  forall index : nat,
    map Backend.index (parts_of index rows)
    = map Z.of_nat (seq index (length rows)).
Proof.
  induction rows as [|row rows IH]; intros index; simpl; [reflexivity|].
  rewrite IH. reflexivity.
Qed.

Lemma filter_three_way (parts : list Part) :
  (length (List.filter (in_category Automotive) parts)
   + length (List.filter (in_category Tools) parts)
   + length (List.filter (in_category Unknown) parts) = length parts)%nat.
Proof.
  induction parts as [|p parts IH]; [reflexivity|].
  cbn [List.filter].
  assert (forall c, in_category c p = category_eqb (category_of p) c) as H
    by reflexivity.
  rewrite !H.
  destruct (category_of p); cbn [category_eqb length]; lia.
Qed.

Lemma parts_of_length (rows : list Row) :
  forall index : nat, length (parts_of index rows) = length rows.
Proof. induction rows; intros; simpl; auto. Qed.

Lemma categorize_parts_counts (df : list Row) :
  (length (automotive (categorize_parts df))
   + length (tools (categorize_parts df))
   + length (unknown (categorize_parts df)) = length df)%nat.
Proof.
  unfold categorize_parts.
  destruct (categorize_loop_spec df 0
              {| automotive := []; tools := []; unknown := [] |})
    as [Ha [Ht Hu]].
  cbn [automotive tools unknown app] in Ha, Ht, Hu.
  rewrite Ha, Ht, Hu, filter_three_way. apply parts_of_length.
Qed.

(** X2.  [categorize_parts] puts every row into exactly one of the three
    lists, in the order of the rows: each list is the rows of its
    category, the three lengths add up to the number of rows, and the
    [index] of a part is the position of its row. *)
Theorem X2_categorize_parts_partitions_the_rows (df : list Row) :
  let parts := parts_of 0 df in
  let categorized := categorize_parts df in
  automotive categorized = List.filter (in_category Automotive) parts
  /\ tools categorized = List.filter (in_category Tools) parts
  /\ unknown categorized = List.filter (in_category Unknown) parts
  /\ (length (automotive categorized) + length (tools categorized)
      + length (unknown categorized) = length df)%nat
  /\ map Backend.index parts = map Z.of_nat (seq 0 (length df)).
Proof.
  cbn zeta. unfold categorize_parts.
  destruct (categorize_loop_spec df 0
              {| automotive := []; tools := []; unknown := [] |})
    as [Ha [Ht Hu]].
  cbn [automotive tools unknown app] in Ha, Ht, Hu.
  rewrite Ha, Ht, Hu, filter_three_way, parts_of_length.
  repeat apply conj; try reflexivity. apply parts_of_index.
Qed.

Lemma any_in_true (keywords : list string) (keyword description : string) :
  In keyword keywords -> contains keyword description = true ->
  any_in keywords description = true.
Proof.
  intros Hin Hc. unfold any_in. apply existsb_exists. eauto.
Qed.

(** X3.  An exclusion keyword wins over everything: a description that
    contains a keyword of any list which itself contains a non-automotive
    keyword is put under [unknown].  Eighteen automotive keywords are
    shadowed in this way ([ring] is inside [steering], [spring] and
    [bearing]) and so are three tool keywords. *)
Theorem X3_exclusion_keywords_shadow_the_others :
  (forall description keyword excluded : string,
     In excluded non_automotive_keywords ->
     contains excluded keyword = true ->
     contains keyword (lower description) = true ->
     categorize_row (lower description) = Unknown)
  /\ List.filter (any_in non_automotive_keywords) automotive_keywords
     = [ "serpentine belt"; "piston ring"; "turbocharger"; "supercharger";
         "coil spring"; "leaf spring"; "air spring"; "steering rack";
         "power steering pump"; "steering column"; "steering wheel";
         "suspension bushing"; "clock spring"; "wiring harness"; "hub cap";
         "center cap"; "wheel bearing"; "hub bearing" ]
  /\ List.filter (any_in non_automotive_keywords) tool_keywords
     = [ "open wrench"; "spring pin"; "hearing protection" ].
Proof.
  split; [|split; vm_compute; reflexivity].
  intros description keyword excluded Hin Hk Hd.
  assert (any_in non_automotive_keywords (lower description) = true) as H
    by (apply (any_in_true _ excluded); [exact Hin|];
        apply (contains_trans _ keyword); assumption).
  unfold categorize_row. rewrite H. reflexivity.
Qed.

Lemma X3_exclusion_keywords_shadow_the_others_witness :
  categorize_row (lower "Power Steering Pump, remanufactured") = Unknown.
Proof.
  apply (proj1 X3_exclusion_keywords_shadow_the_others
           "Power Steering Pump, remanufactured" "power steering pump" "ring").
  - vm_compute. tauto.
  - reflexivity.
  - reflexivity.
Defined.


Lemma fold_left_snoc_map {A B : Type} (f : A -> B) (l : list A) :
  forall acc : list B,
    fold_left (fun results x => results ++ [f x]) l acc = acc ++ map f l.
Proof.
  induction l as [|x l IH]; intros acc; simpl.
  - rewrite app_nil_r. reflexivity.
  - rewrite IH, <- app_assoc. reflexivity.
Qed.

Lemma process_parts_batch_map (lookup : Part -> option (list string))
    (parts : list Part) (max_parts : Z) (skip_existing : bool)
    (existing_makes : gmap string string) :
  process_parts_batch lookup parts max_parts skip_existing existing_makes
  = map (batch_result lookup skip_existing existing_makes)
        (slice_to max_parts parts).
Proof.
  unfold process_parts_batch.
  exact (fold_left_snoc_map _ (slice_to max_parts parts) []).
Qed.

Lemma batch_result_part lookup skip_existing existing_makes (p : Part) :
  b_part (batch_result lookup skip_existing existing_makes p) = p.
Proof.
  unfold batch_result.
  destruct (skip_existing && has_make _); [reflexivity|].
  destruct (lookup p) as [[|m ms]|]; reflexivity.
Qed.

Lemma batch_result_source lookup skip_existing existing_makes (p : Part) :
  let r := batch_result lookup skip_existing existing_makes p in
  if skip_existing && has_make (_check_existing_make p existing_makes)
  then b_source r = "EXISTING"
       /\ b_makes r = _check_existing_make p existing_makes
  else b_source r <> "EXISTING"
       /\ r = batch_result lookup false existing_makes p.
Proof.
  cbn zeta. unfold batch_result.
  destruct skip_existing; cbn [andb].
  - destruct (has_make (_check_existing_make p existing_makes)); [auto|].
    destruct (lookup p) as [[|m ms]|]; split; first [discriminate|reflexivity].
  - destruct (lookup p) as [[|m ms]|]; split; first [discriminate|reflexivity].
Qed.

(** X4.  The command-line batch gives one result per part of
    [parts[:max_parts]], in the order of the parts.  A part is reported
    from the existing file, without a lookup, exactly when skipping is on
    and the file records a make for it other than the two markers; every
    other part gets the result it has with skipping off. *)
Theorem X4_process_parts_batch_skips_recorded_parts
    (lookup : Part -> option (list string)) (parts : list Part)
    (max_parts : Z) (skip_existing : bool)
    (existing_makes : gmap string string) :
  let results :=
    process_parts_batch lookup parts max_parts skip_existing existing_makes in
  map b_part results = slice_to max_parts parts
  /\ forall (i : nat) (r : BatchResult),
       nth_error results i = Some r ->
       let recorded := _check_existing_make (b_part r) existing_makes in
       (b_source r = "EXISTING" <->
          skip_existing = true /\ has_make recorded = true)
       /\ (b_source r = "EXISTING" ->
           b_makes r = recorded
           /\ recorded <> "NOT_FOUND" /\ recorded <> "UNKNOWN_CATEGORY"
           /\ recorded <> EmptyString)
       /\ (b_source r <> "EXISTING" ->
           nth_error
             (process_parts_batch lookup parts max_parts false existing_makes) i
           = Some r).
Proof.
  cbn zeta. rewrite !process_parts_batch_map. split.
  - rewrite map_map. rewrite <- (map_id (slice_to max_parts parts)) at 2.
    apply map_ext. intros p. apply batch_result_part.
  - intros i r Hr. rewrite nth_error_map in Hr |- *.
    destruct (nth_error (slice_to max_parts parts) i) as [p|]; [|discriminate].
    injection Hr as <-. rewrite batch_result_part.
    pose proof (batch_result_source lookup skip_existing existing_makes p) as H.
    cbn zeta in H.
    destruct (skip_existing && has_make (_check_existing_make p existing_makes))
      eqn:E.
    + destruct H as [Hs Hm]. apply andb_true_iff in E. destruct E as [E1 E2].
      repeat apply conj.
      * intros _. auto.
      * intros _. exact Hs.
      * intros _. split; [exact Hm|].
        unfold has_make in E2. apply andb_true_iff in E2.
        destruct E2 as [E3 E4]. apply negb_true_iff in E4.
        repeat apply conj; intros Hrec; rewrite Hrec in E4; discriminate.
      * intros Hne. contradiction.
    + destruct H as [Hs Hm]. repeat apply conj.
      * intros Hx. contradiction.
      * intros [-> Hh]. rewrite Hh in E. discriminate.
      * intros Hx. contradiction.
      * intros _. cbn [option_map]. rewrite <- Hm. reflexivity.
Qed.

Lemma X4_process_parts_batch_skips_recorded_parts_witness :
  let p := Scenario.brake_pad 0 in
  let recorded : gmap string string := {["BP100" := "Ford"]} in
  let r := {| b_part := p; b_makes := "Ford"; b_source := "EXISTING";
              b_confidence := "Existing" |} in
  nth_error
    (process_parts_batch (fun _ => Some ["Honda"]) [p] 1 true recorded) 0
    = Some r
  /\ b_makes r = _check_existing_make (b_part r) recorded.
Proof.
  cbn zeta. split; [vm_compute; reflexivity|].
  refine (proj1 (proj1 (proj2 (proj2
    (X4_process_parts_batch_skips_recorded_parts (fun _ => Some ["Honda"])
       [Scenario.brake_pad 0] 1 true ({["BP100" := "Ford"]})) 0%nat
       {| b_part := Scenario.brake_pad 0; b_makes := "Ford";
          b_source := "EXISTING"; b_confidence := "Existing" |} _)) _)).
  - vm_compute. reflexivity.
  - reflexivity.
Defined.

Lemma nth_error_snoc_at {A : Type} (l : list A) (x : A) (k : list A) :
  nth_error (l ++ x :: k) (length l) = Some x.
Proof. induction l; simpl; auto. Qed.

Lemma merge_loop_spec (chunk_results : list BatchResult) (start_idx : Z)
    (existing_data : gmap string Existing) (parts : list Part) :
  forall (i : nat) (merged_results : list BatchResult),
    length merged_results = i ->
    exists added,
      merge_loop chunk_results start_idx existing_data i parts merged_results
      = Some (merged_results ++ added)
      /\ length added = length parts
      /\ forall (k : nat) (p : Part),
           nth_error parts k = Some p ->
           nth_error added k =
           if in_chunk chunk_results start_idx (i + k)
           then nth_error chunk_results
                  (Z.to_nat (Z.of_nat (i + k) - start_idx))
           else Some (carried_over existing_data p).
Proof.
  induction parts as [|p parts IH]; intros i merged Hlen.
  - exists []. rewrite app_nil_r. repeat apply conj; try reflexivity.
    intros k q Hk. destruct k; discriminate.
  - cbn [merge_loop]. fold (in_chunk chunk_results start_idx i).
    destruct (in_chunk chunk_results start_idx i) eqn:E.
    + destruct (nth_error chunk_results (Z.to_nat (Z.of_nat i - start_idx)))
        as [r|] eqn:Er.
      * destruct (IH (S i) (merged ++ [r])) as [added [H1 [H2 H3]]].
        { rewrite length_app. simpl. lia. }
        exists (r :: added). rewrite H1, <- app_assoc.
        repeat apply conj; [reflexivity|simpl; lia|].
        intros [|k] q Hk; cbn [nth_error] in *.
        -- rewrite Nat.add_0_r, E. auto.
        -- rewrite (H3 k q Hk).
           replace (i + S k)%nat with (S i + k)%nat by lia. reflexivity.
      * exfalso. apply nth_error_None in Er.
        unfold in_chunk in E. apply andb_true_iff in E.
        destruct E as [E1 E2]. apply Z.leb_le in E1. apply Z.ltb_lt in E2. lia.
    + assert (exists r, r = carried_over existing_data p
                /\ merge_loop chunk_results start_idx existing_data i
                     (p :: parts) merged
                   = merge_loop chunk_results start_idx existing_data (S i)
                       parts (merged ++ [r])) as [r [Hr Hm]].
      { exists (carried_over existing_data p). split; [reflexivity|].
        cbn [merge_loop]. fold (in_chunk chunk_results start_idx i).
        rewrite E. unfold carried_over.
        destruct (existing_data !! item_num p); reflexivity. }
      cbn [merge_loop] in Hm. fold (in_chunk chunk_results start_idx i) in Hm.
      rewrite E in Hm. rewrite Hm.
      destruct (IH (S i) (merged ++ [r])) as [added [H1 [H2 H3]]].
      { rewrite length_app. simpl. lia. }
      exists (r :: added). rewrite H1, <- app_assoc.
      repeat apply conj; [reflexivity|simpl; lia|].
      intros [|k] q Hk; cbn [nth_error] in *.
      -- rewrite Nat.add_0_r, E. injection Hk as <-. rewrite Hr. reflexivity.
      -- rewrite (H3 k q Hk).
         replace (i + S k)%nat with (S i + k)%nat by lia. reflexivity.
Qed.

(** X5.  [_merge_chunk_results] never falls back to the chunk alone: it
    gives one result per automotive part, the chunk's own results at the
    positions [start_idx .. start_idx + len(chunk) - 1] and, elsewhere,
    the part with the make of the existing file or marked
    NOT_PROCESSED. *)
Theorem X5_merge_chunk_results_covers_every_part
    (chunk_results : list BatchResult) (all_categorized : PartsData)
    (start_idx : Z) (existing_data : gmap string Existing) :
  let merged :=
    _merge_chunk_results chunk_results all_categorized start_idx existing_data in
  length merged = length (automotive all_categorized)
  /\ forall (i : nat) (p : Part),
       nth_error (automotive all_categorized) i = Some p ->
       nth_error merged i =
       if in_chunk chunk_results start_idx i
       then nth_error chunk_results (Z.to_nat (Z.of_nat i - start_idx))
       else Some (carried_over existing_data p).
Proof.
  cbn zeta. unfold _merge_chunk_results.
  destruct (merge_loop_spec chunk_results start_idx existing_data
              (automotive all_categorized) 0 [] eq_refl)
    as [added [H1 [H2 H3]]].
  rewrite H1. cbn [app]. split; [exact H2|].
  intros i p Hp. apply (H3 i p Hp).
Qed.

Lemma X5_merge_chunk_results_covers_every_part_witness :
  let r := {| b_part := Scenario.brake_pad 1; b_makes := "Ford";
              b_source := "RockAuto"; b_confidence := "High" |} in
  nth_error
    (_merge_chunk_results [r] (Scenario.catalog 3) 1 ∅) 1
  = Some r.
Proof.
  cbn zeta.
  refine (proj2 (X5_merge_chunk_results_covers_every_part
            [{| b_part := Scenario.brake_pad 1; b_makes := "Ford";
                b_source := "RockAuto"; b_confidence := "High" |}]
            (Scenario.catalog 3) 1 ∅)
            1%nat (Scenario.brake_pad 1) _).
  reflexivity.
Defined.

End CatalogFacts.

(** * Makes: from the panel to the leaderboard *)

Section MakesFacts.
Import Text Regex Extraction Leaderboard Backend Catalog Views.

Lemma lower_upper_char (c : ascii) : lower_char (upper_char c) = lower_char c.
Proof. by_cases_on_char c. Qed.

Lemma upper_upper (s : string) : upper (upper s) = upper s.
Proof.
  induction s as [|c s IH]; simpl; [reflexivity|].
  rewrite upper_char_idem, IH. reflexivity.
Qed.

Lemma title_go_upper (s : string) :
  forall b, title_go b (upper s) = title_go b s.
Proof.
  induction s as [|c s IH]; intros b; simpl; [reflexivity|].
  rewrite is_cased_upper_char, IH. destruct b.
  - rewrite lower_upper_char. reflexivity.
  - rewrite upper_char_idem. reflexivity.
Qed.

Lemma normalize_make_upper (m : string) :
  _normalize_make (upper m) = _normalize_make m.
Proof.
  unfold _normalize_make, title. rewrite upper_upper, title_go_upper.
  reflexivity.
Qed.

Lemma inb_In (x : string) (l : list string) : inb x l = true <-> In x l.
Proof.
  unfold inb. rewrite existsb_exists. split.
  - intros [y [Hy E]]. apply String.eqb_eq in E. subst. exact Hy.
  - intros H. exists x. split; [exact H|apply String.eqb_refl].
Qed.

Lemma inb_not_In (x : string) (l : list string) : inb x l = false <-> ~ In x l.
Proof.
  rewrite <- inb_In. destruct (inb x l); split; intros; congruence.
Qed.

Lemma known_make_canonical (m : string) :
  _is_known_make m = true -> In (_normalize_make m) canonical_makes.
Proof.
  unfold _is_known_make. intros H. apply inb_In in H.
  rewrite <- normalize_make_upper. unfold canonical_makes.
  apply in_map. exact H.
Qed.

Lemma set_add_NoDup (x : string) (l : list string) :
  List.NoDup l -> List.NoDup (set_add x l).
Proof.
  intros H. unfold set_add. destruct (inb x l) eqn:E; [exact H|].
  apply inb_not_In in E.
  apply (Permutation_NoDup (l := x :: l)).
  - apply Permutation_cons_append.
  - constructor; assumption.
Qed.

Lemma set_add_In (x y : string) (l : list string) :
  In y (set_add x l) <-> y = x \/ In y l.
Proof.
  unfold set_add. destruct (inb x l) eqn:E.
  - apply inb_In in E. split; [auto|]. intros [->|H]; assumption.
  - rewrite in_app_iff. simpl. split.
    + intros [H|[H|[]]]; auto.
    + intros [H|H]; auto.
Qed.

Lemma add_if_known_ok (makes : list string) (m : string) :
  makes_ok makes -> makes_ok (add_if_known makes m).
Proof.
  intros [Hn Hc]. unfold add_if_known.
  destruct (_is_known_make m) eqn:E; [|split; assumption].
  split; [apply set_add_NoDup; exact Hn|].
  apply List.Forall_forall. intros y Hy. apply set_add_In in Hy.
  destruct Hy as [->|Hy].
  - apply known_make_canonical. exact E.
  - rewrite List.Forall_forall in Hc. apply Hc. exact Hy.
Qed.

Lemma fold_left_ok {A : Type} (f : list string -> A -> list string) :
  (forall makes x, makes_ok makes -> makes_ok (f makes x)) ->
  forall (l : list A) (makes : list string),
    makes_ok makes -> makes_ok (fold_left f l makes).
Proof.
  intros Hf l. induction l as [|x l IH]; intros makes H; simpl; auto.
Qed.

Lemma extract_cell_ok (makes : list string) (cell : string) :
  makes_ok makes -> makes_ok (extract_cell makes cell).
Proof.
  intros H. unfold extract_cell. destruct (strip cell); [exact H|].
  repeat apply (fold_left_ok add_if_known add_if_known_ok). exact H.
Qed.

Lemma extract_makes_ok (popup : option Popup) :
  makes_ok (_extract_makes_from_popup popup).
Proof.
  assert (makes_ok []) as H0 by (split; constructor).
  unfold _extract_makes_from_popup. destruct popup as [p|]; [|exact H0].
  destruct (contains _ _); [exact H0|].
  apply fold_left_ok.
  - intros makes cells H. apply (fold_left_ok extract_cell extract_cell_ok).
    exact H.
  - destruct (popup_rows p); [|exact H0].
    apply (fold_left_ok add_if_known add_if_known_ok). exact H0.
Qed.

(** X6.  Whatever the buyers-guide panel holds, the makes extracted from
    it are names of the make dictionary in their reported spelling, each
    at most once; the alias CHEVY never appears, it is reported as
    Chevrolet. *)
Theorem X6_popup_makes_are_canonical_and_distinct (popup : option Popup) :
  let makes := _extract_makes_from_popup popup in
  List.NoDup makes
  /\ (forall m : string, In m makes ->
        exists known : string,
          In known known_makes /\ m = _normalize_make known)
  /\ ~ In "Chevy" makes /\ ~ In "CHEVY" makes.
Proof.
  cbn zeta. destruct (extract_makes_ok popup) as [Hn Hc].
  rewrite List.Forall_forall in Hc.
  repeat apply conj.
  - exact Hn.
  - intros m Hm. apply Hc in Hm. unfold canonical_makes in Hm.
    apply in_map_iff in Hm. destruct Hm as [k [E Hk]]. eauto.
  - intros H. apply Hc in H. apply inb_In in H. vm_compute in H. discriminate.
  - intros H. apply Hc in H. apply inb_In in H. vm_compute in H. discriminate.
Qed.

Lemma X6_popup_makes_are_canonical_and_distinct_witness :
  let popup := Some {| popup_get_text := "2008 HONDA";
                       popup_rows := [["2008 HONDA"; "Chevy truck"]] |} in
  In "Honda" (_extract_makes_from_popup popup)
  /\ exists known : string,
       In known known_makes /\ "Honda" = _normalize_make known.
Proof.
  cbn zeta.
  assert (In "Honda" (_extract_makes_from_popup
            (Some {| popup_get_text := "2008 HONDA";
                     popup_rows := [["2008 HONDA"; "Chevy truck"]] |}))) as H
    by (vm_compute; tauto).
  split; [exact H|].
  exact (proj1 (proj2 (X6_popup_makes_are_canonical_and_distinct
           (Some {| popup_get_text := "2008 HONDA";
                    popup_rows := [["2008 HONDA"; "Chevy truck"]] |})))
           "Honda" H).
Defined.

Lemma insert_sorted_perm (x : string) (l : list string) :
  Permutation (insert_sorted x l) (x :: l).
Proof.
  induction l as [|y l IH]; simpl; [reflexivity|].
  destruct (String.leb x y); [reflexivity|].
  rewrite IH. apply perm_swap.
Qed.

Lemma sorted_perm (l : list string) : Permutation (sorted l) l.
Proof.
  induction l as [|x l IH]; simpl; [reflexivity|].
  rewrite insert_sorted_perm, IH. reflexivity.
Qed.

Lemma insert_sorted_Sorted (x : string) (l : list string) :
  Sorted alphabetical l -> Sorted alphabetical (insert_sorted x l).
Proof.
  induction l as [|y l IH]; intros H; simpl.
  - repeat constructor.
  - destruct (String.leb x y) eqn:E.
    + constructor; [exact H|]. constructor. exact E.
    + inversion H as [|? ? Hs Hh]; subst.
      constructor; [apply IH; exact Hs|].
      assert (alphabetical y x) as Hyx.
      { destruct (String.leb_total x y) as [F|F]; [congruence|exact F]. }
      destruct l as [|z l]; simpl.
      * constructor. exact Hyx.
      * destruct (String.leb x z); constructor;
          [exact Hyx|inversion Hh; assumption].
Qed.

Lemma sorted_Sorted (l : list string) : Sorted alphabetical (sorted l).
Proof.
  induction l as [|x l IH]; simpl; [constructor|].
  apply insert_sorted_Sorted. exact IH.
Qed.

Lemma sorted_of_Sorted (l : list string) :
  Sorted alphabetical l -> sorted l = l.
Proof.
  induction l as [|x l IH]; intros H; simpl; [reflexivity|].
  inversion H as [|? ? Hs Hh]; subst. rewrite (IH Hs).
  destruct l as [|y l]; simpl; [reflexivity|].
  inversion Hh as [|? ? E]; subst. unfold alphabetical in E. rewrite E.
  reflexivity.
Qed.

Lemma dedup_spec (l : list string) :
  forall acc : list string,
    List.NoDup acc ->
    let out := fold_left (fun acc x => set_add x acc) l acc in
    List.NoDup out /\ (forall x, In x out <-> In x acc \/ In x l).
Proof.
  induction l as [|y l IH]; intros acc H; cbn zeta; simpl.
  - split; [exact H|]. intros x. tauto.
  - destruct (IH (set_add y acc) (set_add_NoDup y acc H)) as [Hn Hi].
    split; [exact Hn|]. intros x. rewrite Hi, set_add_In.
    intuition (subst; auto).
Qed.

Lemma dedup_NoDup (l : list string) :
  forall acc : list string,
    List.NoDup (acc ++ l) ->
    fold_left (fun acc x => set_add x acc) l acc = acc ++ l.
Proof.
  induction l as [|y l IH]; intros acc H; simpl.
  - rewrite app_nil_r. reflexivity.
  - assert (inb y acc = false) as E.
    { apply inb_not_In. intros Hy. apply NoDup_remove_2 in H.
      apply H. apply in_or_app. auto. }
    unfold set_add at 2. rewrite E. rewrite IH; rewrite <- app_assoc; auto.
Qed.

Lemma sorted_set_spec (l : list string) :
  Sorted alphabetical (sorted_set l)
  /\ List.NoDup (sorted_set l)
  /\ (forall x : string, In x (sorted_set l) <-> In x l).
Proof.
  unfold sorted_set.
  destruct (dedup_spec l [] (List.NoDup_nil _)) as [Hn Hi]. cbn zeta in *.
  repeat apply conj.
  - apply sorted_Sorted.
  - apply (Permutation_NoDup (l := fold_left (fun acc x => set_add x acc) l [])).
    + symmetry. apply sorted_perm.
    + exact Hn.
  - intros x. split.
    + intros H. apply (Permutation_in _ (sorted_perm _)) in H.
      apply Hi in H. destruct H as [[]|H]. exact H.
    + intros H. apply (Permutation_in _ (Permutation_sym (sorted_perm _))).
      apply Hi. right. exact H.
Qed.

(** X7.  The list of makes the worker writes into a result holds every
    make of the lookup once, in alphabetical order, however often and in
    whatever order the lookup listed them. *)
Theorem X7_sorted_set_is_sorted_and_duplicate_free (found : list string) :
  Sorted alphabetical (sorted_set found)
  /\ List.NoDup (sorted_set found)
  /\ (forall make : string, In make (sorted_set found) <-> In make found)
  /\ (forall p : Part, found <> [] ->
        makes (part_result_of p (Some found)) = join ", " (sorted_set found)
        /\ source (part_result_of p (Some found)) = "RockAuto").
Proof.
  destruct (sorted_set_spec found) as [H1 [H2 H3]].
  split; [exact H1|]. split; [exact H2|]. split; [exact H3|].
  intros p Hne. destruct found; [congruence|]. split; reflexivity.
Qed.

Lemma X7_sorted_set_is_sorted_and_duplicate_free_witness :
  makes (part_result_of (Scenario.brake_pad 0)
           (Some ["Honda"; "Ford"; "Honda"]))
  = join ", " (sorted_set ["Honda"; "Ford"; "Honda"])
  /\ sorted_set ["Honda"; "Ford"; "Honda"] = ["Ford"; "Honda"].
Proof.
  split; [|reflexivity].
  apply (proj2 (proj2 (proj2
           (X7_sorted_set_is_sorted_and_duplicate_free
              ["Honda"; "Ford"; "Honda"]))) (Scenario.brake_pad 0)).
  discriminate.
Defined.

Lemma canonical_makes_valid :
  forallb _is_valid_make canonical_makes = true.
Proof. vm_compute. reflexivity. Qed.

Lemma filter_all {A : Type} (f : A -> bool) (l : list A) :
  Forall (fun x => f x = true) l -> List.filter f l = l.
Proof.
  induction 1 as [|x l Hx Hl IH]; simpl; [reflexivity|].
  rewrite Hx, IH. reflexivity.
Qed.

(** X8.  The validity filter of [search_rockauto] never drops a make that
    came from the panel: a panel that gives makes is answered with all of
    them, sorted, and the worker's own removal of duplicates and sort
    leave that answer as it is. *)
Theorem X8_search_answer_is_the_sorted_panel_makes (popup : option Popup) :
  let makes := _extract_makes_from_popup popup in
  List.filter _is_valid_make makes = makes
  /\ (makes <> [] -> makes_answer makes = Some (sorted makes))
  /\ Sorted alphabetical (sorted makes)
  /\ Permutation (sorted makes) makes
  /\ sorted_set (sorted makes) = sorted makes.
Proof.
  cbn zeta. destruct (extract_makes_ok popup) as [Hn Hc].
  assert (List.filter _is_valid_make (_extract_makes_from_popup popup)
          = _extract_makes_from_popup popup) as Hf.
  { apply filter_all. apply (List.Forall_impl _ (P := fun m => In m canonical_makes)).
    - intros m Hm. pose proof canonical_makes_valid as Hv.
      rewrite forallb_forall in Hv. apply Hv. exact Hm.
    - exact Hc. }
  repeat apply conj.
  - exact Hf.
  - intros Hne. unfold makes_answer.
    destruct (_extract_makes_from_popup popup) eqn:E; [congruence|].
    rewrite Hf. reflexivity.
  - apply sorted_Sorted.
  - apply sorted_perm.
  - unfold sorted_set. rewrite (dedup_NoDup _ []).
    + apply sorted_of_Sorted. apply sorted_Sorted.
    + simpl. apply (Permutation_NoDup (Permutation_sym (sorted_perm _))).
      exact Hn.
Qed.

Lemma X8_search_answer_is_the_sorted_panel_makes_witness :
  let popup := Some {| popup_get_text := "2008 HONDA 2010 ford";
                       popup_rows := [["2008 HONDA"; "Chevy truck"]] |} in
  makes_answer (_extract_makes_from_popup popup)
  = Some (sorted (_extract_makes_from_popup popup))
  /\ sorted (_extract_makes_from_popup popup) = ["Chevrolet"; "Honda"].
Proof.
  cbn zeta. split; [|vm_compute; reflexivity].
  apply (proj1 (proj2 (X8_search_answer_is_the_sorted_panel_makes
           (Some {| popup_get_text := "2008 HONDA 2010 ford";
                    popup_rows := [["2008 HONDA"; "Chevy truck"]] |}))));
  vm_compute; discriminate.
Defined.


Lemma clean_token_spec (t : string) :
  clean_token t = true ->
  t <> EmptyString /\ strip t = t /\ lacks "," t.
Proof.
  unfold clean_token. intros H.
  apply andb_true_iff in H. destruct H as [H H3].
  apply andb_true_iff in H. destruct H as [H1 H2].
  repeat apply conj.
  - intros ->. discriminate.
  - apply String.eqb_eq. exact H2.
  - apply negb_true_iff. exact H3.
Qed.

Lemma split_on_lacks (sep : ascii) (t s : string) :
  lacks (String sep EmptyString) t ->
  split_on sep (t +:+ String sep s) = t :: split_on sep s.
Proof.
  induction t as [|c t IH]; intros H.
  - simpl. rewrite Ascii.eqb_refl. reflexivity.
  - apply lacks_cons in H. destruct H as [Hc Ht].
    change (String c t +:+ String sep s) with (String c (t +:+ String sep s)).
    cbn [split_on]. rewrite Hc, (IH Ht). reflexivity.
Qed.

Lemma split_on_lacks_end (sep : ascii) (t : string) :
  lacks (String sep EmptyString) t -> split_on sep t = [t].
Proof.
  induction t as [|c t IH]; intros H; [reflexivity|].
  apply lacks_cons in H. destruct H as [Hc Ht].
  cbn [split_on]. rewrite Hc, (IH Ht). reflexivity.
Qed.

Lemma strip_after_space (t : string) : strip (String " " t) = strip t.
Proof. reflexivity. Qed.

Lemma lacks_after_space (t : string) :
  lacks "," t -> lacks "," (String " " t).
Proof. intros H. apply lacks_cons. split; [reflexivity|exact H]. Qed.

(** The tokens of a joined list, before they are trimmed: the first make
    as it is, every later one after a space. *)
Lemma split_on_join (l : list string) :
  Forall (fun t => clean_token t = true) l ->
  forall t : string, clean_token t = true ->
    map strip (split_on "," (join ", " (t :: l))) = t :: l.
Proof.
  induction 1 as [|u l Hu Hl IH]; intros t Ht.
  - destruct (clean_token_spec t Ht) as [_ [Hs Hc]].
    cbn [join]. rewrite (split_on_lacks_end _ _ Hc). simpl. rewrite Hs.
    reflexivity.
  - destruct (clean_token_spec t Ht) as [_ [Hs Hc]].
    rewrite join_cons2.
    change (t +:+ ", " +:+ join ", " (u :: l))
      with (t +:+ String "," (String " " (join ", " (u :: l)))).
    rewrite (split_on_lacks _ _ _ Hc). cbn [map]. rewrite Hs. f_equal.
    specialize (IH u Hu).
    destruct l as [|v l].
    + cbn [join] in *. destruct (clean_token_spec u Hu) as [_ [Hsu Hcu]].
      rewrite (split_on_lacks_end _ _ (lacks_after_space _ Hcu)).
      cbn [map]. rewrite strip_after_space, Hsu. reflexivity.
    + rewrite join_cons2 in *.
      destruct (clean_token_spec u Hu) as [_ [Hsu Hcu]].
      change (String " " (u +:+ ", " +:+ join ", " (v :: l)))
        with (String " " u +:+ String "," (String " " (join ", " (v :: l)))).
      change (u +:+ ", " +:+ join ", " (v :: l))
        with (u +:+ String "," (String " " (join ", " (v :: l)))) in IH.
      rewrite (split_on_lacks _ _ _ (lacks_after_space _ Hcu)).
      rewrite (split_on_lacks _ _ _ Hcu) in IH.
      cbn [map] in *. rewrite strip_after_space. exact IH.
Qed.

Lemma filter_nonempty_clean (l : list string) :
  Forall (fun t => clean_token t = true) l -> List.filter nonempty l = l.
Proof.
  intros H. apply filter_all. apply (List.Forall_impl _ (P := fun t => clean_token t = true)); [|exact H].
  intros t Ht. unfold clean_token in Ht.
  apply andb_true_iff in Ht. destruct Ht as [Ht _].
  apply andb_true_iff in Ht. destruct Ht as [Ht _]. exact Ht.
Qed.

Lemma split_makes_join (l : list string) :
  Forall (fun t => clean_token t = true) l ->
  split_makes (join ", " l) = l.
Proof.
  intros H. unfold split_makes. destruct H as [|t l Ht Hl]; [reflexivity|].
  rewrite (split_on_join l Hl t Ht).
  apply filter_nonempty_clean. constructor; assumption.
Qed.

Lemma occurrences_absent (m : string) (ts : list string) :
  ~ In m ts -> occurrences m ts = 0.
Proof.
  intros H. unfold occurrences.
  replace (List.filter (String.eqb m) ts) with (@nil string); [reflexivity|].
  symmetry. induction ts as [|t ts IH]; [reflexivity|]. simpl.
  destruct (String.eqb m t) eqn:E.
  - apply String.eqb_eq in E. subst. exfalso. apply H. left. reflexivity.
  - apply IH. intros Hin. apply H. right. exact Hin.
Qed.

Lemma join_nonempty (l : list string) (t : string) :
  t <> EmptyString -> nonempty (join ", " (t :: l)) = true.
Proof.
  intros H. destruct t; [congruence|]. destruct l; reflexivity.
Qed.

(** X9.  The makes text of a result and the leaderboard fit together:
    for makes without comma and surrounding space, splitting the text
    gives back the list the worker joined, and the leaderboard update for
    the record adds exactly one occurrence and the record's quantity to
    every make found, and nothing to any other make, however often the
    lookup listed a make. *)
Theorem X9_found_makes_count_once_on_the_leaderboard
    (p : Part) (found : list string) (lb : leaderboard Z) :
  found <> [] ->
  Forall (fun t => clean_token t = true) found ->
  ~ In NOT_FOUND found ->
  let r := part_result_of p (Some found) in
  let lb' := update_leaderboard lb (makes r) (qty (part r)) in
  split_makes (makes r) = sorted_set found
  /\ forall make : string,
       count_of lb' make
         = count_of lb make + (if inb make found then 1 else 0)
       /\ weighted_of lb' make
         = weighted_of lb make + (if inb make found then qty p else 0).
Proof.
  intros Hne Hclean Hnf. cbn zeta.
  destruct (sorted_set_spec found) as [_ [Hnd Hin]].
  assert (Forall (fun t => clean_token t = true) (sorted_set found)) as Hc.
  { apply List.Forall_forall. intros t Ht. apply Hin in Ht.
    rewrite List.Forall_forall in Hclean. apply Hclean. exact Ht. }
  assert (makes (part_result_of p (Some found)) = join ", " (sorted_set found))
    as Hm by (destruct found; [congruence|reflexivity]).
  rewrite part_result_of_part, Hm.
  pose proof (split_makes_join _ Hc) as Hs.
  split; [exact Hs|]. intros make.
  assert (exists t l, sorted_set found = t :: l) as [t [l Hl]].
  { destruct (sorted_set found) as [|t l] eqn:E; [|eauto].
    destruct found as [|x xs]; [congruence|].
    exfalso. assert (In x []) as F by (apply Hin; left; reflexivity).
    destruct F. }
  assert (nonempty (join ", " (sorted_set found)) = true) as Hnonempty.
  { rewrite Hl. apply join_nonempty.
    rewrite Hl in Hc. inversion Hc as [|? ? Ht _]; subst.
    apply (clean_token_spec t Ht). }
  assert (String.eqb (join ", " (sorted_set found)) NOT_FOUND = false) as Hsent.
  { apply String.eqb_neq. intros E. rewrite E in Hs.
    apply Hnf. apply Hin. rewrite <- Hs. vm_compute. auto. }
  unfold update_leaderboard. rewrite Hnonempty, Hsent. cbn [negb andb].
  rewrite Hs.
  destruct (bump_all_counts (qty p) (sorted_set found) lb make) as [Hcount [Hw _]].
  rewrite Hcount, Hw.
  destruct (inb make found) eqn:E.
  - apply inb_In in E. apply Hin in E.
    rewrite (occurrences_NoDup _ _ Hnd E). split; lia.
  - apply inb_not_In in E.
    rewrite occurrences_absent; [split; lia|].
    intros H. apply E. apply Hin. exact H.
Qed.

Lemma X9_found_makes_count_once_on_the_leaderboard_witness :
  let r := part_result_of (Scenario.brake_pad 0)
             (Some ["Honda"; "Ford"; "Honda"]) in
  split_makes (makes r) = sorted_set ["Honda"; "Ford"; "Honda"]
  /\ count_of (update_leaderboard [] (makes r) (qty (part r))) "Honda" = 1.
Proof.
  cbn zeta.
  assert (["Honda"; "Ford"; "Honda"] <> []) as H1 by discriminate.
  assert (Forall (fun t => clean_token t = true) ["Honda"; "Ford"; "Honda"])
    as H2 by (repeat constructor).
  assert (~ In NOT_FOUND ["Honda"; "Ford"; "Honda"]) as H3
    by (intros H; apply inb_In in H; vm_compute in H; discriminate).
  pose proof (X9_found_makes_count_once_on_the_leaderboard
                (Scenario.brake_pad 0) ["Honda"; "Ford"; "Honda"] [] H1 H2 H3)
    as H.
  cbn zeta in H. destruct H as [Ha Hb]. split; [exact Ha|].
  exact (proj1 (Hb "Honda")).
Defined.

(** Every make that [search_rockauto] can answer with fits that form. *)
Lemma canonical_makes_clean :
  forallb clean_token canonical_makes = true
  /\ inb NOT_FOUND canonical_makes = false.
Proof. split; vm_compute; reflexivity. Qed.

End MakesFacts.

(** * Checkpoints, history and the registry of connections *)

Section StoreFacts.
Import Text Leaderboard Backend Frames Catalog Api Views.

(** X10.  A checkpoint round trip: what [save_session] writes,
    [load_session] reads back into any later state.  The session id, the
    data, the counts, the range, the result log and the leaderboard are
    restored; the running flag, the stop flag, the error message, the
    detector, the history and the connections are not part of a
    checkpoint and stay as they are in the later state. *)
Theorem X10_saved_session_loads_back
    (env : Env) (s later : ProcessingState) (w : World) (id : string) :
  current_session_id s = Some id ->
  disk_ok env (writes w) = true ->
  let saved := save_session env s w in
  let loaded := load_session id later (world_of saved) in
  answer_of saved = Ret (Some (session_path id))
  /\ sessions (world_of saved) !! id = Some (session_data_of id s)
  /\ answer_of loaded = Ret true
  /\ world_of loaded = world_of saved
  /\ current_session_id (state_of loaded) = Some id
  /\ session_data_of id (state_of loaded) = session_data_of id s
  /\ same_control later (state_of loaded).
Proof.
  intros Hid Hdisk. cbn zeta.
  unfold save_session, load_session, answer_of, state_of, world_of. munfold.
  rewrite Hid, Hdisk. cbn [fst snd sessions set_sessions set_writes].
  rewrite lookup_insert_eq. cbn [fst snd].
  repeat apply conj; try reflexivity.
  constructor; reflexivity.
Qed.

Lemma X10_saved_session_loads_back_witness :
  let s := set_current_session_id (Some "session-1") (Scenario.loaded 2) in
  answer_of
    (load_session "session-1" initial_state
       (world_of (save_session Scenario.calm s initial_world)))
  = Ret true.
Proof.
  exact (proj1 (proj2 (proj2
           (X10_saved_session_loads_back Scenario.calm
              (set_current_session_id (Some "session-1") (Scenario.loaded 2))
              initial_state initial_world "session-1" eq_refl eq_refl)))).
Defined.

(** X11.  The three ways [resume_session] turns a request down.  While a
    run is in progress (400) and for an unknown session (404) nothing
    changes.  A session with nothing left to process is turned down with
    400 only after [load_session] has run: the state then holds that
    session's id, counts, result log and leaderboard, and no task is
    created. *)
Theorem X11_resume_rejections (env : Env) (session_id : string)
    (s : ProcessingState) (w : World) :
  let out := resume_session env session_id s w in
  (is_processing s = true ->
     answer_of out = Ret (HTTPException 400 AlreadyInProgress)
     /\ state_of out = s /\ world_of out = w)
  /\ (is_processing s = false -> sessions w !! session_id = None ->
      answer_of out = Ret (HTTPException 404 SessionNotFound)
      /\ state_of out = s /\ world_of out = w)
  /\ (forall d : SessionData,
        is_processing s = false -> sessions w !! session_id = Some d ->
        sd_end_index d - sd_start_index d - sd_processed_count d <= 0 ->
        answer_of out = Ret (HTTPException 400 SessionAlreadyCompleted)
        /\ world_of out = w
        /\ current_session_id (state_of out) = Some (sd_session_id d)
        /\ session_data_of (sd_session_id d) (state_of out) = d
        /\ same_control s (state_of out)).
Proof.
  cbn zeta. unfold resume_session, load_session, answer_of, state_of, world_of.
  munfold. repeat apply conj.
  - intros H. rewrite H. auto.
  - intros H Hn. rewrite H, Hn. auto.
  - intros d H Hd Hrem. rewrite H, Hd. simpl.
    destruct (Z.leb_spec
                (sd_end_index d - sd_start_index d - sd_processed_count d) 0);
      [|lia].
    simpl.
    repeat apply conj; try reflexivity; try (constructor; reflexivity).
    destruct d. reflexivity.
Qed.

Lemma X11_resume_rejections_witness :
  let d := session_data_of "session-1" (Scenario.loaded 2) in
  let w := set_sessions {["session-1" := d]} initial_world in
  answer_of (resume_session Scenario.calm "session-1" initial_state w)
  = Ret (HTTPException 400 SessionAlreadyCompleted).
Proof.
  refine (proj1 (proj2 (proj2
            (X11_resume_rejections Scenario.calm "session-1" initial_state
               (set_sessions
                  {["session-1" :=
                      session_data_of "session-1" (Scenario.loaded 2)]}
                  initial_world)))
            (session_data_of "session-1" (Scenario.loaded 2)) eq_refl _ _)).
  - vm_compute. reflexivity.
  - vm_compute. discriminate.
Defined.

(** X12.  [delete_session] removes the checkpoint of one session and
    nothing else: the state is never touched, the other checkpoints
    stay, and afterwards the session can neither be resumed nor deleted
    again (404).  An unknown session is answered with 404 and a failing
    removal with 500, both without any change to the checkpoints. *)
Theorem X12_delete_session_removes_one_checkpoint
    (env : Env) (session_id : string) (s : ProcessingState) (w : World) :
  let out := delete_session env session_id s w in
  state_of out = s
  /\ (sessions w !! session_id = None ->
      answer_of out = Ret (Raised 404) /\ world_of out = w)
  /\ (forall d : SessionData,
        sessions w !! session_id = Some d ->
        if disk_ok env (writes w)
        then answer_of out = Ret (Returned tt)
             /\ sessions (world_of out) = delete session_id (sessions w)
             /\ (forall other : string, other <> session_id ->
                   sessions (world_of out) !! other = sessions w !! other)
             /\ (forall later : ProcessingState,
                   is_processing later = false ->
                   answer_of (resume_session env session_id later (world_of out))
                   = Ret (HTTPException 404 SessionNotFound))
             /\ answer_of (delete_session env session_id s (world_of out))
                = Ret (Raised 404)
        else answer_of out = Ret (Raised 500)
             /\ sessions (world_of out) = sessions w).
Proof.
  cbn zeta.
  unfold delete_session, except_http_exception, unlink,
    answer_of, state_of, world_of.
  munfold. repeat apply conj.
  - destruct (sessions w !! session_id); [|reflexivity].
    destruct (disk_ok env (writes w)); reflexivity.
  - intros Hn. rewrite Hn. auto.
  - intros d Hd. rewrite Hd. destruct (disk_ok env (writes w)); cbn [fst snd].
    + cbn [sessions set_sessions set_writes].
      repeat apply conj; try reflexivity.
      * intros other Hne. apply lookup_delete_ne. congruence.
      * intros later Hidle.
        unfold resume_session, load_session. munfold.
        rewrite Hidle. cbn [sessions set_sessions set_writes].
        rewrite lookup_delete_eq. reflexivity.
      * rewrite lookup_delete_eq. reflexivity.
    + auto.
Qed.

Lemma X12_delete_session_removes_one_checkpoint_witness :
  let d := session_data_of "session-1" (Scenario.loaded 2) in
  let w := set_sessions {["session-1" := d]} initial_world in
  sessions w !! "session-1" = Some d
  /\ answer_of (delete_session Scenario.calm "session-1" initial_state w)
     = Ret (Returned tt).
Proof.
  cbn zeta.
  assert (sessions
            (set_sessions
               {["session-1" :=
                   session_data_of "session-1" (Scenario.loaded 2)]}
               initial_world) !! "session-1"
          = Some (session_data_of "session-1" (Scenario.loaded 2))) as Hd
    by (vm_compute; reflexivity).
  split; [exact Hd|].
  exact (proj1 (proj2 (proj2 (X12_delete_session_removes_one_checkpoint
           Scenario.calm "session-1" initial_state
           (set_sessions
              {["session-1" :=
                  session_data_of "session-1" (Scenario.loaded 2)]}
              initial_world))) _ Hd)).
Defined.

Lemma firstn_firstn_le {A : Type} (i j : nat) (l : list A) :
  (i <= j)%nat -> firstn i (firstn j l) = firstn i l.
Proof.
  intros H. rewrite firstn_firstn.
  replace (Nat.min i j) with i by lia. reflexivity.
Qed.

Lemma filter_length_le {A : Type} (f : A -> bool) (l : list A) :
  (length (List.filter f l) <= length l)%nat.
Proof. induction l as [|x l IH]; simpl; [lia|]. destruct (f x); simpl; lia. Qed.

(** X13.  [save_to_history] does nothing without results or without a
    session id.  Otherwise it writes one document under the session id
    and puts its summary at the head of the in-memory history, which
    never holds more than 50 summaries.  The summary holds the number of
    results, the number of results with a make (a [makes] that is neither
    empty nor NOT_FOUND), the range and the total of the session, and a
    preview of the three highest-ranked makes. *)
Theorem X13_save_to_history_records_the_run
    (env : Env) (s : ProcessingState) (w : World) :
  let out := save_to_history env s w in
  (results s = [] \/ current_session_id s = None ->
     out = (Ret None, s, w))
  /\ (forall id : string,
        results s <> [] -> current_session_id s = Some id ->
        disk_ok env (writes w) = true ->
        exists summary : HistorySummary,
          answer_of out = Ret (Some (history_path id))
          /\ history (state_of out) = firstn 50 (summary :: history s)
          /\ (length (history (state_of out)) <= 50)%nat
          /\ h_id summary = id
          /\ h_total_processed summary = length (results s)
          /\ h_successful_lookups summary
             = length (List.filter is_found (results s))
          /\ (h_successful_lookups summary <= h_total_processed summary)%nat
          /\ h_start_index summary = start_index s
          /\ h_end_index summary = end_index s
          /\ h_total_parts_in_file summary = total_parts s
          /\ h_top_makes summary = get_top_makes (make_leaderboard s) 3
          /\ same_session (set_history (history (state_of out)) s) (state_of out)
          /\ sessions (world_of out) = sessions w
          /\ history_files (world_of out)
             = <[id := {| he_summary := summary;
                          he_results := results s;
                          he_leaderboard := make_leaderboard s;
                          he_automotive_count := parts_count automotive (parts_data s);
                          he_tools_count := parts_count tools (parts_data s);
                          he_unknown_count := parts_count unknown (parts_data s) |}]>
                 (history_files w)).
Proof.
  cbn zeta. unfold save_to_history, answer_of, state_of, world_of. munfold.
  split.
  - intros [H|H]; rewrite H; [reflexivity|].
    destruct (results s); reflexivity.
  - intros id Hres Hid Hdisk.
    destruct (results s) as [|r rs] eqn:E; [congruence|].
    rewrite Hid, Hdisk. cbn [fst snd]. eexists. repeat apply conj; try reflexivity.
    + match goal with |- (length ?h <= 50)%nat =>
        assert (exists l, h = firstn 50 l) as [l ->] by (eexists; reflexivity)
      end.
      rewrite length_firstn. lia.
    + cbn [h_successful_lookups h_total_processed]. apply filter_length_le.
    + cbn [h_top_makes]. unfold get_top_makes.
      change (firstn 3 (firstn 5 (sorted_makes (make_leaderboard s)))
              = firstn 3 (sorted_makes (make_leaderboard s))).
      apply firstn_firstn_le. lia.
    + constructor; reflexivity.
Qed.

(** A run of two records, the first with a make and the second without:
    the summary counts two results and one successful lookup. *)
Lemma X13_save_to_history_records_the_run_witness :
  let s := set_results [ part_result_of (Scenario.brake_pad 0) (Some ["Ford"]);
                         not_found_result (Scenario.brake_pad 1) ]
             (set_current_session_id (Some "session-1") (Scenario.loaded 2)) in
  exists summary : HistorySummary,
    history (state_of (save_to_history Scenario.calm s initial_world))
    = firstn 50 (summary :: history s)
    /\ h_total_processed summary = 2%nat
    /\ h_successful_lookups summary = 1%nat
    /\ h_top_makes summary = get_top_makes (make_leaderboard s) 3.
Proof.
  cbn zeta.
  destruct (proj2 (X13_save_to_history_records_the_run Scenario.calm
              (set_results [ part_result_of (Scenario.brake_pad 0) (Some ["Ford"]);
                             not_found_result (Scenario.brake_pad 1) ]
                 (set_current_session_id (Some "session-1")
                    (Scenario.loaded 2))) initial_world)
              "session-1")
    as (summary & _ & H1 & _ & _ & Ht & Hf & _ & _ & _ & _ & H2 & _).
  - discriminate.
  - reflexivity.
  - reflexivity.
  - exists summary. split; [exact H1|]. split; [exact Ht|].
    split; [exact Hf | exact H2].
Defined.

Lemma history_files_after_save (env : Env) (s : ProcessingState) (w : World)
    (id : string) :
  results s <> [] -> current_session_id s = Some id ->
  disk_ok env (writes w) = true ->
  exists entry : HistoryEntry,
    history_files (world_of (save_to_history env s w))
    = <[id := entry]> (history_files w)
    /\ he_results entry = results s
    /\ he_leaderboard entry = make_leaderboard s
    /\ h_id (he_summary entry) = id.
Proof.
  intros Hres Hid Hdisk. unfold save_to_history, world_of. munfold.
  destruct (results s) as [|r rs] eqn:E; [congruence|].
  rewrite Hid, Hdisk. cbn [fst snd]. eexists. repeat apply conj; reflexivity.
Qed.

(** X14.  A history round trip: after [save_to_history] the entry can be
    fetched and viewed under the session id, and what comes back is the
    result log and the leaderboard of the run; fetching or viewing leaves
    the state and the files as they are.  An id without a file is
    answered with 404. *)
Theorem X14_history_entry_reads_back
    (env : Env) (s later : ProcessingState) (w : World) (id : string) :
  results s <> [] -> current_session_id s = Some id ->
  disk_ok env (writes w) = true ->
  let saved := world_of (save_to_history env s w) in
  (exists entry : HistoryEntry,
     get_history_entry id later saved = (Ret (Returned entry), later, saved)
     /\ view_history_entry id later saved
        = (Ret (Returned {| v_entry := entry; v_results := results s;
                            v_leaderboard := make_leaderboard s;
                            v_summary := he_summary entry |}), later, saved)
     /\ he_results entry = results s
     /\ he_leaderboard entry = make_leaderboard s
     /\ h_id (he_summary entry) = id)
  /\ (forall other : string,
        history_files saved !! other = None ->
        get_history_entry other later saved = (Ret (Raised 404), later, saved)
        /\ view_history_entry other later saved
           = (Ret (Raised 404), later, saved)).
Proof.
  intros Hres Hid Hdisk. cbn zeta.
  destruct (history_files_after_save env s w id Hres Hid Hdisk)
    as [entry [Hf [H1 [H2 H3]]]].
  unfold get_history_entry, view_history_entry, load_history_entry,
    except_http_exception.
  munfold. split.
  - exists entry. rewrite Hf, lookup_insert_eq.
    rewrite <- H1, <- H2. repeat apply conj; auto.
  - intros other Hn. rewrite Hn. auto.
Qed.


Lemma X14_history_entry_reads_back_witness :
  let s := set_results [not_found_result (Scenario.brake_pad 0)]
             (set_current_session_id (Some "session-1") (Scenario.loaded 2)) in
  exists entry : HistoryEntry,
    get_history_entry "session-1" initial_state
      (world_of (save_to_history Scenario.calm s initial_world))
    = (Ret (Returned entry), initial_state,
       world_of (save_to_history Scenario.calm s initial_world))
    /\ he_results entry = results s.
Proof.
  cbn zeta.
  destruct (proj1 (X14_history_entry_reads_back Scenario.calm
              (set_results [not_found_result (Scenario.brake_pad 0)]
                 (set_current_session_id (Some "session-1")
                    (Scenario.loaded 2)))
              initial_state initial_world "session-1"
              ltac:(discriminate) eq_refl eq_refl))
    as (entry & H1 & _ & H2 & _).
  exists entry. split; assumption.
Defined.

Lemma filter_keeps_others (entry_id : string) (h : list HistorySummary) :
  let kept :=
    List.filter (fun x => negb (String.eqb (h_id x) entry_id)) h in
  Forall (fun x => h_id x <> entry_id) kept
  /\ (forall x : HistorySummary, h_id x <> entry_id -> In x h -> In x kept)
  /\ (forall other : string, other <> entry_id ->
        List.filter (fun x => String.eqb (h_id x) other) kept
        = List.filter (fun x => String.eqb (h_id x) other) h).
Proof.
  cbn zeta. repeat apply conj.
  - apply List.Forall_forall. intros x Hx. apply filter_In in Hx.
    destruct Hx as [_ Hx]. apply negb_true_iff, String.eqb_neq in Hx. exact Hx.
  - intros x Hne Hin. apply filter_In. split; [exact Hin|].
    apply negb_true_iff, String.eqb_neq. exact Hne.
  - intros other Hne. induction h as [|x h IH]; [reflexivity|]. simpl.
    destruct (String.eqb (h_id x) entry_id) eqn:E; simpl.
    + apply String.eqb_eq in E.
      assert (String.eqb (h_id x) other = false) as ->
        by (apply String.eqb_neq; congruence).
      exact IH.
    + rewrite IH. reflexivity.
Qed.

(** X15.  [delete_history_entry] removes the file of one entry and every
    in-memory summary with that id; the summaries of other runs stay, in
    their order, and so do the other files.  Afterwards the entry cannot
    be fetched (404).  Without a file the answer is 404 and nothing
    changes, a summary of that id in memory included; a failing removal
    is answered with 500 and changes neither the files nor the
    summaries. *)
Theorem X15_delete_history_entry_forgets_one_run
    (env : Env) (entry_id : string) (s : ProcessingState) (w : World) :
  let out := delete_history_entry env entry_id s w in
  (history_files w !! entry_id = None ->
     out = (Ret (Raised 404), s, w))
  /\ (forall e : HistoryEntry,
        history_files w !! entry_id = Some e ->
        if disk_ok env (writes w)
        then answer_of out = Ret (Returned tt)
             /\ history_files (world_of out) = delete entry_id (history_files w)
             /\ sessions (world_of out) = sessions w
             /\ state_of out
                = set_history
                    (List.filter (fun h => negb (String.eqb (h_id h) entry_id))
                       (history s)) s
             /\ Forall (fun h => h_id h <> entry_id) (history (state_of out))
             /\ (forall other : string, other <> entry_id ->
                   List.filter (fun h => String.eqb (h_id h) other)
                     (history (state_of out))
                   = List.filter (fun h => String.eqb (h_id h) other) (history s))
             /\ answer_of (get_history_entry entry_id (state_of out) (world_of out))
                = Ret (Raised 404)
        else answer_of out = Ret (Raised 500)
             /\ state_of out = s
             /\ history_files (world_of out) = history_files w).
Proof.
  cbn zeta.
  unfold delete_history_entry, except_http_exception, unlink,
    answer_of, state_of, world_of.
  munfold. split.
  - intros Hn. rewrite Hn. reflexivity.
  - intros e He. rewrite He. destruct (disk_ok env (writes w)); cbn [fst snd].
    + destruct (filter_keeps_others entry_id (history s)) as [H1 [H2 H3]].
      repeat apply conj; try reflexivity.
      * exact H1.
      * exact H3.
      * unfold get_history_entry, load_history_entry, except_http_exception.
        munfold. cbn [history_files set_history_files set_writes].
        rewrite lookup_delete_eq. reflexivity.
    + auto.
Qed.

Lemma X15_delete_history_entry_forgets_one_run_witness :
  let s := set_results [not_found_result (Scenario.brake_pad 0)]
             (set_current_session_id (Some "session-1") (Scenario.loaded 2)) in
  let saved := save_to_history Scenario.calm s initial_world in
  answer_of (delete_history_entry Scenario.calm "session-1"
               (state_of saved) (world_of saved))
  = Ret (Returned tt).
Proof.
  cbn zeta.
  refine (proj1 (proj2 (X15_delete_history_entry_forgets_one_run Scenario.calm
            "session-1" _ _) _ _)).
  vm_compute. reflexivity.
Defined.

Lemma remove_first_absent (x : conn) (l : list conn) :
  ~ In x l -> remove_first x l = l.
Proof.
  induction l as [|y l IH]; intros H; simpl; [reflexivity|].
  destruct (Nat.eqb_spec y x) as [->|Hne].
  - exfalso. apply H. left. reflexivity.
  - rewrite IH; [reflexivity|]. intros Hin. apply H. right. exact Hin.
Qed.

Lemma remove_first_snoc (x : conn) (l : list conn) :
  ~ In x l -> remove_first x (l ++ [x]) = l.
Proof.
  induction l as [|y l IH]; intros H; simpl.
  - rewrite Nat.eqb_refl. reflexivity.
  - destruct (Nat.eqb_spec y x) as [->|Hne].
    + exfalso. apply H. left. reflexivity.
    + rewrite IH; [reflexivity|]. intros Hin. apply H. right. exact Hin.
Qed.

Lemma remove_first_In (x y : conn) (l : list conn) :
  In y (remove_first x l) -> In y l.
Proof.
  induction l as [|z l IH]; simpl; [auto|].
  destruct (Nat.eqb z x); simpl; intuition.
Qed.

Lemma remove_first_NoDup (x : conn) (l : list conn) :
  List.NoDup l ->
  List.NoDup (remove_first x l)
  /\ forall y : conn, In y (remove_first x l) <-> In y l /\ y <> x.
Proof.
  induction 1 as [|z l Hz Hl IH]; simpl.
  - split; [constructor|]. intros y. tauto.
  - destruct IH as [IH1 IH2]. destruct (Nat.eqb_spec z x) as [->|Hne].
    + split; [exact Hl|]. intros y. split.
      * intros Hy. split; [auto|]. intros ->. contradiction.
      * intros [[->|Hy] Hne]; [congruence|exact Hy].
    + split.
      * constructor; [|exact IH1]. intros Hin. apply IH2 in Hin. tauto.
      * intros y. simpl. rewrite IH2. split.
        -- intros [->|[Hy Hn]]; auto.
        -- intros [[->|Hy] Hn]; auto.
Qed.

Lemma elem_of_In (x : conn) (l : list conn) : x ∈ l <-> In x l.
Proof. apply list_elem_of_In. Qed.

Lemma connect_agree (websocket : conn) (s : ProcessingState) (w : World) :
  registries_agree s w -> ~ In websocket (active_connections w) ->
  registries_agree (state_of (connect websocket s w))
                   (world_of (connect websocket s w)).
Proof.
  intros [Hn Hc] Hnew. unfold connect, state_of, world_of. munfold.
  cbn [fst snd]. split; cbn [active_connections set_active_connections
                            connected_clients set_connected_clients].
  - apply (Permutation_NoDup (l := websocket :: active_connections w)).
    + apply Permutation_cons_append.
    + constructor; assumption.
  - rewrite Hc. apply set_eq. intros x.
    rewrite elem_of_union, elem_of_singleton, !elem_of_list_to_set,
      !elem_of_In, in_app_iff.
    simpl. intuition.
Qed.

Lemma disconnect_agree (websocket : conn) (s : ProcessingState) (w : World) :
  registries_agree s w ->
  registries_agree (state_of (disconnect websocket s w))
                   (world_of (disconnect websocket s w))
  /\ ~ In websocket (active_connections (world_of (disconnect websocket s w))).
Proof.
  intros [Hn Hc]. unfold registries_agree, disconnect, state_of, world_of.
  munfold.
  cbn [fst snd active_connections set_active_connections
       connected_clients set_connected_clients].
  destruct (remove_first_NoDup websocket _ Hn) as [H1 H2].
  repeat apply conj.
  - exact H1.
  - rewrite Hc. apply set_eq. intros x.
    rewrite elem_of_difference, elem_of_singleton, !elem_of_list_to_set,
      !elem_of_In, H2.
    tauto.
  - intros Hin. apply H2 in Hin. destruct Hin as [_ Hne]. congruence.
Qed.

Lemma broadcast_agree (env : Env) (m : Event) (s : ProcessingState) (w : World) :
  registries_agree s w ->
  registries_agree (state_of (broadcast env m s w))
                   (world_of (broadcast env m s w)).
Proof.
  intros [Hn Hc]. rewrite broadcast_spec.
  unfold registries_agree, state_of, world_of.
  cbn [fst snd active_connections set_active_connections set_delivered
       set_clock connected_clients set_connected_clients].
  split.
  - apply List.NoDup_filter. exact Hn.
  - rewrite Hc. apply set_eq. intros x.
    rewrite elem_of_difference, !elem_of_list_to_set, !elem_of_In,
      !filter_In, negb_true_iff.
    destruct (send_ok env (clock w) x); intuition congruence.
Qed.

(** X16.  The connection manager keeps its two registries in step: when
    the list of active connections and the set of connected clients hold
    the same connections, each once, they still do after a connection
    that is new is registered, after any disconnect and after any
    broadcast.  Registering a new connection and removing it again gives
    back the registries as they were; removing a connection that is not
    registered changes nothing; and when [websocket_endpoint] ends, its
    connection is not among the connected clients, whatever was served
    meanwhile. *)
Theorem X16_registries_stay_in_step
    (websocket : conn) (s : ProcessingState) (w : World) :
  registries_agree s w ->
  (~ In websocket (active_connections w) ->
     registries_agree (state_of (connect websocket s w))
                      (world_of (connect websocket s w))
     /\ (connect websocket;; disconnect websocket) s w = (Ret tt, s, w)
     /\ disconnect websocket s w = (Ret tt, s, w))
  /\ registries_agree (state_of (disconnect websocket s w))
                      (world_of (disconnect websocket s w))
  /\ ~ In websocket (active_connections (world_of (disconnect websocket s w)))
  /\ (forall (env : Env) (m : Event),
        registries_agree (state_of (broadcast env m s w))
                         (world_of (broadcast env m s w)))
  /\ (forall serving : M unit,
        websocket ∉ connected_clients
                      (state_of (websocket_endpoint websocket serving s w))).
Proof.
  intros Hagree.
  split; [intros Hnew; split; [|split]|split; [|split; [|split]]].
  - apply connect_agree; assumption.
  - unfold connect, disconnect. munfold.
    destruct Hagree as [Hn Hc]. destruct s, w.
    cbn [active_connections set_active_connections connected_clients
         set_connected_clients] in *.
    rewrite (remove_first_snoc _ _ Hnew). unfold set_active_connections,
      set_connected_clients. cbn.
    assert (({[websocket]} ∪ connected_clients0) ∖ {[websocket]}
            = connected_clients0) as ->; [|reflexivity].
    subst connected_clients0. apply set_eq. intros x.
    rewrite elem_of_difference, elem_of_union, elem_of_singleton,
      elem_of_list_to_set, elem_of_In.
    split; [tauto|]. intros Hx. split; [auto|]. intros ->. contradiction.
  - unfold disconnect. munfold.
    destruct Hagree as [Hn Hc]. destruct s, w.
    cbn [active_connections set_active_connections connected_clients
         set_connected_clients] in *.
    rewrite (remove_first_absent _ _ Hnew). unfold set_active_connections,
      set_connected_clients. cbn.
    assert (connected_clients0 ∖ {[websocket]} = connected_clients0) as ->;
      [|reflexivity].
    subst connected_clients0. apply set_eq. intros x.
    rewrite elem_of_difference, elem_of_singleton, elem_of_list_to_set,
      elem_of_In.
    split; [tauto|]. intros Hx. split; [auto|]. intros ->. contradiction.
  - apply (disconnect_agree websocket s w Hagree).
  - apply (disconnect_agree websocket s w Hagree).
  - intros env m. apply broadcast_agree. exact Hagree.
  - intros serving. unfold websocket_endpoint, try_finally, connect,
      disconnect, state_of.
    munfold.
    destruct (serving _ _) as [[r s1] w1]. cbn [fst snd].
    cbn [connected_clients set_connected_clients].
    rewrite elem_of_difference, elem_of_singleton. tauto.
Qed.

Lemma X16_registries_stay_in_step_witness :
  (connect 7%nat;; disconnect 7%nat) initial_state initial_world
  = (Ret tt, initial_state, initial_world).
Proof.
  refine (proj1 (proj2 (proj1 (X16_registries_stay_in_step 7%nat
            initial_state initial_world _) _))).
  - split; [constructor|reflexivity].
  - simpl. tauto.
Defined.

End StoreFacts.

(** * Runs *)

Section RunFacts.
Import Text Leaderboard Backend Frames Catalog Api Views.

Lemma slice_prefix {A : Type} (b : Z) (l : list A) :
  0 <= b -> slice 0 b l = firstn (Z.to_nat b) l.
Proof.
  intros Hb. unfold slice, clamp_index.
  destruct (Z.ltb_spec b 0); [lia|]. cbn [Z.ltb Z.compare Z.to_nat].
  rewrite Nat.min_0_r, Nat.sub_0_r. change (skipn 0 l) with l.
  destruct (Nat.le_ge_cases (Z.to_nat b) (length l)) as [Hle|Hge].
  - rewrite Nat.min_r by exact Hle. reflexivity.
  - rewrite Nat.min_l by exact Hge. rewrite !firstn_all2; [reflexivity|lia|lia].
Qed.

Lemma slice_suffix {A : Type} (a : Z) (l : list A) :
  0 <= a <= Z.of_nat (length l) ->
  slice a (Z.of_nat (length l)) l = skipn (Z.to_nat a) l.
Proof.
  intros Ha. unfold slice, clamp_index.
  destruct (Z.ltb_spec a 0); [lia|].
  destruct (Z.ltb_spec (Z.of_nat (length l)) 0); [lia|].
  rewrite Nat2Z.id, Nat.min_id, Nat.min_r by lia.
  apply firstn_all2. rewrite length_skipn. lia.
Qed.

(** X17.  The two defaults of [start_processing], with no run in
    progress and data loaded.  In test mode the indices of the request
    are ignored: the run covers the first 50 automotive records, or all
    of them when there are fewer, and is turned down only when there is
    none.  Without an end index the run goes from the start index to the
    last automotive record, and is accepted exactly when the start index
    is one of the positions of the list. *)
Theorem X17_start_defaults
    (env : Env) (s : ProcessingState) (w : World) (data : PartsData)
    (a : Z) (given : option Z) :
  is_processing s = false -> parts_data s = Some data ->
  let total := Z.of_nat (length (automotive data)) in
  let test :=
    start_processing env
      {| req_start_index := a; req_end_index := given; is_test := true |} s w in
  let open :=
    start_processing env
      {| req_start_index := a; req_end_index := None; is_test := false |} s w in
  (if Z.ltb 0 total
   then answer_of test
        = Ret (ProcessingStarted (new_session_id env) 0 (Z.min 50 total)
                 (firstn 50 (automotive data)))
        /\ start_index (state_of test) = 0
        /\ end_index (state_of test) = Z.min 50 total
   else test = (Ret (HTTPException 400 InvalidStartIndex), s, w))
  /\ (if Z.leb 0 a && Z.ltb a total
      then answer_of open
           = Ret (ProcessingStarted (new_session_id env) a total
                    (skipn (Z.to_nat a) (automotive data)))
           /\ start_index (state_of open) = a
           /\ end_index (state_of open) = total
      else open = (Ret (HTTPException 400 InvalidStartIndex), s, w)).
Proof.
  intros Hidle Hdata. cbn zeta.
  unfold start_processing, answer_of, state_of. munfold.
  rewrite Hidle, Hdata. cbn [is_test req_start_index req_end_index].
  set (total := Z.of_nat (length (automotive data))).
  split.
  - destruct (Z.ltb_spec 0 total) as [Hpos|Hzero].
    + assert (Z.ltb 0 0 || Z.geb 0 total = false) as ->.
      { cbn [Z.ltb Z.compare orb]. rewrite Z.geb_leb. apply Z.leb_gt.
        exact Hpos. }
      assert (Z.leb (Z.min 50 total) 0 = false) as -> by (apply Z.leb_gt; lia).
      assert (Z.gtb (Z.min 50 total) total = false) as ->
        by (rewrite Z.gtb_ltb; apply Z.ltb_ge; lia).
      cbn [fst snd]. repeat apply conj; try reflexivity.
      do 2 f_equal. rewrite slice_prefix by lia.
      destruct (Z.le_ge_cases total 50) as [Hle|Hge].
      * rewrite Z.min_r by exact Hle. subst total. rewrite Nat2Z.id.
        rewrite !firstn_all2; [reflexivity|lia|lia].
      * rewrite Z.min_l by lia. reflexivity.
    + assert (Z.ltb 0 0 || Z.geb 0 total = true) as ->.
      { cbn [Z.ltb Z.compare orb]. rewrite Z.geb_leb. apply Z.leb_le.
        exact Hzero. }
      reflexivity.
  - destruct (Z.leb_spec 0 a) as [Hlo|Hlo]; cbn [andb].
    + destruct (Z.ltb_spec a total) as [Hhi|Hhi].
      * assert (Z.ltb a 0 || Z.geb a total = false) as ->.
        { apply orb_false_iff. split; [apply Z.ltb_ge; exact Hlo|].
          rewrite Z.geb_leb. apply Z.leb_gt. exact Hhi. }
        assert (Z.leb total a = false) as -> by (apply Z.leb_gt; lia).
        assert (Z.gtb total total = false) as ->
          by (rewrite Z.gtb_ltb; apply Z.ltb_irrefl).
        cbn [fst snd]. repeat apply conj; try reflexivity.
        do 2 f_equal. subst total. apply slice_suffix. lia.
      * assert (Z.ltb a 0 || Z.geb a total = true) as ->.
        { apply orb_true_iff. right. rewrite Z.geb_leb. apply Z.leb_le.
          exact Hhi. }
        reflexivity.
    + assert (Z.ltb a 0 || Z.geb a total = true) as ->.
      { apply orb_true_iff. left. apply Z.ltb_lt. exact Hlo. }
      reflexivity.
Qed.

Lemma X17_start_defaults_witness :
  answer_of
    (start_processing Scenario.calm
       {| req_start_index := 7; req_end_index := Some 9; is_test := true |}
       (Scenario.loaded 3) initial_world)
  = Ret (ProcessingStarted "session-1" 0 (Z.min 50 3)
           (firstn 50 (automotive (Scenario.catalog 3)))).
Proof.
  exact (proj1 (proj1 (X17_start_defaults Scenario.calm (Scenario.loaded 3)
           initial_world (Scenario.catalog 3) 7 (Some 9) eq_refl eq_refl))).
Defined.


Lemma await_idle (env : Env) (i : nat) (p : AwaitPoint)
    (s : ProcessingState) (w : World) :
  stop_at env = None -> await env i p s w = (Ret tt, s, w).
Proof. intros H. unfold await. rewrite H. reflexivity. Qed.

Lemma search_rockauto_calm (env : Env) (p : Part)
    (s : ProcessingState) (w : World) :
  should_stop s = false -> browser_usable s ->
  search_rockauto env p s w
  = (Ret (fetch env p), set_detector (Some Live) s, w).
Proof.
  intros Hs Hb. unfold search_rockauto. munfold.
  rewrite Hs, andb_false_r. destruct Hb as [-> | ->]; reflexivity.
Qed.

Lemma save_session_ok (env : Env) (s : ProcessingState) (w : World) (id : string) :
  current_session_id s = Some id -> disk_ok env (writes w) = true ->
  save_session env s w
  = (Ret (Some (session_path id)),
     set_session_file (Some (session_path id)) s,
     set_sessions (<[id := session_data_of id s]> (sessions w))
       (set_writes (S (writes w)) w)).
Proof.
  intros Hid Hd. unfold save_session. munfold. rewrite Hid, Hd. reflexivity.
Qed.

Lemma save_session_no_id (env : Env) (s : ProcessingState) (w : World) :
  current_session_id s = None -> save_session env s w = (Ret None, s, w).
Proof. intros Hid. unfold save_session. munfold. rewrite Hid. reflexivity. Qed.

Lemma filter_all_true {A : Type} (f : A -> bool) (l : list A) :
  (forall x, f x = true) -> List.filter f l = l.
Proof.
  intros H. induction l as [|x l IH]; simpl; [reflexivity|].
  rewrite H, IH. reflexivity.
Qed.

(** One record of a run that nothing interferes with. *)
Lemma loop_body_calm (env : Env) (start_idx : Z) (i : nat) (p : Part)
    (results0 : list Result) (s : ProcessingState) (w : World) :
  stop_at env = None -> (forall n, disk_ok env n = true) ->
  should_stop s = false -> browser_usable s ->
  let x := lookup_result env p in
  exists s' w',
    loop_body env start_idx i p results0 s w = (Ret (results0 ++ [x]), s', w')
    /\ results s' = results0 ++ [x]
    /\ processed_count s' = next_count i (processed_count s)
    /\ make_leaderboard s'
       = update_leaderboard (make_leaderboard s) (makes x) (qty (part x))
    /\ same_run s s'
    /\ should_stop s' = false /\ detector s' = Some Live
    /\ history_files w' = history_files w
    /\ stop_pending w' = stop_pending w
    /\ ((forall n c, send_ok env n c = true) ->
        active_connections w' = active_connections w
        /\ delivered w'
           = delivered w
             ++ map (fun c =>
                       (c, Progress (start_idx + Z.of_nat i) (total_parts s)
                             (processed_count s + Z.of_nat i + 1)
                             (length (List.filter is_found results0))
                             (get_top_makes (make_leaderboard s) 10)
                             (part_number p) (description p)))
                    (active_connections w)
             ++ map (fun c =>
                       (c, ResultEv (start_idx + Z.of_nat i) x
                             (get_top_makes (make_leaderboard s') 10)))
                    (active_connections w)).
Proof.
  intros Hstop Hdisk Hflag Husable. cbn zeta.
  unfold loop_body. munfold.
  rewrite broadcast_spec. cbv beta iota zeta.
  rewrite (await_idle _ _ _ _ _ Hstop). cbv beta iota zeta.
  rewrite search_rockauto_calm; [|exact Hflag|exact Husable].
  cbv beta iota zeta.
  change ((Z.of_nat i + 1) mod 10 =? 0) with (is_checkpoint i).
  fold (lookup_result env p).
  set (x := lookup_result env p).
  set (s4 := set_make_leaderboard _ _).
  set (w2 := set_active_connections _ _).
  assert (same_run s s4) as R4 by (subst s4; constructor; reflexivity).
  assert (results s4 = results0 ++ [x]) as Hr4 by reflexivity.
  assert (processed_count s4 = next_count i (processed_count s)) as Hc4
    by reflexivity.
  assert (make_leaderboard s4
          = update_leaderboard (make_leaderboard s) (makes x) (qty (part x)))
    as Hl4 by reflexivity.
  assert (should_stop s4 = false) as Hs4 by exact Hflag.
  assert (detector s4 = Some Live) as Hd4 by reflexivity.
  assert (history_files w2 = history_files w) as Hh2 by reflexivity.
  assert (stop_pending w2 = stop_pending w) as Hp2 by reflexivity.
  assert ((forall n c, send_ok env n c = true) ->
          active_connections w2 = active_connections w
          /\ delivered w2
             = delivered w
               ++ map (fun c =>
                         (c, Progress (start_idx + Z.of_nat i) (total_parts s)
                               (processed_count s + Z.of_nat i + 1)
                               (length (List.filter is_found results0))
                               (get_top_makes (make_leaderboard s) 10)
                               (part_number p) (description p)))
                      (active_connections w)) as Hev2.
  { intros Hsend. subst w2.
    cbn [active_connections delivered set_active_connections set_delivered
         set_clock].
    rewrite (filter_all_true _ _ (Hsend (clock w))). split; reflexivity. }
  clearbody s4 w2 x.
  assert (forall s5 w5,
            same_session s4 s5 -> should_stop s5 = should_stop s4 ->
            detector s5 = detector s4 ->
            history_files w5 = history_files w2 ->
            stop_pending w5 = stop_pending w2 ->
            active_connections w5 = active_connections w2 ->
            delivered w5 = delivered w2 ->
            exists s' w',
              (let (p1, w'1) :=
                 broadcast env
                   (ResultEv (start_idx + Z.of_nat i) x
                      (get_top_makes (make_leaderboard s5) 10)) s5 w5 in
               let (r1, s'1) := p1 in
               match r1 with
               | Ret _ =>
                   let (p2, w'2) := await env i AtResult s'1 w'1 in
                   let (r2, s'2) := p2 in
                   match r2 with
                   | Ret _ => (Ret (results0 ++ [x]), s'2, w'2)
                   | Exn e => (Exn e, s'2, w'2)
                   end
               | Exn e => (Exn e, s'1, w'1)
               end) = (Ret (results0 ++ [x]), s', w')
              /\ results s' = results0 ++ [x]
              /\ processed_count s' = next_count i (processed_count s)
              /\ make_leaderboard s'
                 = update_leaderboard (make_leaderboard s) (makes x)
                     (qty (part x))
              /\ same_run s s'
              /\ should_stop s' = false /\ detector s' = Some Live
              /\ history_files w' = history_files w
              /\ stop_pending w' = stop_pending w
              /\ ((forall n c, send_ok env n c = true) ->
                  active_connections w' = active_connections w
                  /\ delivered w'
                     = delivered w
                       ++ map (fun c =>
                                 (c, Progress (start_idx + Z.of_nat i)
                                       (total_parts s)
                                       (processed_count s + Z.of_nat i + 1)
                                       (length (List.filter is_found results0))
                                       (get_top_makes (make_leaderboard s) 10)
                                       (part_number p) (description p)))
                              (active_connections w)
                       ++ map (fun c =>
                                 (c, ResultEv (start_idx + Z.of_nat i) x
                                       (get_top_makes (make_leaderboard s') 10)))
                              (active_connections w))) as Htail.
  { intros s5 w5 F5 St5 Hd5 Hh5 Hp5 Ha5 Hdl5.
    rewrite broadcast_spec. cbv beta iota zeta.
    rewrite (await_idle _ _ _ _ _ Hstop).
    eexists _, _. split; [reflexivity|].
    pose proof (ss_results _ _ F5) as E1.
    pose proof (ss_processed_count _ _ F5) as E2.
    pose proof (ss_make_leaderboard _ _ F5) as E3.
    cbn [results processed_count make_leaderboard should_stop detector
         set_connected_clients history_files stop_pending active_connections
         delivered set_active_connections set_delivered set_clock].
    repeat apply conj; try congruence.
    - apply (same_run_trans _ s5); [|constructor; reflexivity].
      apply (same_run_trans _ s4); [exact R4|].
      apply same_session_run. exact F5.
    - intros Hsend. destruct (Hev2 Hsend) as [Ha2 Hdl2].
      rewrite (filter_all_true _ _ (Hsend (clock w5))).
      split; [congruence|].
      rewrite Hdl5, Hdl2, Ha5, Ha2, <- app_assoc.
      rewrite E3. reflexivity. }
  destruct (is_checkpoint i).
  - unfold when.
    destruct (current_session_id s4) as [id|] eqn:Hid.
    + rewrite (save_session_ok env s4 w2 id Hid (Hdisk _)).
      cbv beta iota zeta.
      apply Htail; try reflexivity. constructor; reflexivity.
    + rewrite (save_session_no_id env s4 w2 Hid). cbv beta iota zeta.
      apply Htail; try reflexivity. apply same_session_refl.
  - cbv beta iota zeta.
    apply Htail; try reflexivity. apply same_session_refl.
Qed.


Lemma reported_counts_app (a b : list Event) :
  reported_counts (a ++ b) = reported_counts a ++ reported_counts b.
Proof.
  induction a as [|e a IH]; [reflexivity|].
  destruct e; simpl; rewrite IH; reflexivity.
Qed.

Lemma reported_indices_app (a b : list Event) :
  reported_indices (a ++ b) = reported_indices a ++ reported_indices b.
Proof.
  induction a as [|e a IH]; [reflexivity|].
  destruct e; simpl; rewrite IH; reflexivity.
Qed.

Lemma round_absent (c : conn) (m : Event) (l : list conn) :
  ~ In c l ->
  List.filter (fun d => Nat.eqb (fst d) c) (map (fun x => (x, m)) l) = [].
Proof.
  induction l as [|z l IH]; intros H; [reflexivity|].
  cbn [map List.filter fst].
  destruct (Nat.eqb_spec z c) as [->|Hz].
  - exfalso. apply H. left. reflexivity.
  - apply IH. intros Hin. apply H. right. exact Hin.
Qed.

Lemma inbox_of_round (c : conn) (m : Event) (l : list conn) :
  List.NoDup l -> In c l ->
  map snd (List.filter (fun d => Nat.eqb (fst d) c) (map (fun x => (x, m)) l))
  = [m].
Proof.
  induction 1 as [|y l Hy Hl IH]; intros Hin; [destruct Hin|].
  cbn [map List.filter fst]. destruct (Nat.eqb_spec y c) as [->|Hne].
  - rewrite (round_absent c m l Hy). reflexivity.
  - apply IH. destruct Hin as [->|Hin]; [congruence|exact Hin].
Qed.

Lemma inbox_two_rounds (c : conn) (w w' : World) (m1 m2 : Event) (l : list conn) :
  List.NoDup l -> In c l ->
  delivered w' = delivered w ++ map (fun x => (x, m1)) l
                             ++ map (fun x => (x, m2)) l ->
  inbox c w' = inbox c w ++ [m1; m2].
Proof.
  intros Hn Hin Hd. unfold inbox. rewrite Hd, !List.filter_app, !map_app.
  rewrite !(inbox_of_round c _ l Hn Hin). reflexivity.
Qed.

Lemma next_count_step (k : Z) (i : nat) :
  0 <= k -> next_count i (k + Z.of_nat i) = k + Z.of_nat (S i).
Proof.
  intros Hk. unfold next_count.
  destruct (Z.eqb_spec (k + Z.of_nat i) 0); lia.
Qed.

(** A batch that nothing interferes with, from record [i] on; [k] is the
    count the run started from. *)
Lemma batch_loop_calm (env : Env) (start_idx : Z) (k : Z) :
  stop_at env = None -> (forall n, disk_ok env n = true) -> 0 <= k ->
  forall (parts : list Part) (i : nat) (results0 : list Result)
         (s : ProcessingState) (w : World),
    should_stop s = false -> browser_usable s ->
    processed_count s = k + Z.of_nat i ->
    exists s' w',
      batch_loop env start_idx i parts results0 s w
      = (Ret (results0 ++ map (lookup_result env) parts), s', w')
      /\ (parts <> [] ->
          results s' = results0 ++ map (lookup_result env) parts)
      /\ processed_count s' = k + Z.of_nat (i + length parts)
      /\ make_leaderboard s'
         = board_after (make_leaderboard s) (map (lookup_result env) parts)
      /\ same_run s s'
      /\ should_stop s' = false /\ browser_usable s'
      /\ history_files w' = history_files w
      /\ stop_pending w' = stop_pending w
      /\ ((forall n c, send_ok env n c = true) ->
          List.NoDup (active_connections w) ->
          active_connections w' = active_connections w
          /\ forall c : conn, In c (active_connections w) ->
               reported_counts (inbox c w')
               = reported_counts (inbox c w)
                 ++ map (fun j => k + 2 * Z.of_nat j + 1) (seq i (length parts))
               /\ reported_indices (inbox c w')
                  = reported_indices (inbox c w)
                    ++ map (fun j => start_idx + Z.of_nat j)
                         (seq i (length parts))).
Proof.
  intros Hstop Hdisk Hk parts.
  induction parts as [|p parts IH]; intros i results0 s w Hflag Husable Hcount.
  - exists s, w. cbn [batch_loop map length seq]. munfold.
    rewrite app_nil_r, Nat.add_0_r.
    repeat apply conj; try reflexivity; try assumption.
    + congruence.
    + apply same_run_refl.
    + intros Hsend Hn. split; [reflexivity|]. intros c Hc.
      rewrite !app_nil_r. split; reflexivity.
  - rewrite batch_loop_step by exact Hflag.
    destruct (loop_body_calm env start_idx i p results0 s w
                Hstop Hdisk Hflag Husable)
      as (s1 & w1 & E1 & Hr1 & Hc1 & Hl1 & R1 & Hf1 & Hd1 & Hh1 & Hp1 & Hev1).
    cbn zeta in *. rewrite E1.
    destruct (IH (S i) (results0 ++ [lookup_result env p]) s1 w1 Hf1)
      as (s2 & w2 & E2 & Hr2 & Hc2 & Hl2 & R2 & Hf2 & Hu2 & Hh2 & Hp2 & Hev2).
    { right. exact Hd1. }
    { rewrite Hc1, Hcount. apply next_count_step. exact Hk. }
    exists s2, w2. cbn [map length].
    rewrite <- app_assoc in E2. cbn [app] in E2.
    repeat apply conj; try assumption; try congruence.
    + intros _. destruct parts as [|q parts].
      * cbn [batch_loop] in E2. unfold mret, M_ret, ret in E2.
        assert (s2 = s1) as -> by congruence.
        rewrite Hr1. reflexivity.
      * rewrite Hr2 by discriminate. rewrite <- app_assoc. reflexivity.
    + rewrite Hc2. f_equal. lia.
    + rewrite Hl2, Hl1. reflexivity.
    + apply (same_run_trans _ s1); assumption.
    + intros Hsend Hn. destruct (Hev1 Hsend) as [Ha1 Hdl1].
      destruct (Hev2 Hsend ltac:(rewrite Ha1; exact Hn)) as [Ha2 Hin2].
      split; [congruence|]. intros c Hc.
      destruct (Hin2 c ltac:(rewrite Ha1; exact Hc)) as [Hq1 Hq2].
      rewrite (inbox_two_rounds c w w1 _ _ _ Hn Hc Hdl1) in Hq1, Hq2.
      rewrite reported_counts_app in Hq1.
      rewrite reported_indices_app in Hq2.
      cbn [reported_counts reported_indices app] in Hq1, Hq2.
      rewrite Hq1, Hq2, <- !app_assoc. cbn [seq map app].
      rewrite Hcount. split; [|reflexivity].
      f_equal. f_equal. lia.
Qed.


Lemma save_to_history_ok (env : Env) (s : ProcessingState) (w : World)
    (id : string) :
  results s <> [] -> current_session_id s = Some id ->
  disk_ok env (writes w) = true ->
  save_to_history env s w
  = (Ret (Some (history_path id)),
     set_history (slice_to 50 (summary_of id s :: history s)) s,
     set_history_files (<[id := entry_of id s]> (history_files w))
       (set_writes (S (writes w)) w)).
Proof.
  intros Hres Hid Hdisk. unfold save_to_history. munfold.
  destruct (results s) as [|r rs] eqn:E; [congruence|].
  rewrite Hid, Hdisk. unfold entry_of, summary_of. rewrite E. reflexivity.
Qed.

Lemma close_browser_usable (s : ProcessingState) (w : World) :
  browser_usable s ->
  _close_browser s w = (Ret tt, set_detector (Some NoDriver) s, w)
  \/ _close_browser s w = (Ret tt, s, w) /\ detector s = Some NoDriver.
Proof.
  intros [H|H]; unfold _close_browser; munfold; rewrite H; auto.
Qed.

Lemma map_nonempty {A B : Type} (f : A -> B) (l : list A) :
  l <> [] -> map f l <> [].
Proof. destruct l; [congruence|discriminate]. Qed.

(** A whole task that nothing interferes with, in closed form. *)
Lemma background_calm (env : Env) (parts : list Part) (start_idx : Z)
    (s : ProcessingState) (w : World) (id : string) :
  stop_at env = None -> (forall n, disk_ok env n = true) ->
  should_stop s = false -> browser_usable s ->
  0 <= processed_count s -> current_session_id s = Some id -> parts <> [] ->
  let rs := map (lookup_result env) parts in
  exists s2 w2 s3,
    batch_loop env start_idx 0 parts [] s w = (Ret rs, s2, w2)
    /\ results s3 = rs
    /\ processed_count s3 = processed_count s + Z.of_nat (length parts)
    /\ make_leaderboard s3 = board_after (make_leaderboard s) rs
    /\ is_processing s3 = false /\ should_stop s3 = false
    /\ detector s3 = Some NoDriver
    /\ current_session_id s3 = Some id
    /\ error_message s3 = error_message s
    /\ history s3 = slice_to 50 (summary_of id s3 :: history s)
    /\ session_data_of id s3 = session_data_of id (set_results rs s2)
    /\ connected_clients s3 = connected_clients s2
    /\ process_parts_background env parts start_idx s w
       = broadcast env
           (Completed (length rs) (length (List.filter not_not_found rs)))
           s3
           (set_history_files
              (<[id := entry_of id s3]> (history_files w2))
              (set_writes (S (S (writes w2)))
                 (set_sessions
                    (<[id := session_data_of id s3]> (sessions w2)) w2))).
Proof.
  intros Hstop Hdisk Hflag Husable Hk Hid Hne. cbn zeta.
  destruct (batch_loop_calm env start_idx (processed_count s) Hstop Hdisk Hk
              parts 0%nat [] s w Hflag Husable ltac:(simpl; lia))
    as (s2 & w2 & E2 & Hr2 & Hc2 & Hl2 & R2 & Hf2 & Hu2 & Hh2 & Hp2 & Hev2).
  cbn [app] in E2, Hr2. specialize (Hr2 Hne).
  set (rs := map (lookup_result env) parts) in *.
  set (s3 :=
         set_history (slice_to 50 (summary_of id
             (set_is_processing false (set_results rs
                (set_detector (Some NoDriver) s2))) :: history s2))
           (set_session_file (Some (session_path id))
              (set_is_processing false (set_results rs
                 (set_detector (Some NoDriver) s2))))).
  exists s2, w2, s3. split; [exact E2|].
  assert (current_session_id s2 = Some id) as Hid2
    by (rewrite (sr_current_session_id _ _ R2); exact Hid).
  repeat apply conj; try reflexivity.
  - exact Hc2.
  - exact Hl2.
  - exact Hf2.
  - exact Hid2.
  - subst s3. cbn. rewrite (sr_error_message _ _ R2). reflexivity.
  - subst s3. cbn. rewrite (sr_history _ _ R2). reflexivity.
  - unfold process_parts_background, try_except. munfold.
    assert (exists d, detector s = Some d) as [d Hd]
      by (destruct Husable as [H|H]; rewrite H; eauto).
    rewrite Hd. unfold process_parts_batch_async. munfold.
    rewrite slice_to_all, E2.
    destruct (close_browser_usable s2 w2 Hu2) as [Ec|[Ec Hd2]];
      rewrite Ec; cbv beta iota zeta.
    + change (should_stop (set_detector (Some NoDriver) s2))
        with (should_stop s2).
      rewrite Hf2. cbn [negb].
      rewrite (save_session_ok env _ _ id); [|exact Hid2|apply Hdisk].
      cbv beta iota zeta.
      rewrite (save_to_history_ok env _ _ id);
        [|apply map_nonempty; exact Hne|exact Hid2|apply Hdisk].
      cbv beta iota zeta.
      destruct (broadcast_frame env
                  (Completed (length rs) (length (List.filter not_not_found rs)))
                  s3
                  (set_history_files
                     (<[id := entry_of id s3]> (history_files w2))
                     (set_writes (S (S (writes w2)))
                        (set_sessions
                           (<[id := session_data_of id s3]> (sessions w2)) w2))))
        as (s4 & w4 & E4 & _).
      rewrite E4. subst s3.
      match goal with |- context [broadcast env ?m ?a ?b] =>
        match type of E4 with broadcast env m ?a' ?b' = _ =>
          change a with a'; change b with b'
        end
      end.
      rewrite E4. reflexivity.
    + assert (set_detector (Some NoDriver) s2 = s2) as Hsame
        by (destruct s2; cbn in Hd2; subst; reflexivity).
      rewrite Hf2. cbn [negb].
      rewrite (save_session_ok env _ _ id); [|exact Hid2|apply Hdisk].
      cbv beta iota zeta.
      rewrite (save_to_history_ok env _ _ id);
        [|apply map_nonempty; exact Hne|exact Hid2|apply Hdisk].
      cbv beta iota zeta.
      destruct (broadcast_frame env
                  (Completed (length rs) (length (List.filter not_not_found rs)))
                  s3
                  (set_history_files
                     (<[id := entry_of id s3]> (history_files w2))
                     (set_writes (S (S (writes w2)))
                        (set_sessions
                           (<[id := session_data_of id s3]> (sessions w2)) w2))))
        as (s4 & w4 & E4 & _).
      rewrite E4. subst s3. rewrite Hsame in *.
      match goal with |- context [broadcast env ?m ?a ?b] =>
        match type of E4 with broadcast env m ?a' ?b' = _ =>
          change a with a'; change b with b'
        end
      end.
      rewrite E4. reflexivity.
Qed.


(** X18.  A task that nobody stops and whose writes succeed processes
    every part it was handed, in order: the result log is the list of the
    lookup results, the count has grown by the number of parts, and the
    leaderboard is the one the task found, updated once per result.  The
    task ends idle with the browser closed and no error, the checkpoint
    on disk holds the final session, and the history has an entry for
    the run with the same results and leaderboard. *)
Theorem X18_uninterrupted_run_processes_every_part
    (env : Env) (parts : list Part) (start_idx : Z)
    (s : ProcessingState) (w : World) (id : string) :
  stop_at env = None -> (forall n, disk_ok env n = true) ->
  should_stop s = false -> browser_usable s ->
  0 <= processed_count s -> current_session_id s = Some id -> parts <> [] ->
  let out := process_parts_background env parts start_idx s w in
  let rs := map (lookup_result env) parts in
  answer_of out = Ret tt
  /\ results (state_of out) = rs
  /\ processed_count (state_of out)
     = processed_count s + Z.of_nat (length parts)
  /\ make_leaderboard (state_of out) = board_after (make_leaderboard s) rs
  /\ is_processing (state_of out) = false
  /\ should_stop (state_of out) = false
  /\ error_message (state_of out) = error_message s
  /\ detector (state_of out) = Some NoDriver
  /\ sessions (world_of out) !! id
     = Some (session_data_of id (state_of out))
  /\ history_files (world_of out) !! id = Some (entry_of id (state_of out))
  /\ history (state_of out)
     = firstn 50 (summary_of id (state_of out) :: history s).
Proof.
  intros Hstop Hdisk Hflag Husable Hk Hid Hne. cbn zeta.
  destruct (background_calm env parts start_idx s w id
              Hstop Hdisk Hflag Husable Hk Hid Hne)
    as (s2 & w2 & s3 & _ & Hr & Hc & Hl & Hp & Hf & Hd & Hi & He & Hh & _ & _ & E).
  cbn zeta in *. rewrite E, broadcast_spec. cbv zeta.
  unfold answer_of, state_of, world_of. cbn [fst snd].
  cbn [results processed_count make_leaderboard is_processing should_stop
       error_message detector history set_connected_clients
       sessions history_files set_active_connections set_delivered set_clock
       set_history_files set_writes set_sessions].
  repeat apply conj; try assumption; try reflexivity.
  - rewrite lookup_insert_eq. reflexivity.
  - rewrite lookup_insert_eq. reflexivity.
Qed.

Lemma X18_uninterrupted_run_processes_every_part_witness :
  results (state_of
    (process_parts_background Scenario.calm
       (automotive (Scenario.catalog 2)) 0 (Scenario.running Scenario.calm 2)
       initial_world))
  = map (lookup_result Scenario.calm) (automotive (Scenario.catalog 2)).
Proof.
  refine (proj1 (proj2 (X18_uninterrupted_run_processes_every_part
            Scenario.calm (automotive (Scenario.catalog 2)) 0
            (Scenario.running Scenario.calm 2) initial_world "session-1"
            eq_refl (fun _ => eq_refl) eq_refl _ _ eq_refl _))).
  - left. reflexivity.
  - vm_compute. discriminate.
  - discriminate.
Defined.

Lemma inbox_one_round (c : conn) (w w' : World) (m : Event) (l : list conn) :
  List.NoDup l -> In c l ->
  delivered w' = delivered w ++ map (fun x => (x, m)) l ->
  inbox c w' = inbox c w ++ [m].
Proof.
  intros Hn Hin Hd. unfold inbox. rewrite Hd, List.filter_app, map_app.
  rewrite (inbox_of_round c _ l Hn Hin). reflexivity.
Qed.

(** X19.  What an observer is told while a task runs undisturbed: one
    progress message and one result message per part, the result messages
    carrying the positions [start_idx, start_idx + 1, ...] of the parts
    in the catalog.  The [processed_count] of the progress message for
    the part at position [j] of the batch is the count the task started
    from plus [2 * j + 1], not plus [j + 1]: the worker adds [j + 1] to a
    count it has itself already raised [j] times.  The last message is
    the [completed] message with the number of results. *)
Theorem X19_progress_messages_count_twice
    (env : Env) (parts : list Part) (start_idx : Z)
    (s : ProcessingState) (w : World) (id : string) (c : conn) :
  stop_at env = None -> (forall n, disk_ok env n = true) ->
  (forall n x, send_ok env n x = true) ->
  should_stop s = false -> browser_usable s ->
  0 <= processed_count s -> current_session_id s = Some id -> parts <> [] ->
  List.NoDup (active_connections w) -> In c (active_connections w) ->
  let out := process_parts_background env parts start_idx s w in
  let n := length parts in
  reported_counts (inbox c (world_of out))
  = reported_counts (inbox c w)
    ++ map (fun j => processed_count s + 2 * Z.of_nat j + 1) (seq 0 n)
  /\ reported_indices (inbox c (world_of out))
     = reported_indices (inbox c w)
       ++ map (fun j => start_idx + Z.of_nat j) (seq 0 n)
  /\ last (inbox c (world_of out))
     = Some (Completed n
               (length (List.filter not_not_found
                          (map (lookup_result env) parts))))
  /\ active_connections (world_of out) = active_connections w.
Proof.
  intros Hstop Hdisk Hsend Hflag Husable Hk Hid Hne Hnd Hc. cbn zeta.
  destruct (background_calm env parts start_idx s w id
              Hstop Hdisk Hflag Husable Hk Hid Hne)
    as (s2 & w2 & s3 & E2 & _ & _ & _ & _ & _ & _ & _ & _ & _ & _ & _ & E).
  destruct (batch_loop_calm env start_idx (processed_count s) Hstop Hdisk Hk
              parts 0%nat [] s w Hflag Husable ltac:(simpl; lia))
    as (s2' & w2' & E2' & _ & _ & _ & _ & _ & _ & _ & _ & Hev).
  cbn zeta in *. cbn [app] in E2'. rewrite E2 in E2'.
  assert (w2' = w2) as -> by congruence.
  destruct (Hev Hsend Hnd) as [Ha Hin]. destruct (Hin c Hc) as [Hq1 Hq2].
  rewrite E, broadcast_spec. cbv zeta. unfold world_of. cbn [snd].
  cbn [active_connections clock set_history_files set_writes set_sessions].
  rewrite (filter_all_true _ _ (Hsend (clock w2))).
  set (done := Completed _ _).
  match goal with |- context [inbox c ?w3] =>
    assert (inbox c w3 = inbox c w2 ++ [done]) as Hinbox
      by (apply (inbox_one_round c w2 w3 done (active_connections w2));
          [rewrite Ha; exact Hnd|rewrite Ha; exact Hc|reflexivity])
  end.
  rewrite Hinbox, reported_counts_app, reported_indices_app, Hq1, Hq2.
  cbn [reported_counts reported_indices]. rewrite !app_nil_r.
  repeat apply conj; try reflexivity.
  - rewrite last_snoc. subst done. rewrite length_map. reflexivity.
  - exact Ha.
Qed.

Lemma X19_progress_messages_count_twice_witness :
  let w := world_of (connect 1%nat initial_state initial_world) in
  reported_counts
    (inbox 1%nat
       (world_of (process_parts_background Scenario.calm
                    (automotive (Scenario.catalog 3)) 0
                    (Scenario.running Scenario.calm 3) w)))
  = reported_counts (inbox 1%nat w)
    ++ map (fun j => processed_count (Scenario.running Scenario.calm 3)
                     + 2 * Z.of_nat j + 1) (seq 0 3).
Proof.
  refine (proj1 (X19_progress_messages_count_twice Scenario.calm
            (automotive (Scenario.catalog 3)) 0
            (Scenario.running Scenario.calm 3)
            (world_of (connect 1%nat initial_state initial_world))
            "session-1" 1%nat
            eq_refl (fun _ => eq_refl) (fun _ _ => eq_refl) eq_refl _ _
            eq_refl _ _ _)).
  - left. reflexivity.
  - vm_compute. discriminate.
  - discriminate.
  - repeat constructor. simpl. tauto.
  - left. reflexivity.
Defined.


Lemma batch_loop_frame (env : Env) (start_idx : Z) (parts : list Part) :
  forall (i : nat) (results0 : list Result) (s : ProcessingState) (w : World),
    exists r s' w',
      batch_loop env start_idx i parts results0 s w = (r, s', w')
      /\ same_run s s'.
Proof.
  induction parts as [|p parts IH]; intros i results0 s w.
  - eexists _, _, _. split; [reflexivity|apply same_run_refl].
  - destruct (should_stop s) eqn:Hs.
    + rewrite batch_loop_stopped by exact Hs.
      eexists _, _, _. split; [reflexivity|apply same_run_refl].
    + rewrite batch_loop_step by exact Hs.
      destruct (loop_body_outcome env start_idx i p results0 s w)
        as (r & x & s1 & w1 & E & _ & _ & R1 & Hr & _).
      rewrite E. destruct Hr as [-> | ->].
      * destruct (IH (S i) (results0 ++ [x]) s1 w1) as (r2 & s2 & w2 & E2 & R2).
        exists r2, s2, w2. split; [exact E2|].
        apply (same_run_trans _ s1); assumption.
      * eexists _, _, _. split; [reflexivity|exact R1].
Qed.

Lemma save_to_history_frame (env : Env) (s : ProcessingState) (w : World) :
  exists r s' w',
    save_to_history env s w = (r, s', w')
    /\ same_session (set_history (history s') s) s'.
Proof.
  unfold save_to_history. munfold.
  destruct (results s) as [|x rs].
  - eexists _, _, _. split; [reflexivity|]. constructor; reflexivity.
  - destruct (current_session_id s) as [id|].
    + destruct (disk_ok env (writes w));
        (eexists _, _, _; split; [reflexivity|]; constructor; reflexivity).
    + eexists _, _, _. split; [reflexivity|]. constructor; reflexivity.
Qed.

Lemma same_run_job (s s' : ProcessingState) : same_run s s' -> same_job s s'.
Proof. intros []. constructor; assumption. Qed.

Lemma same_session_job (s s' : ProcessingState) :
  same_session s s' -> same_job s s'.
Proof. intros []. constructor; assumption. Qed.

Lemma same_job_trans (s1 s2 s3 : ProcessingState) :
  same_job s1 s2 -> same_job s2 s3 -> same_job s1 s3.
Proof. intros [] []. constructor; etransitivity; eassumption. Qed.

(** The task's [except] clause. *)
Lemma background_handler (env : Env) (e : string) (s0 s : ProcessingState)
    (w : World) :
  same_job s0 s ->
  exists s' w',
    (modify (set_error_message (Some e));;
     modify (set_is_processing false);;
     broadcast env (ErrorEv ("Processing failed: " +:+ e))) s w
    = (Ret tt, s', w')
    /\ is_processing s' = false /\ same_job s0 s'
    /\ error_message s' = Some e
    /\ results s' = results s /\ processed_count s' = processed_count s
    /\ same_disk w w'.
Proof.
  intros J.
  destruct (broadcast_frame env (ErrorEv ("Processing failed: " +:+ e))
              (set_is_processing false (set_error_message (Some e) s)) w)
    as (s1 & w1 & E & F & _ & _ & D).
  munfold. rewrite E. exists s1, w1. split; [reflexivity|].
  repeat apply conj.
  - rewrite (ss_is_processing _ _ F). reflexivity.
  - apply (same_job_trans _ s); [exact J|].
    apply (same_job_trans _ (set_is_processing false
                               (set_error_message (Some e) s)));
      [constructor; reflexivity|apply same_session_job; exact F].
  - rewrite (ss_error_message _ _ F). reflexivity.
  - rewrite (ss_results _ _ F). reflexivity.
  - rewrite (ss_processed_count _ _ F). reflexivity.
  - exact D.
Qed.

(** X20.  However a task ends, it is caught: lookups that fail, sends
    that fail, writes that fail and a Stop request all leave
    [process_parts_background] returning normally with the running flag
    cleared, and the session id, the data and the range of the job
    untouched.  Without a detector the task processes nothing: the log
    and the count stay, nothing is written, and the error message names
    the missing detector. *)
Theorem X20_background_task_always_ends_idle
    (env : Env) (parts : list Part) (start_idx : Z)
    (s : ProcessingState) (w : World) :
  let out := process_parts_background env parts start_idx s w in
  answer_of out = Ret tt
  /\ is_processing (state_of out) = false
  /\ same_job s (state_of out)
  /\ (detector s = None ->
      error_message (state_of out)
        = Some "No detector found - data may not be loaded"
      /\ results (state_of out) = results s
      /\ processed_count (state_of out) = processed_count s
      /\ same_disk w (world_of out)).
Proof.
  cbn zeta. unfold process_parts_background, try_except. munfold.
  assert (same_job s s) as J0 by (constructor; reflexivity).
  destruct (detector s) as [d|] eqn:Hd.
  - unfold process_parts_batch_async. munfold.
    destruct (batch_loop_frame env start_idx
                (slice_to (Z.of_nat (length parts)) parts) 0 [] s w)
      as (r & s1 & w1 & E1 & R1).
    rewrite E1. destruct r as [rs|e].
    + destruct (close_browser_spec s1 w1) as (s2 & E2 & F2 & St2).
      rewrite E2. cbv beta iota zeta.
      assert (same_job s s2) as J2
        by (apply (same_job_trans _ s1);
            [apply same_run_job; exact R1|apply same_session_job; exact F2]).
      destruct (negb (should_stop s2)).
      * destruct (save_session_spec env
                    (set_is_processing false (set_results rs s2)) w1)
          as (r3 & s3 & w3 & E3 & F3 & _).
        rewrite E3.
        assert (same_job s s3) as J3.
        { apply (same_job_trans _ s2); [exact J2|].
          apply (same_job_trans _ (set_is_processing false (set_results rs s2)));
            [constructor; reflexivity|apply same_session_job; exact F3]. }
        assert (is_processing s3 = false) as P3
          by (rewrite (ss_is_processing _ _ F3); reflexivity).
        destruct r3 as [a3|e3].
        -- destruct (save_to_history_frame env s3 w3)
             as (r4 & s4 & w4 & E4 & F4).
           rewrite E4.
           assert (same_job s s4) as J4.
           { apply (same_job_trans _ s3); [exact J3|].
             apply (same_job_trans _ (set_history (history s4) s3));
               [constructor; reflexivity|apply same_session_job; exact F4]. }
           assert (is_processing s4 = false) as P4
             by (rewrite (ss_is_processing _ _ F4); exact P3).
           destruct r4 as [a4|e4].
           ++ destruct (broadcast_frame env
                          (Completed (length rs)
                             (length (List.filter not_not_found rs))) s4 w4)
                as (s5 & w5 & E5 & F5 & _).
              rewrite E5. unfold answer_of, state_of. cbn [fst snd].
              repeat apply conj; try reflexivity.
              ** rewrite (ss_is_processing _ _ F5). exact P4.
              ** apply (same_job_trans _ s4);
                   [exact J4|apply same_session_job; exact F5].
              ** intros [=].
           ++ destruct (background_handler env e4 s s4 w4 J4)
                as (s5 & w5 & E5 & P5 & J5 & _).
              munfold_in E5. cbv beta iota zeta in E5. cbv beta iota zeta. rewrite E5.
              unfold answer_of, state_of. cbn [fst snd].
              repeat apply conj; try assumption; try reflexivity.
              intros [=].
        -- destruct (background_handler env e3 s s3 w3 J3)
             as (s5 & w5 & E5 & P5 & J5 & _).
           munfold_in E5. cbv beta iota zeta in E5. cbv beta iota zeta. rewrite E5.
           unfold answer_of, state_of. cbn [fst snd].
           repeat apply conj; try assumption; try reflexivity.
           intros [=].
      * unfold answer_of, state_of. cbn [fst snd].
        repeat apply conj; try reflexivity.
        -- apply (same_job_trans _ s2); [exact J2|constructor; reflexivity].
        -- intros [=].
    + destruct (background_handler env e s s1 w1 (same_run_job _ _ R1))
        as (s5 & w5 & E5 & P5 & J5 & _).
      munfold_in E5. cbv beta iota zeta in E5. cbv beta iota zeta. rewrite E5.
      unfold answer_of, state_of. cbn [fst snd].
      repeat apply conj; try assumption; try reflexivity.
      intros [=].
  - destruct (background_handler env
                "No detector found - data may not be loaded" s s w J0)
      as (s5 & w5 & E5 & P5 & J5 & He & Hr & Hc & D).
    munfold_in E5. cbv beta iota zeta in E5. cbv beta iota zeta. rewrite E5.
    unfold answer_of, state_of, world_of. cbn [fst snd].
    repeat apply conj; try assumption; try reflexivity.
    intros _. repeat apply conj; assumption.
Qed.

Lemma X20_background_task_always_ends_idle_witness :
  error_message
    (state_of (process_parts_background Scenario.calm
                 (automotive (Scenario.catalog 2)) 0 initial_state
                 initial_world))
  = Some "No detector found - data may not be loaded".
Proof.
  exact (proj1 (proj2 (proj2 (proj2 (X20_background_task_always_ends_idle
           Scenario.calm (automotive (Scenario.catalog 2)) 0 initial_state
           initial_world))) eq_refl)).
Defined.


Lemma export_data_rows (s : ProcessingState) :
  export_data s
  = map result_row (results s)
    ++ map tool_row (loaded_parts tools s)
    ++ map unknown_row (loaded_parts unknown s).
Proof.
  unfold export_data, loaded_parts, result_row, tool_row, unknown_row.
  rewrite (fold_left_snoc_map
             (fun r => export_row (part r) (category r) (makes r) (source r))
             (results s) []).
  cbn [app].
  destruct (parts_data s) as [data|].
  - rewrite (fold_left_snoc_map
               (fun p => export_row p "Unknown" "UNKNOWN_CATEGORY" "N/A")),
      (fold_left_snoc_map (fun p => export_row p "Tools" "N/A (Tool)" "N/A")).
    rewrite <- app_assoc. reflexivity.
  - cbn [map]. rewrite !app_nil_r. reflexivity.
Qed.

(** X21.  [export_results] never changes the state.  With an empty
    result log it is answered with status 500, not with the 400 it
    raises: the handler's catch-all clause catches its own
    [HTTPException].  Otherwise the export holds one row per result, then
    one per tool part and one per unknown part, in that order, and
    [total_rows] is the sum of the three counts; a failing write is
    answered with 500. *)
Theorem X21_export_rows_and_status
    (env : Env) (s : ProcessingState) (w : World) :
  let out := export_results env s w in
  state_of out = s
  /\ (results s = [] -> out = (Ret (Raised 500), s, w))
  /\ (results s <> [] ->
      if disk_ok env (writes w)
      then exists rows : list ExportRow,
             answer_of out = Ret (Returned (length rows, rows))
             /\ rows = map result_row (results s)
                       ++ map tool_row (loaded_parts tools s)
                       ++ map unknown_row (loaded_parts unknown s)
             /\ length rows
                = (length (results s) + length (loaded_parts tools s)
                   + length (loaded_parts unknown s))%nat
      else answer_of out = Ret (Raised 500)).
Proof.
  cbn zeta. unfold export_results, except_exception, answer_of, state_of.
  munfold. repeat apply conj.
  - destruct (results s); [reflexivity|].
    destruct (disk_ok env (writes w)); reflexivity.
  - intros ->. reflexivity.
  - intros Hne. destruct (results s) as [|r rs] eqn:E; [congruence|].
    destruct (disk_ok env (writes w)); cbn [fst snd]; [|reflexivity].
    eexists. split; [reflexivity|].
    rewrite export_data_rows, E. split; [reflexivity|].
    rewrite !length_app, !length_map. lia.
Qed.

Lemma X21_export_rows_and_status_witness :
  export_results Scenario.calm (Scenario.loaded 2) initial_world
  = (Ret (Raised 500), Scenario.loaded 2, initial_world).
Proof.
  exact (proj1 (proj2 (X21_export_rows_and_status Scenario.calm
           (Scenario.loaded 2) initial_world)) eq_refl).
Defined.

(** X22.  [upload_csv] as a whole.  A file whose name does not end in
    [.csv] is answered with status 500, not with the 400 the handler
    raises, and changes nothing; so does a file that cannot be parsed.
    An accepted upload reports three counts that add up to the number of
    rows and leaves the catalog loaded with the run state cleared.  When
    only the removal of the temporary file fails, the request is answered
    with 500 although the catalog has already been replaced. *)
Theorem X22_upload_outcomes
    (env : Env) (filename : string) (df : option (list Row))
    (s : ProcessingState) (w : World) :
  let out := upload env filename df s w in
  (endswith filename ".csv" = false -> out = (Ret (Raised 500), s, w))
  /\ (endswith filename ".csv" = true -> disk_ok env (writes w) = true ->
      df = None -> answer_of out = Ret (Raised 500) /\ state_of out = s)
  /\ (forall rows : list Row,
        endswith filename ".csv" = true -> disk_ok env (writes w) = true ->
        df = Some rows ->
        let categorized := categorize_parts rows in
        state_of out
        = reset_processing_only
            (set_total_parts (Z.of_nat (length (automotive categorized)))
               (set_parts_data (Some categorized)
                  (set_detector (Some NoDriver) s)))
        /\ parts_data (state_of out) = Some categorized
        /\ is_processing (state_of out) = false
        /\ results (state_of out) = []
        /\ make_leaderboard (state_of out) = []
        /\ history (state_of out) = history s
        /\ connected_clients (state_of out) = connected_clients s
        /\ if disk_ok env (S (writes w))
           then exists counts : Uploaded,
                  answer_of out = Ret (Returned counts)
                  /\ (total_automotive_parts counts + total_tool_parts counts
                      + total_unknown_parts counts = length rows)%nat
                  /\ total_parts (state_of out)
                     = Z.of_nat (total_automotive_parts counts)
           else answer_of out = Ret (Raised 500)).
Proof.
  cbn zeta. unfold upload, except_exception, upload_csv, unlink,
    answer_of, state_of.
  munfold. repeat apply conj.
  - intros ->. reflexivity.
  - intros H1 H2 H3. rewrite H1. cbv beta iota zeta. cbn [negb].
    rewrite H2, H3. split; reflexivity.
  - intros rows H1 H2 H3. rewrite H1. cbv beta iota zeta. cbn [negb].
    rewrite H2, H3. cbn [negb fst snd writes set_writes].
    destruct (disk_ok env (S (writes w))); cbn [fst snd];
      repeat apply conj; try reflexivity.
    eexists. split; [reflexivity|].
    cbn [total_automotive_parts total_tool_parts total_unknown_parts].
    split; [|reflexivity].
    apply categorize_parts_counts.
Qed.


Lemma X22_upload_outcomes_witness :
  upload Scenario.calm "parts.txt" (Some []) initial_state initial_world
  = (Ret (Raised 500), initial_state, initial_world).
Proof.
  exact (proj1 (X22_upload_outcomes Scenario.calm "parts.txt" (Some [])
           initial_state initial_world) eq_refl).
Defined.

(** X23.  Stop and Resume fit together.  A Stop request with no run in
    progress does nothing.  When the Stop handler finishes for a session
    with an id, it writes a checkpoint of the state as it is then, tells
    every observer [stopped] with the length of the result log, and
    clears the running flag.  Resume on that checkpoint is accepted
    exactly when records of the range are left, restarts at
    [start_index + processed_count] with the log, the count and the
    leaderboard of the checkpoint, and hands the worker the rest of the
    range. *)
Theorem X23_stop_saves_what_resume_continues
    (env : Env) (s : ProcessingState) (w : World) (id : string)
    (data : PartsData) :
  (is_processing s = false -> stop_processing env s w = (Ret None, s, w))
  /\ (current_session_id s = Some id -> disk_ok env (writes w) = true ->
      parts_data s = Some data ->
      let stopped := stop_processing_end env s w in
      let left := end_index s - start_index s - processed_count s in
      let resumed :=
        resume_session env id (state_of stopped) (world_of stopped) in
      answer_of stopped = Ret (length (results s))
      /\ is_processing (state_of stopped) = false
      /\ same_job s (state_of stopped)
      /\ sessions (world_of stopped) !! id = Some (session_data_of id s)
      /\ (forall c : conn,
            List.NoDup (active_connections w) -> In c (active_connections w) ->
            send_ok env (clock w) c = true ->
            last (inbox c (world_of stopped))
            = Some (Stopped (length (results s))))
      /\ (accepted_answer (answer_of resumed) = true <-> 0 < left)
      /\ (0 < left ->
          answer_of resumed
          = Ret (SessionResumed (Some id) (start_index s + processed_count s)
                   left (processed_count s)
                   (slice (start_index s + processed_count s) (end_index s)
                      (automotive data)))
          /\ results (state_of resumed) = results s
          /\ processed_count (state_of resumed) = processed_count s
          /\ make_leaderboard (state_of resumed) = make_leaderboard s
          /\ is_processing (state_of resumed) = true
          /\ should_stop (state_of resumed) = false)).
Proof.
  split.
  - intros Hidle. unfold stop_processing, stop_processing_begin. munfold.
    rewrite Hidle. reflexivity.
  - intros Hid Hdisk Hdata. cbn zeta.
    unfold stop_processing_end. munfold. rewrite Hid.
    rewrite (save_session_ok env s w id Hid Hdisk). cbv beta iota zeta.
    rewrite broadcast_spec. cbv zeta.
    unfold answer_of, state_of, world_of. cbn [fst snd].
    set (s1 := set_is_processing false _).
    set (w1 := set_active_connections _ _).
    assert (sessions w1 !! id = Some (session_data_of id s)) as Hsaved.
    { subst w1. cbn [sessions set_active_connections set_delivered set_clock
                     set_sessions set_writes].
      apply lookup_insert_eq. }
    assert (is_processing s1 = false) as Hidle1 by reflexivity.
    assert (accepted_answer (fst (fst (resume_session env id s1 w1))) = true
            <-> 0 < end_index s - start_index s - processed_count s) as Hiff.
    { unfold accepted_answer, resume_session, load_session. munfold.
      rewrite Hidle1, Hsaved. simpl. rewrite Hdata.
      destruct (Z.leb_spec (end_index s - start_index s - processed_count s) 0);
        simpl; split.
      - intros H0. discriminate H0.
      - intros H0. lia.
      - intros _. assumption.
      - intros _. reflexivity. }
    repeat apply conj; try reflexivity.
    + constructor; reflexivity.
    + exact Hsaved.
    + intros c Hn Hc Hok. subst w1. unfold inbox.
      cbn [delivered set_active_connections set_delivered set_clock
           set_sessions set_writes active_connections clock].
      rewrite List.filter_app, map_app.
      assert (In c (List.filter (send_ok env (clock w)) (active_connections w)))
        as Hin by (apply filter_In; split; assumption).
      rewrite (inbox_of_round c _ _ (List.NoDup_filter _ Hn) Hin).
      apply last_snoc.
    + apply Hiff.
    + apply Hiff.
    + intros Hleft.
      assert (sd_parts_data (session_data_of id s) = Some data) as Hd
        by exact Hdata.
      destruct (resume_session_accepts env id s1 w1 (session_data_of id s) data
                  Hidle1 Hsaved Hd Hleft) as (Ha & Hc & Hr & Hl & Hp & Hs).
      repeat apply conj; assumption.
Qed.


Lemma X23_stop_saves_what_resume_continues_witness :
  let s := set_current_session_id (Some "session-1") (Scenario.loaded 2) in
  answer_of (stop_processing_end Scenario.calm s initial_world)
  = Ret (length (results s)).
Proof.
  exact (proj1 (proj2 (X23_stop_saves_what_resume_continues Scenario.calm
           (set_current_session_id (Some "session-1") (Scenario.loaded 2))
           initial_world "session-1" (Scenario.catalog 2))
           eq_refl eq_refl eq_refl)).
Defined.

Lemma start_processing_accepts (env : Env) (s : ProcessingState) (w : World)
    (data : PartsData) (a b : Z) :
  is_processing s = false -> parts_data s = Some data ->
  0 <= a < b -> b <= Z.of_nat (length (automotive data)) ->
  start_processing env (Start a b) s w
  = (Ret (ProcessingStarted (new_session_id env) a b
            (slice a b (automotive data))),
     set_error_message None
       (set_should_stop false
          (set_results []
             (set_processed_count 0
                (set_end_index b
                   (set_start_index a
                      (set_current_session_id (Some (new_session_id env))
                         (set_is_processing true s))))))),
     w).
Proof.
  intros Hidle Hdata Hab Hb. unfold start_processing. munfold.
  rewrite Hidle, Hdata. cbn [is_test req_start_index req_end_index Start].
  assert (Z.ltb a 0 || Z.geb a (Z.of_nat (length (automotive data))) = false)
    as ->.
  { apply orb_false_iff. split; [apply Z.ltb_ge; lia|].
    rewrite Z.geb_leb. apply Z.leb_gt. lia. }
  assert (Z.leb b a = false) as -> by (apply Z.leb_gt; lia).
  assert (Z.gtb b (Z.of_nat (length (automotive data))) = false) as ->
    by (rewrite Z.gtb_ltb; apply Z.ltb_ge; lia).
  reflexivity.
Qed.

Lemma background_calm_result (env : Env) (parts : list Part) (start_idx : Z)
    (s : ProcessingState) (w : World) (id : string) :
  stop_at env = None -> (forall n, disk_ok env n = true) ->
  should_stop s = false -> browser_usable s ->
  0 <= processed_count s -> current_session_id s = Some id -> parts <> [] ->
  let rs := map (lookup_result env) parts in
  exists s1 w1,
    process_parts_background env parts start_idx s w = (Ret tt, s1, w1)
    /\ results s1 = rs
    /\ processed_count s1 = processed_count s + Z.of_nat (length parts)
    /\ make_leaderboard s1 = board_after (make_leaderboard s) rs
    /\ is_processing s1 = false
    /\ error_message s1 = error_message s
    /\ stop_pending w1 = stop_pending w.
Proof.
  intros Hstop Hdisk Hflag Husable Hk Hid Hne. cbn zeta.
  destruct (background_calm env parts start_idx s w id
              Hstop Hdisk Hflag Husable Hk Hid Hne)
    as (s2 & w2 & s3 & E2 & Hr & Hc & Hl & Hp & Hf & Hd & Hi & He & Hh & _ & _ & E).
  destruct (batch_loop_calm env start_idx (processed_count s) Hstop Hdisk Hk
              parts 0%nat [] s w Hflag Husable ltac:(simpl; lia))
    as (s2' & w2' & E2' & _ & _ & _ & _ & _ & _ & _ & Hsp & _).
  cbn zeta in *. cbn [app] in E2'. rewrite E2 in E2'.
  assert (w2' = w2) as -> by congruence.
  rewrite E, broadcast_spec. cbv zeta. eexists _, _. split; [reflexivity|].
  cbn [results processed_count make_leaderboard is_processing error_message
       set_connected_clients stop_pending set_active_connections set_delivered
       set_clock set_history_files set_writes set_sessions].
  repeat apply conj; assumption.
Qed.

(** X24.  From Start to the end of the run.  [Start(a, b)] with a valid
    range, followed by a task that nothing disturbs, leaves the results
    of the records [a .. b - 1] in order and a count of [b - a].  Start
    clears the log and the count but not the leaderboard: the run adds
    its results to the leaderboard that was there, so a second run after
    the same upload counts on top of the first. *)
Theorem X24_start_to_finish_adds_to_the_leaderboard
    (env : Env) (s : ProcessingState) (w : World) (data : PartsData)
    (a b : Z) :
  stop_at env = None -> (forall n, disk_ok env n = true) ->
  is_processing s = false -> parts_data s = Some data ->
  browser_usable s -> stop_pending w = false ->
  0 <= a < b -> b <= Z.of_nat (length (automotive data)) ->
  let out :=
    (r ← start_processing env (Start a b); run_task env r;; mret r) s w in
  let rs := map (lookup_result env) (slice a b (automotive data)) in
  answer_of out
  = Ret (ProcessingStarted (new_session_id env) a b
           (slice a b (automotive data)))
  /\ results (state_of out) = rs
  /\ length rs = Z.to_nat (b - a)
  /\ processed_count (state_of out) = b - a
  /\ make_leaderboard (state_of out) = board_after (make_leaderboard s) rs
  /\ is_processing (state_of out) = false
  /\ error_message (state_of out) = None.
Proof.
  intros Hstop Hdisk Hidle Hdata Husable Hpending Hab Hb. cbn zeta.
  assert (length (slice a b (automotive data)) = Z.to_nat (b - a)) as Hlen
    by (apply slice_length; lia).
  assert (slice a b (automotive data) <> []) as Hne.
  { intros E. rewrite E in Hlen. simpl in Hlen. lia. }
  unfold run_task. munfold.
  rewrite (start_processing_accepts env s w data a b Hidle Hdata Hab Hb).
  cbv beta iota zeta.
  set (s0 := set_error_message None _).
  destruct (background_calm_result env (slice a b (automotive data)) a s0 w
              (new_session_id env) Hstop Hdisk eq_refl Husable
              ltac:(simpl; lia) eq_refl Hne)
    as (s1 & w1 & E1 & Hr & Hc & Hl & Hp & He & Hsp).
  rewrite E1. cbv beta iota zeta. rewrite Hsp, Hpending.
  unfold ret. cbv beta iota zeta.
  unfold answer_of, state_of. cbn [fst snd].
  split; [reflexivity|]. split; [exact Hr|].
  split; [rewrite length_map; exact Hlen|].
  split; [rewrite Hc, Hlen; change (processed_count s0) with 0; lia|].
  split; [exact Hl|]. split; [exact Hp|exact He].
Qed.


Lemma X24_start_to_finish_adds_to_the_leaderboard_witness :
  results (state_of
    ((r ← start_processing Scenario.calm (Start 0 3);
      run_task Scenario.calm r;; mret r) (Scenario.loaded 3) initial_world))
  = map (lookup_result Scenario.calm)
        (slice 0 3 (automotive (Scenario.catalog 3))).
Proof.
  refine (proj1 (proj2 (X24_start_to_finish_adds_to_the_leaderboard
            Scenario.calm (Scenario.loaded 3) initial_world
            (Scenario.catalog 3) 0 3
            eq_refl (fun _ => eq_refl) eq_refl eq_refl _ eq_refl _ _))).
  - left. reflexivity.
  - lia.
  - simpl. lia.
Defined.

End RunFacts.

(** * Makes guessed from the part number *)

Section ContextFacts.
Import Text Leaderboard Backend Catalog Views.

Lemma upper_append (a b : string) : upper (a +:+ b) = upper a +:+ upper b.
Proof.
  induction a as [|c a IH]; [reflexivity|].
  change (String c a +:+ b) with (String c (a +:+ b)).
  cbn [upper]. rewrite IH. reflexivity.
Qed.

Lemma contains_upper (p q : string) :
  contains p q = true -> contains (upper p) (upper q) = true.
Proof.
  intros H. apply contains_append in H. destruct H as [x [y H]].
  apply contains_append. exists (upper x), (upper y).
  rewrite H, !upper_append. reflexivity.
Qed.

Lemma any_in_mono (keywords : list string) (a b : string) :
  contains a b = true -> any_in keywords a = true -> any_in keywords b = true.
Proof.
  intros Hab H. unfold any_in in *. apply existsb_exists in H.
  destruct H as [k [Hk Hc]]. apply existsb_exists. exists k.
  split; [exact Hk|]. apply (contains_trans _ a); assumption.
Qed.

Lemma fold_patterns_spec (part_upper : string)
    (items : list (string * list string)) :
  forall acc : list string,
    List.NoDup acc ->
    let makes := fold_left (add_if_pattern part_upper) items acc in
    List.NoDup makes
    /\ forall make : string,
         In make makes <->
         In make acc
         \/ exists patterns, In (make, patterns) items
                             /\ any_in patterns part_upper = true.
Proof.
  induction items as [|[m pats] items IH]; intros acc Hn; cbn zeta.
  - split; [exact Hn|]. intros make. simpl. split; [auto|].
    intros [H|[pats [[] _]]]. exact H.
  - cbn [fold_left].
    assert (add_if_pattern part_upper acc (m, pats)
            = if any_in pats part_upper then set_add m acc else acc) as ->
      by reflexivity.
    destruct (any_in pats part_upper) eqn:E.
    + destruct (IH (set_add m acc) (set_add_NoDup m acc Hn)) as [H1 H2].
      split; [exact H1|]. intros make. split.
      * intros H. apply H2 in H. destruct H as [H|[ps [Hin Hp]]].
        -- apply set_add_In in H. destruct H as [->|H].
           ++ right. exists pats. split; [left; reflexivity|exact E].
           ++ left. exact H.
        -- right. exists ps. split; [right; exact Hin|exact Hp].
      * intros H. apply H2. destruct H as [H|[ps [[Heq|Hin] Hp]]].
        -- left. apply set_add_In. right. exact H.
        -- injection Heq as -> ->. left. apply set_add_In. left. reflexivity.
        -- right. exists ps. split; assumption.
    + destruct (IH acc Hn) as [H1 H2].
      split; [exact H1|]. intros make. split.
      * intros H. apply H2 in H. destruct H as [H|[ps [Hin Hp]]];
          [left; exact H|].
        right. exists ps. split; [right; exact Hin|exact Hp].
      * intros H. apply H2. destruct H as [H|[ps [[Heq|Hin] Hp]]].
        -- left. exact H.
        -- injection Heq as -> ->. congruence.
        -- right. exists ps. split; assumption.
Qed.

Lemma extract_from_part_context_spec (part_number : string) :
  List.NoDup (_extract_from_part_context part_number)
  /\ forall make : string,
       In make (_extract_from_part_context part_number) <->
       (exists patterns, In (make, patterns) part_patterns
                         /\ any_in patterns (upper part_number) = true)
       \/ (make = "Ford" /\ head_gasket_rule (upper part_number) = true).
Proof.
  unfold _extract_from_part_context, head_gasket_rule. cbv zeta.
  destruct (fold_patterns_spec (upper part_number) part_patterns []
              (List.NoDup_nil _)) as [Hn Hi].
  cbn zeta in Hn, Hi.
  set (makes := fold_left _ _ _) in *.
  assert (forall make, In make makes <->
            exists patterns, In (make, patterns) part_patterns
                             /\ any_in patterns (upper part_number) = true)
    as Hi'.
  { intros make. split.
    - intros H. apply Hi in H. destruct H as [[]|H]. exact H.
    - intros H. apply Hi. right. exact H. }
  destruct (any_in ["HS"; "HEAD"] (upper part_number));
    [destruct (any_in ["54657"; "5465"] (upper part_number))|]; cbn [andb].
  - split; [apply set_add_NoDup; exact Hn|].
    intros make. split.
    + intros H. apply set_add_In in H. destruct H as [->|H]; [right; auto|].
      left. apply Hi'. exact H.
    + intros [H|[-> _]]; apply set_add_In.
      * right. apply Hi'. exact H.
      * left. reflexivity.
  - split; [exact Hn|]. intros make. split.
    + intros H. left. apply Hi'. exact H.
    + intros [H|[_ H]]; [apply Hi'; exact H|discriminate].
  - split; [exact Hn|]. intros make. split.
    + intros H. left. apply Hi'. exact H.
    + intros [H|[_ H]]; [apply Hi'; exact H|discriminate].
Qed.

(** X25.  [_extract_from_part_context] guesses makes from the part
    number alone: a make is returned exactly when one of its patterns
    occurs in the upper-cased part number, or, for Ford, when the
    head-gasket rule fires; no make is returned twice.  The guess ignores
    the case of the letters, and a part number that contains another one
    gets at least the makes of the one it contains. *)
Theorem X25_part_context_matches_patterns :
  (forall part_number : string,
     List.NoDup (_extract_from_part_context part_number)
     /\ forall make : string,
          In make (_extract_from_part_context part_number) <->
          (exists patterns, In (make, patterns) part_patterns
                            /\ any_in patterns (upper part_number) = true)
          \/ (make = "Ford" /\ head_gasket_rule (upper part_number) = true))
  /\ (forall part_number : string,
        _extract_from_part_context (upper part_number)
        = _extract_from_part_context part_number)
  /\ (forall inner outer : string,
        contains inner outer = true ->
        forall make : string,
          In make (_extract_from_part_context inner) ->
          In make (_extract_from_part_context outer)).
Proof.
  split; [exact extract_from_part_context_spec|]. split.
  - intros part_number. unfold _extract_from_part_context.
    rewrite upper_upper. reflexivity.
  - intros inner outer Hc make Hin.
    apply (proj2 (extract_from_part_context_spec outer)).
    apply (proj2 (extract_from_part_context_spec inner)) in Hin.
    pose proof (contains_upper _ _ Hc) as Hu.
    destruct Hin as [[pats [Hp Ha]]|[-> Hr]].
    + left. exists pats. split; [exact Hp|].
      apply (any_in_mono _ (upper inner)); assumption.
    + right. split; [reflexivity|]. unfold head_gasket_rule in *.
      apply andb_true_iff in Hr. destruct Hr as [H1 H2].
      apply andb_true_iff. split;
        apply (any_in_mono _ (upper inner)); assumption.
Qed.

Lemma X25_part_context_matches_patterns_witness :
  In "Mercedes" (_extract_from_part_context "SL500")
  /\ In "Mercedes" (_extract_from_part_context "X-SL500-B").
Proof.
  assert (In "Mercedes" (_extract_from_part_context "SL500")) as H
    by (vm_compute; tauto).
  split; [exact H|].
  exact (proj2 (proj2 X25_part_context_matches_patterns) "SL500" "X-SL500-B"
           eq_refl "Mercedes" H).
Defined.

End ContextFacts.
